(** * File Router: configuration store, history log and routing engine

    A shallow embedding of [file_teleporter_improved.py]: the configuration
    manager ([generate_default_config], [ConfigManager.load],
    [ConfigManager.save]), the history log ([MainWindow._add_history_entry]),
    the routing engine ([MainWindow.handle_drop]) and the import / export
    commands ([MainWindow.export_config], [MainWindow.import_config]).

    The operating system, [shutil], [json], [uuid] and [datetime] are an
    interface ([Host]); the program is written against it, and every theorem
    that does not name a particular host holds for all of them. *)

From Stdlib Require Import String Ascii ZArith List Lia.
From stdpp Require Import base option list gmap strings pretty.

#[local] Set Warnings "-register-all".

(** ** Documents

    What [json.load] returns and [json.dump] accepts.  A Python [dict] with
    string keys is a finite map: equality of dicts does not look at the
    insertion order, and neither does [gmap]'s. *)

Inductive json :=
| JNull
| JBool (b : bool)
| JInt (n : Z)
| JFloat (mantissa exponent : Z)
| JStr (s : string)
| JArr (l : list json)
| JObj (m : gmap string json).

(** Text of a raised exception, [str(e)]. *)
Definition exn := string.

Inductive result (A : Type) :=
| Ok (a : A)
| Raise (e : exn).
Arguments Ok {A} a.
Arguments Raise {A} e.

(** ** The host

    [W] is the state of the world outside the process: the file system, the
    clock and the source of random identifiers.  An operation that can raise
    returns the exception text and the world it leaves behind (a failed
    [copytree] may have copied half a tree). *)

Class Host := {
  W : Type;
  (** the module constant [CONFIG_FILENAME = get_config_path()] *)
  CONFIG_FILENAME : string;
  (** [os.path.exists], [os.path.isdir]: queries, they never raise *)
  os_path_exists : string -> W -> bool;
  os_path_isdir : string -> W -> bool;
  (** [s.rstrip(os.sep)], [os.path.basename], [os.path.join] *)
  rstrip_sep : string -> string;
  os_path_basename : string -> string;
  os_path_join : string -> string -> string;
  (** [shutil.rmtree], [shutil.copytree], [shutil.copy2], [os.remove] *)
  shutil_rmtree : string -> W -> result unit * W;
  shutil_copytree : string -> string -> W -> result unit * W;
  shutil_copy2 : string -> string -> W -> result unit * W;
  os_remove : string -> W -> result unit * W;
  (** [with open(path, "w") as f: json.dump(data, f, indent=2)] *)
  open_write_json : string -> json -> W -> result unit * W;
  (** [with open(path, "r") as f: json.load(f)] *)
  open_read_json : string -> W -> result json * W;
  (** [str(uuid.uuid4())] *)
  uuid4 : W -> string * W;
  (** [datetime.now().strftime("%Y-%m-%d %H:%M:%S")] *)
  datetime_now : W -> string
}.

(** ** Computations that read and change the world and may raise *)

Section Monad.
Context `{Host}.

Definition M (A : Type) : Type := W -> result A * W.

Definition M_ret {A} (a : A) : M A := fun w => (Ok a, w).

Definition M_bind {A B} (f : A -> M B) (m : M A) : M B :=
  fun w => match m w with
           | (Ok a, w') => f a w'
           | (Raise e, w') => (Raise e, w')
           end.

#[global] Instance M_mret : MRet M := @M_ret.
#[global] Instance M_mbind : MBind M := @M_bind.

Definition raise {A} (e : exn) : M A := fun w => (Raise e, w).

(** A query of the world. *)
Definition reads {A} (f : W -> A) : M A := fun w => (Ok (f w), w).

(** An operation of the world that cannot raise. *)
Definition draws {A} (f : W -> A * W) : M A := fun w => (Ok (f w).1, (f w).2).

(** [try: body except Exception as e: handler(e)] *)
Definition try_except {A} (body : M A) (handler : exn -> M A) : M A :=
  fun w => match body w with
           | (Ok a, w') => (Ok a, w')
           | (Raise e, w') => handler e w'
           end.

(** [for x in l: f(x)], collecting what [f] makes of each element; the loop
    stops at the first exception. *)
Fixpoint for_each {A B} (f : A -> M B) (l : list A) : M (list B) :=
  match l with
  | [] => mret []
  | x :: l' => y ← f x; ys ← for_each f l'; mret (y :: ys)
  end.

End Monad.

(** ** Operation mode constants *)

Definition OP_COPY_REPLACE : string := "copy_replace".
Definition OP_COPY_NEW : string := "copy_new".
Definition OP_MOVE_REPLACE : string := "move_replace".
Definition OP_MOVE_NEW : string := "move_new".

(** [op in {OP_COPY_REPLACE, OP_COPY_NEW, OP_MOVE_REPLACE, OP_MOVE_NEW}] for a
    string [op]. *)
Definition is_operation (op : string) : bool :=
  String.eqb op OP_COPY_REPLACE || String.eqb op OP_COPY_NEW
  || String.eqb op OP_MOVE_REPLACE || String.eqb op OP_MOVE_NEW.

(** ** Python on documents *)

(** [x == s] for a string literal [s]: only a string is equal to a string. *)
Definition py_eq_str (x : json) (s : string) : bool :=
  match x with
  | JStr s' => String.eqb s' s
  | _ => false
  end.

(** [d.setdefault(k, v)] on a dict: a present key keeps its value. *)
Definition setdefault (k : string) (v : json) (m : gmap string json)
  : gmap string json :=
  match m !! k with
  | Some _ => m
  | None => <[k := v]> m
  end.

Section Python.
Context `{Host}.

(** [key in data]: a key of a dict, an element of a list, a substring of a
    string; [TypeError] for anything else. *)
Definition py_contains (data : json) (key : string) : M bool :=
  match data with
  | JObj m => mret (bool_decide (is_Some (m !! key)))
  | JArr l => mret (existsb (fun x => py_eq_str x key) l)
  | JStr s => mret (bool_decide (is_Some (index 0 key s)))
  | _ => raise "TypeError: argument is not iterable"
  end.

(** [data[key]] for a string [key]. *)
Definition py_getitem (data : json) (key : string) : M json :=
  match data with
  | JObj m =>
      match m !! key with
      | Some v => mret v
      | None => raise ("KeyError: " +:+ key)
      end
  | JArr _ => raise "TypeError: list indices must be integers or slices, not str"
  | JStr _ => raise "TypeError: string indices must be integers, not 'str'"
  | _ => raise "TypeError: object is not subscriptable"
  end.

(** [op not in {OP_COPY_REPLACE, OP_COPY_NEW, OP_MOVE_REPLACE, OP_MOVE_NEW}]:
    membership in a set hashes [op] first, and a list or a dict is not
    hashable. *)
Definition not_in_operations (op : json) : M bool :=
  match op with
  | JStr s => mret (negb (is_operation s))
  | JArr _ => raise "TypeError: unhashable type: 'list'"
  | JObj _ => raise "TypeError: unhashable type: 'dict'"
  | _ => mret true
  end.

End Python.

(** ** Configuration manager *)

Section ConfigManager.
Context `{Host}.

(** One tab of the default configuration, [i] from [range(1, 6)]; [pretty i]
    is the decimal numeral of the f-string. *)
Definition default_tab (i : nat) : M json :=
  u ← draws uuid4;
  mret (JObj {[ "id" := JStr u;
                "name" := JStr ("L" +:+ pretty i);
                "path" := JStr "";
                "operation" := JStr OP_COPY_REPLACE;
                "history" := JArr [] ]}).

Definition generate_default_config : M json :=
  tabs ← for_each default_tab (seq 1 5);
  mret (JObj {[ "tabs" := JArr tabs ]}).

(** The body of the loop [for t in data["tabs"]] of [ConfigManager.load].
    The default of [setdefault("id", str(uuid.uuid4()))] is evaluated whether
    the key is present or not. *)
Definition load_tab (t : json) : M json :=
  match t with
  | JObj m =>
      u ← draws uuid4;
      let m := setdefault "id" (JStr u) m in
      let m := setdefault "name" (JStr "Unnamed") m in
      let m := setdefault "path" (JStr "") m in
      let op := default (JStr OP_COPY_REPLACE) (m !! "operation") in
      op ← (if py_eq_str op "copy" then mret (JStr OP_COPY_REPLACE)
            else if py_eq_str op "move" then mret (JStr OP_MOVE_REPLACE)
            else
              unknown ← not_in_operations op;
              if unknown : bool then mret (JStr OP_COPY_REPLACE) else mret op);
      let m := <["operation" := op]> m in
      let m := setdefault "history" (JArr []) m in
      mret (JObj m)
  | _ => raise "AttributeError: object has no attribute 'setdefault'"
  end.

(** The [try] block of [ConfigManager.load]. *)
Definition load_try : M json :=
  data ← open_read_json CONFIG_FILENAME;
  has_tabs ← py_contains data "tabs";
  if negb has_tabs then generate_default_config
  else
    tabs ← py_getitem data "tabs";
    match tabs, data with
    | JArr ts, JObj m =>
        ts' ← for_each load_tab ts;
        mret (JObj (<["tabs" := JArr ts']> m))
    | JArr _, _ => mret data
    | _, _ => generate_default_config
    end.

(** [ConfigManager.load].  The handler prints the exception and returns the
    default configuration; the print is left out. *)
Definition load : M json :=
  exists_ ← reads (os_path_exists CONFIG_FILENAME);
  if negb exists_ then generate_default_config
  else try_except load_try (fun _ => generate_default_config).

(** [ConfigManager.save]: an exception of the write is printed and goes no
    further. *)
Definition save (data : json) : M unit :=
  try_except (open_write_json CONFIG_FILENAME data) (fun _ => mret ()).

End ConfigManager.

(** ** Tabs and history entries of the running window

    The routing engine and the history log read a tab's fields at the types
    the data model gives them: [id], [name], [path] and [operation] are
    strings and [history] is a list of entries. *)

Record HistoryEntry := {
  timestamp : string;
  operation : string;
  source : string;
  destination : string;
  outcome : string          (* the entry's "result" *)
}.

Record Tab := {
  tab_id : string;
  tab_name : string;
  tab_path : string;
  tab_operation : string;
  tab_history : list HistoryEntry
}.

(** [self.config["tabs"]] *)
Definition Config := list Tab.

Definition json_of_entry (e : HistoryEntry) : json :=
  JObj {[ "timestamp" := JStr (timestamp e);
          "operation" := JStr (operation e);
          "source" := JStr (source e);
          "destination" := JStr (destination e);
          "result" := JStr (outcome e) ]}.

Definition json_of_tab (t : Tab) : json :=
  JObj {[ "id" := JStr (tab_id t);
          "name" := JStr (tab_name t);
          "path" := JStr (tab_path t);
          "operation" := JStr (tab_operation t);
          "history" := JArr (json_of_entry <$> tab_history t) ]}.

(** The document [self.config] that [save] and [export_config] write. *)
Definition json_of_config (cfg : Config) : json :=
  JObj {[ "tabs" := JArr (json_of_tab <$> cfg) ]}.

(** [for t in self.config["tabs"]: if t["id"] == tab_id: return t] *)
Fixpoint _get_tab_config_by_id (cfg : Config) (id : string) : option Tab :=
  match cfg with
  | [] => None
  | t :: cfg' =>
      if String.eqb (tab_id t) id then Some t
      else _get_tab_config_by_id cfg' id
  end.

(** A change made through the reference [_get_tab_config_by_id] returned: it
    reaches the first tab with that id and no other. *)
Fixpoint update_tab (f : Tab -> Tab) (id : string) (cfg : Config) : Config :=
  match cfg with
  | [] => []
  | t :: cfg' =>
      if String.eqb (tab_id t) id then f t :: cfg'
      else t :: update_tab f id cfg'
  end.

(** ** History log *)

(** [history[-200:]] *)
Definition last_200 (history : list HistoryEntry) : list HistoryEntry :=
  skipn (length history - 200) history.

(** [history.append(entry); if len(history) > 200: history[:] = history[-200:]] *)
Definition append_entry (entry : HistoryEntry) (history : list HistoryEntry)
  : list HistoryEntry :=
  let history := history ++ [entry] in
  if 200 <? length history then last_200 history else history.

Definition with_history (f : list HistoryEntry -> list HistoryEntry) (t : Tab)
  : Tab :=
  {| tab_id := tab_id t; tab_name := tab_name t; tab_path := tab_path t;
     tab_operation := tab_operation t; tab_history := f (tab_history t) |}.

Section MainWindow.
Context `{Host}.

Definition _add_history_entry (id op src dest res : string) (cfg : Config)
  : M Config :=
  match _get_tab_config_by_id cfg id with
  | None => mret cfg
  | Some _ =>
      now ← reads datetime_now;
      let entry := {| timestamp := now; operation := op; source := src;
                      destination := dest; outcome := res |} in
      let cfg := update_tab (with_history (append_entry entry)) id cfg in
      save (json_of_config cfg);;
      mret cfg
  end.

(** ** Routing engine *)

(** The counters of one batch. *)
Record Tally := {
  successes : nat;
  failures : nat;
  failure_messages : list string
}.

Definition failed (msg : string) (t : Tally) : Tally :=
  {| successes := successes t; failures := failures t + 1;
     failure_messages := failure_messages t ++ [msg] |}.

Definition succeeded (t : Tally) : Tally :=
  {| successes := successes t + 1; failures := failures t;
     failure_messages := failure_messages t |}.

(** [mode in (OP_COPY_NEW, OP_MOVE_NEW)] and its two siblings *)
Definition new_only (mode : string) : bool :=
  String.eqb mode OP_COPY_NEW || String.eqb mode OP_MOVE_NEW.
Definition replaces (mode : string) : bool :=
  String.eqb mode OP_COPY_REPLACE || String.eqb mode OP_MOVE_REPLACE.
Definition moves (mode : string) : bool :=
  String.eqb mode OP_MOVE_REPLACE || String.eqb mode OP_MOVE_NEW.

(** "Perform copy / replace" *)
Definition copy_step (mode src target : string) (exists_ : bool) : M unit :=
  is_dir ← reads (os_path_isdir src);
  if is_dir : bool then
    (if exists_ && replaces mode then shutil_rmtree target else mret ());;
    shutil_copytree src target
  else shutil_copy2 src target.

(** "Handle move (delete source)" *)
Definition delete_step (mode src : string) : M unit :=
  if moves mode then
    is_dir ← reads (os_path_isdir src);
    if is_dir : bool then shutil_rmtree src else os_remove src
  else mret ().

(** The body of [for src in src_paths].  The statements of the [try] block
    that can raise come before [successes += 1], so the handler starts from
    the counters and the configuration the item started with. *)
Definition drop_item (id mode dest_root src : string) (st : Tally * Config)
  : M (Tally * Config) :=
  let '(t, cfg) := st in
  src_exists ← reads (os_path_exists src);
  if negb src_exists then
    let msg := "Source does not exist: " +:+ src in
    cfg ← _add_history_entry id mode src "" ("failed: " +:+ msg) cfg;
    mret (failed msg t, cfg)
  else
    let name := os_path_basename (rstrip_sep src) in
    let target := os_path_join dest_root name in
    exists_ ← reads (os_path_exists target);
    try_except
      (if new_only mode && exists_ then
         cfg ← _add_history_entry id mode src target
                 "skipped (target exists, NEW only)" cfg;
         mret (t, cfg)
       else
         copy_step mode src target exists_;;
         delete_step mode src;;
         cfg ← _add_history_entry id mode src target "success" cfg;
         mret (succeeded t, cfg))
      (fun e =>
         let msg := "Failed to " +:+ mode +:+ " '" +:+ src +:+ "': " +:+ e in
         cfg ← _add_history_entry id mode src target ("failed: " +:+ e) cfg;
         mret (failed msg t, cfg)).

Fixpoint drop_loop (id mode dest_root : string) (src_paths : list string)
    (st : Tally * Config) : M (Tally * Config) :=
  match src_paths with
  | [] => mret st
  | src :: rest =>
      st ← drop_item id mode dest_root src st;
      drop_loop id mode dest_root rest st
  end.

(** What [handle_drop] tells the user: the two early errors, or the status
    line (and the warning box listing [failure_messages] when a failure was
    counted) that closes a batch. *)
Inductive DropStatus :=
| TabNotFound
| NoValidDestination (name : string)
| BatchDone (mode dest_root name : string) (tally : Tally).

(** The [error] flag of the [show_status] call. *)
Definition is_error (s : DropStatus) : bool :=
  match s with
  | TabNotFound | NoValidDestination _ => true
  | BatchDone _ _ _ t => negb (failures t =? 0)
  end.

Definition handle_drop (id : string) (src_paths : list string) (cfg : Config)
  : M (DropStatus * Config) :=
  match _get_tab_config_by_id cfg id with
  | None => mret (TabNotFound, cfg)
  | Some tab =>
      let dest_root := tab_path tab in
      invalid ← (if String.eqb dest_root "" then mret true
                 else is_dir ← reads (os_path_isdir dest_root);
                      mret (negb is_dir));
      if invalid : bool then mret (NoValidDestination (tab_name tab), cfg)
      else
        let mode := tab_operation tab in
        let start := {| successes := 0; failures := 0;
                        failure_messages := [] |} in
        '(t, cfg) ← drop_loop id mode dest_root src_paths (start, cfg);
        mret (BatchDone mode dest_root (tab_name tab) t, cfg)
  end.

End MainWindow.

(** ** The pages of the tab widget

    [_rebuild_tabs] clears the tab widget and calls [_create_tab] for every
    tab of [self.config]; [_create_tab] builds the Qt widgets of one page.
    The widgets are not part of this development.  What is, is where the
    construction of a page raises on the data of its tab: a subscript, the
    label [QTabWidget.addTab] takes (a [str]), the key of [self.tab_ui]
    (hashed) and the path [os.path.isdir] is asked about. *)

(** [bool(x)]; a float [JFloat m e] is zero when [m] is. *)
Definition py_truthy (x : json) : bool :=
  match x with
  | JNull => false
  | JBool b => b
  | JInt n => negb (n =? 0)%Z
  | JFloat m _ => negb (m =? 0)%Z
  | JStr s => negb (String.eqb s "")
  | JArr l => match l with [] => false | _ => true end
  | JObj m => negb (bool_decide (m = ∅))
  end.

Section TabPages.
Context `{Host}.

(** [tab.get(key, d)] *)
Definition py_get (tab : json) (key : string) (d : json) : M json :=
  match tab with
  | JObj m => mret (default d (m !! key))
  | _ => raise "AttributeError: object has no attribute 'get'"
  end.

(** [os.path.isdir(path)] with its result dropped.  A string is a path
    ([os.stat]'s [OSError] and [ValueError] are caught inside).  A number
    is a file descriptor: [os.stat] takes it when it fits a C [int] and
    raises [OverflowError] when it does not.  Anything else is a
    [TypeError] of [os.stat]. *)
Definition isdir_asked (path : json) : M unit :=
  match path with
  | JStr p => _ ← reads (os_path_isdir p); mret ()
  | JBool _ => mret ()
  | JInt n =>
      if ((-2147483648 <=? n) && (n <=? 2147483647))%Z then mret ()
      else raise "OverflowError: fd is out of range"
  | _ => raise "TypeError: stat: path should be string, bytes, os.PathLike or integer"
  end.

(** [_update_tab_path_ui(tab_id, path)] for a page that is there:
    [path = path or ""], the label chosen by [not path] and
    [os.path.isdir(path)], then [drop_area.set_destination(path)], whose
    [update_style] asks [bool(self.dest_path) and os.path.isdir(...)]. *)
Definition _update_tab_path_ui (path : json) : M unit :=
  if py_truthy path then isdir_asked path;; isdir_asked path
  else mret ().

(** [_create_tab(tab)] *)
Definition _create_tab (tab : json) : M unit :=
  (* page.setProperty("tab_id", tab["id"]) *)
  id ← py_getitem tab "id";
  (* QLabel(f"... {tab['name']}") *)
  name ← py_getitem tab "name";
  (* index = self.tab_widget.addTab(page, tab["name"]) *)
  match name with
  | JStr _ =>
      (* self.tab_ui[tab["id"]] = {...} *)
      match id with
      | JArr _ => raise "TypeError: unhashable type: 'list'"
      | JObj _ => raise "TypeError: unhashable type: 'dict'"
      | _ =>
          (* self._update_tab_path_ui(tab["id"], tab.get("path", "")) *)
          path ← py_get tab "path" (JStr "");
          _update_tab_path_ui path
      end
  | _ => raise "TypeError: addTab called with wrong argument types"
  end.

(** [_rebuild_tabs()]: [for tab in self.config["tabs"]: self._create_tab(tab)].
    Over a string the loop runs through its characters and over a dict
    through its keys, and the first of them makes [_create_tab] raise at
    its first subscript. *)
Definition _rebuild_tabs (config : json) : M unit :=
  tabs ← py_getitem config "tabs";
  match tabs with
  | JArr ts => _ ← for_each _create_tab ts; mret ()
  | JStr s =>
      if String.eqb s "" then mret ()
      else raise "TypeError: string indices must be integers, not 'str'"
  | JObj m =>
      if bool_decide (m = ∅) then mret ()
      else raise "TypeError: string indices must be integers, not 'str'"
  | _ => raise "TypeError: object is not iterable"
  end.

End TabPages.

(** ** Export and import

    Both work on the configuration as a document: [export_config] dumps
    [self.config] as it is, and [import_config] reads any document a file
    holds.  [filename] is what the file dialog returned (empty when the user
    closed it), [choice] is the button of the message box. *)

Inductive ExportStatus :=
| ExportCancelled
| Exported (filename : string)
| ExportError (e : exn).

Inductive Choice := Yes | No | Cancel.

(** How [import_config] ends.  [RebuildRaised e] is the one way it ends
    with an exception after [self.config] was assigned and saved:
    [_rebuild_tabs] raised [e], which leaves [import_config], and no
    status is shown.  It is kept beside the configuration the window is
    left with; an exception raised before the assignment is a [Raise]. *)
Inductive ImportStatus :=
| ImportCancelled
| ImportReadError (e : exn)
| ImportInvalidFormat
| ImportAborted
| Imported
| RebuildRaised (e : exn).

Section ImportExport.
Context `{Host}.

Definition export_config (filename : string) (config : json) : M ExportStatus :=
  if String.eqb filename "" then mret ExportCancelled
  else
    try_except
      (open_write_json filename config;; mret (Exported filename))
      (fun e => mret (ExportError e)).

(** The body of the loop [for t in data["tabs"]] of [import_config]. *)
Definition import_tab (t : json) : M json :=
  match t with
  | JObj m =>
      u ← draws uuid4;
      let m := setdefault "id" (JStr u) m in
      let m := setdefault "name" (JStr "Unnamed") m in
      let m := setdefault "path" (JStr "") m in
      let op := default (JStr OP_COPY_REPLACE) (m !! "operation") in
      op ← (if py_eq_str op "copy" then mret (JStr OP_COPY_REPLACE)
            else if py_eq_str op "move" then mret (JStr OP_MOVE_REPLACE)
            else
              unknown ← not_in_operations op;
              if unknown : bool then mret (JStr OP_COPY_REPLACE) else mret op);
      let m := <["operation" := op]> m in
      let m := setdefault "history" (JArr []) m in
      mret (JObj m)
  | _ => raise "AttributeError: object has no attribute 'setdefault'"
  end.

(** [self.config["tabs"].extend(tabs)] *)
Definition extend_tabs (config : json) (tabs : list json) : M json :=
  old ← py_getitem config "tabs";
  match old, config with
  | JArr l, JObj m => mret (JObj (<["tabs" := JArr (l ++ tabs)]> m))
  | _, _ => raise "AttributeError: object has no attribute 'extend'"
  end.

(** [self._rebuild_tabs()] and the status line that follows it. *)
Definition rebuild_and_report (config : json) : M ImportStatus :=
  try_except (_rebuild_tabs config;; mret Imported)
             (fun e => mret (RebuildRaised e)).

(** Only the read of the file is inside a [try]: an exception of the format
    check or of the loop over the tabs leaves [import_config]. *)
Definition import_config (filename : string) (choice : Choice) (config : json)
  : M (ImportStatus * json) :=
  if String.eqb filename "" then mret (ImportCancelled, config)
  else
    read ← try_except (data ← open_read_json filename; mret (inr data))
                      (fun e => mret (inl e));
    match read with
    | inl e => mret (ImportReadError e, config)
    | inr data =>
        has_tabs ← py_contains data "tabs";
        if negb has_tabs then mret (ImportInvalidFormat, config)
        else
          tabs ← py_getitem data "tabs";
          match tabs with
          | JArr ts =>
              ts ← for_each import_tab ts;
              match choice with
              | Cancel => mret (ImportAborted, config)
              | Yes =>
                  let config := JObj {[ "tabs" := JArr ts ]} in
                  save config;;
                  status ← rebuild_and_report config;
                  mret (status, config)
              | No =>
                  config ← extend_tabs config ts;
                  save config;;
                  status ← rebuild_and_report config;
                  mret (status, config)
              end
          | _ => mret (ImportInvalidFormat, config)
          end
    end.

End ImportExport.

(** ** Tab registry

    The commands of the menus and of the buttons of a tab page.  What a
    dialog returned is an argument: [folder] the directory of the folder
    dialog (empty when it was closed), [(text, ok)] the text and the button
    of an input dialog, [confirmed] whether the question was answered Yes.
    [current] is the [tab_id] property of the page the tab widget shows,
    or nothing when [currentIndex()] is negative. *)

Definition with_name (name : string) (t : Tab) : Tab :=
  {| tab_id := tab_id t; tab_name := name; tab_path := tab_path t;
     tab_operation := tab_operation t; tab_history := tab_history t |}.

Definition with_path (path : string) (t : Tab) : Tab :=
  {| tab_id := tab_id t; tab_name := tab_name t; tab_path := path;
     tab_operation := tab_operation t; tab_history := tab_history t |}.

Definition with_operation (op : string) (t : Tab) : Tab :=
  {| tab_id := tab_id t; tab_name := tab_name t; tab_path := tab_path t;
     tab_operation := op; tab_history := tab_history t |}.

Section Registry.
Context `{Host}.

(** [str.strip()] *)
Variable str_strip : string -> string.

Definition assign_folder (id folder : string) (cfg : Config) : M Config :=
  if String.eqb folder "" then mret cfg
  else
    match _get_tab_config_by_id cfg id with
    | None => mret cfg
    | Some _ =>
        let cfg := update_tab (with_path folder) id cfg in
        save (json_of_config cfg);;
        mret cfg
    end.

Definition clear_folder (id : string) (cfg : Config) : M Config :=
  match _get_tab_config_by_id cfg id with
  | None => mret cfg
  | Some _ =>
      let cfg := update_tab (with_path "") id cfg in
      save (json_of_config cfg);;
      mret cfg
  end.

Definition set_operation (id op : string) (cfg : Config) : M Config :=
  match _get_tab_config_by_id cfg id with
  | None => mret cfg
  | Some _ =>
      let cfg := update_tab (with_operation op) id cfg in
      save (json_of_config cfg);;
      mret cfg
  end.

Definition add_tab (text : string) (ok : bool) (cfg : Config) : M Config :=
  if negb ok || String.eqb (str_strip text) "" then mret cfg
  else
    let name := str_strip text in
    u ← draws uuid4;
    let new_tab := {| tab_id := u; tab_name := name; tab_path := "";
                      tab_operation := OP_COPY_REPLACE; tab_history := [] |} in
    let cfg := cfg ++ [new_tab] in
    _create_tab (json_of_tab new_tab);;
    save (json_of_config cfg);;
    mret cfg.

Definition rename_current_tab (current : option string) (text : string)
    (ok : bool) (cfg : Config) : M Config :=
  match current with
  | None => mret cfg
  | Some id =>
      match _get_tab_config_by_id cfg id with
      | None => mret cfg
      | Some _ =>
          if negb ok || String.eqb (str_strip text) "" then mret cfg
          else
            let cfg := update_tab (with_name (str_strip text)) id cfg in
            save (json_of_config cfg);;
            mret cfg
      end
  end.

(** [[t for t in self.config["tabs"] if t["id"] != tab_id]] *)
Definition without_tab (id : string) (cfg : Config) : Config :=
  List.filter (fun t => negb (String.eqb (tab_id t) id)) cfg.

Definition delete_current_tab (current : option string) (confirmed : bool)
    (cfg : Config) : M Config :=
  match current with
  | None => mret cfg
  | Some id =>
      match _get_tab_config_by_id cfg id with
      | None => mret cfg
      | Some _ =>
          if negb confirmed then mret cfg
          else
            let cfg := without_tab id cfg in
            save (json_of_config cfg);;
            mret cfg
      end
  end.

End Registry.

(** ** Tab pages

    What [_create_tab] and [_update_tab_path_ui] show of a tab, and the drop
    area of its page. *)

Inductive Radio :=
| CopyReplaceRadio
| CopyNewRadio
| MoveReplaceRadio
| MoveNewRadio.

(** The radio button [_create_tab] checks for the operation [op]. *)
Definition checked_radio (op : string) : Radio :=
  if String.eqb op OP_COPY_REPLACE then CopyReplaceRadio
  else if String.eqb op OP_COPY_NEW then CopyNewRadio
  else if String.eqb op OP_MOVE_REPLACE then MoveReplaceRadio
  else MoveNewRadio.

(** The operation the [toggled] handler of a radio button passes to
    [set_operation]. *)
Definition radio_operation (r : Radio) : string :=
  match r with
  | CopyReplaceRadio => OP_COPY_REPLACE
  | CopyNewRadio => OP_COPY_NEW
  | MoveReplaceRadio => OP_MOVE_REPLACE
  | MoveNewRadio => OP_MOVE_NEW
  end.


Record DropArea := {
  area_tab_id : string;
  dest_path : string
}.

(** [DropArea.set_destination] *)
Definition set_destination (path : string) (a : DropArea) : DropArea :=
  {| area_tab_id := area_tab_id a; dest_path := path |}.




Section Pages.
Context `{Host}.




End Pages.

(** * Vocabulary of the statements *)

(** ** Entries and counters *)

(** The [(operation, src, dest, result)] of one call of
    [_add_history_entry], and those an entry was made from. *)
Definition Request : Type := string * string * string * string.

Definition request_of (e : HistoryEntry) : Request :=
  (operation e, source e, destination e, outcome e).

(** The result [handle_drop] records for a skipped item. *)
Definition SKIPPED : string := "skipped (target exists, NEW only)".

(** What the result of an entry says. *)
Definition is_success (e : HistoryEntry) : bool :=
  String.eqb (outcome e) "success".
Definition is_skipped (e : HistoryEntry) : bool :=
  String.eqb (outcome e) SKIPPED.
Definition is_failed (e : HistoryEntry) : bool :=
  String.prefix "failed: " (outcome e).

(** The number of entries that satisfy [f]. *)
Definition count (f : HistoryEntry -> bool) (es : list HistoryEntry) : nat :=
  length (List.filter f es).

(** How one item moves the counters, by the entry it leaves. *)
Inductive Recorded (t : Tally) (e : HistoryEntry) : Tally -> Prop :=
| RecSuccess :
    outcome e = "success" -> Recorded t e (succeeded t)
| RecSkipped :
    outcome e = SKIPPED -> Recorded t e t
| RecFailed msg reason :
    outcome e = "failed: " +:+ reason -> Recorded t e (failed msg t).

(** The same for the entries of a run of items, one after another. *)
Inductive Tallied : Tally -> list HistoryEntry -> Tally -> Prop :=
| TalliedNil t : Tallied t [] t
| TalliedCons t e t1 es t2 :
    Recorded t e t1 -> Tallied t1 es t2 -> Tallied t (e :: es) t2.


(** ** Documents *)

(** What Python can hash: everything [json.load] returns but lists and
    dicts. *)
Definition hashable (v : json) : bool :=
  match v with
  | JArr _ | JObj _ => false
  | _ => true
  end.

(** The normalization the specification states: the legacy values are
    mapped, an enumerated value stays, anything else is [copy_replace]. *)
Definition normalized_operation (op : option json) : string :=
  match op with
  | Some (JStr s) =>
      if String.eqb s "copy" then OP_COPY_REPLACE
      else if String.eqb s "move" then OP_MOVE_REPLACE
      else if is_operation s then s
      else OP_COPY_REPLACE
  | _ => OP_COPY_REPLACE
  end.

(** A tab object after the loop body: defaults for the missing keys, [op] as
    its operation. *)
Definition fill_defaults (u : string) (op : json) (m : gmap string json)
  : gmap string json :=
  setdefault "history" (JArr [])
    (<["operation" := op]>
       (setdefault "path" (JStr "")
          (setdefault "name" (JStr "Unnamed")
             (setdefault "id" (JStr u) m)))).

(** A tab as load and import leave it. *)
Definition normalized_tab (t : json) : Prop :=
  exists m op,
    t = JObj m
    /\ is_Some (m !! "id") /\ is_Some (m !! "name") /\ is_Some (m !! "path")
    /\ is_Some (m !! "history")
    /\ m !! "operation" = Some (JStr op) /\ is_operation op = true.

(** A configuration as load and import leave it. *)
Definition live_config (config : json) : Prop :=
  exists m ts,
    config = JObj m /\ m !! "tabs" = Some (JArr ts) /\ Forall normalized_tab ts.

(** A tab with nothing set. *)
Definition blank_tab (name u : string) : json :=
  JObj {[ "id" := JStr u;
          "name" := JStr name;
          "path" := JStr "";
          "operation" := JStr "copy_replace";
          "history" := JArr [] ]}.

(** Exactly five blank tabs, named L1 to L5. *)
Definition is_default_config (config : json) : Prop :=
  exists u1 u2 u3 u4 u5,
    config = JObj {[ "tabs" := JArr [blank_tab "L1" u1; blank_tab "L2" u2;
                                     blank_tab "L3" u3; blank_tab "L4" u4;
                                     blank_tab "L5" u5] ]}.

(** The document has a list under the key [tabs]. *)
Definition has_tabs_list (data : json) : Prop :=
  exists m ts, data = JObj m /\ m !! "tabs" = Some (JArr ts).

(** A tab object whose operation is absent or a scalar. *)
Definition scalar_operation (t : json) : Prop :=
  exists m,
    t = JObj m /\ forall v, m !! "operation" = Some v -> hashable v = true.

(** The operation of [t'] is the normalized operation of [t]. *)
Definition operation_normalized (t t' : json) : Prop :=
  exists m m',
    t = JObj m /\ t' = JObj m'
    /\ m' !! "operation" = Some (JStr (normalized_operation (m !! "operation"))).

(** The operation of [t] is one of the four enumerated values. *)
Definition operation_enumerated (t : json) : Prop :=
  exists m op,
    t = JObj m /\ m !! "operation" = Some (JStr op) /\ is_operation op = true.

(** A tab the loop body raises on: not an object, or an object whose
    operation is a list or a dict. *)
Definition not_normalizable (t : json) : Prop :=
  match t with
  | JObj m => exists v, m !! "operation" = Some v /\ hashable v = false
  | _ => True
  end.

(** A document on which the format check or the loop of [import_config]
    raises. *)
Definition crashes_import (data : json) : Prop :=
  match data with
  | JObj m =>
      exists ts, m !! "tabs" = Some (JArr ts) /\ Exists not_normalizable ts
  | JArr l => existsb (fun x => py_eq_str x "tabs") l = true
  | JStr s => is_Some (index 0 "tabs" s)
  | _ => True
  end.

(** ** The typed view of a configuration document *)

Definition as_string (v : json) : option string :=
  match v with
  | JStr s => Some s
  | _ => None
  end.

Definition field (m : gmap string json) (k : string) : option string :=
  m !! k ≫= as_string.

Definition entry_of_json (v : json) : option HistoryEntry :=
  match v with
  | JObj m =>
      ts ← field m "timestamp"; op ← field m "operation";
      src ← field m "source"; dest ← field m "destination";
      res ← field m "result";
      Some {| timestamp := ts; operation := op; source := src;
              destination := dest; outcome := res |}
  | _ => None
  end.

Definition tab_of_json (v : json) : option Tab :=
  match v with
  | JObj m =>
      id ← field m "id"; name ← field m "name"; path ← field m "path";
      op ← field m "operation";
      history ← match m !! "history" with
                | Some (JArr es) => mapM entry_of_json es
                | _ => None
                end;
      Some {| tab_id := id; tab_name := name; tab_path := path;
              tab_operation := op; tab_history := history |}
  | _ => None
  end.

(** The tabs the engine sees in a document, when every field has the type
    the data model gives it. *)
Definition config_of_json (config : json) : option Config :=
  match config with
  | JObj m =>
      match m !! "tabs" with
      | Some (JArr ts) => mapM tab_of_json ts
      | _ => None
      end
  | _ => None
  end.

(** ** Registry *)

(** The ids of the tabs, in order. *)
Definition ids (cfg : Config) : list string := tab_id <$> cfg.

(** No tab of the configuration has the id. *)
Definition unknown_id (id : string) (cfg : Config) : Prop :=
  Forall (fun t => tab_id t <> id) cfg.

(** [tab] is the first tab with the id: the one every command reaches. *)
Definition first_with_id (id : string) (before : list Tab) (tab : Tab)
    (after : list Tab) : Prop :=
  tab_id tab = id /\ unknown_id id before.

(** Every tab's operation is one of the four enumerated values. *)
Definition enumerated (cfg : Config) : Prop :=
  Forall (fun t => is_operation (tab_operation t) = true) cfg.

(** The counters of two runs, one after the other. *)
Definition add_tally (t1 t2 : Tally) : Tally :=
  {| successes := successes t1 + successes t2;
     failures := failures t1 + failures t2;
     failure_messages := failure_messages t1 ++ failure_messages t2 |}.

Definition no_tally : Tally :=
  {| successes := 0; failures := 0; failure_messages := [] |}.

(** ** Worlds and configurations *)

Section Vocabulary.
Context `{Host}.

(** The entry [_add_history_entry] builds in world [w]. *)
Definition entry_at (w : W) (op src dest res : string) : HistoryEntry :=
  {| timestamp := datetime_now w; operation := op; source := src;
     destination := dest; outcome := res |}.

(** A caller that appends one entry after another to the tab [id]. *)
Fixpoint add_history_entries (id : string) (reqs : list Request) (cfg : Config)
  : M Config :=
  match reqs with
  | [] => mret cfg
  | (op, src, dest, res) :: reqs =>
      cfg ← _add_history_entry id op src dest res cfg;
      add_history_entries id reqs cfg
  end.

(** The configuration after entry [e] was logged for tab [id], and the world
    after that configuration was saved. *)
Definition logged (id : string) (e : HistoryEntry) (cfg : Config) : Config :=
  update_tab (with_history (append_entry e)) id cfg.

Definition saved (cfg : Config) (w : W) : W := (save (json_of_config cfg) w).2.

(** The target of [src] below [dest_root]. *)
Definition target_of (dest_root src : string) : string :=
  os_path_join dest_root (os_path_basename (rstrip_sep src)).

(** The two failure messages of [handle_drop]. *)
Definition source_missing (src : string) : string :=
  "Source does not exist: " +:+ src.

Definition failure_message (mode src e : string) : string :=
  "Failed to " +:+ mode +:+ " '" +:+ src +:+ "': " +:+ e.

(** The item is there and is not skipped: it is transferred. *)
Definition transferred (mode dest_root src : string) (w : W) : Prop :=
  os_path_exists src w = true
  /\ new_only mode && os_path_exists (target_of dest_root src) w = false.

(** The file is absent, unreadable or structurally invalid. *)
Definition unusable_config_file (w : W) : Prop :=
  os_path_exists CONFIG_FILENAME w = false
  \/ (exists e w1, open_read_json CONFIG_FILENAME w = (Raise e, w1))
  \/ (exists data w1,
        open_read_json CONFIG_FILENAME w = (Ok data, w1)
        /\ ~ has_tabs_list data).

End Vocabulary.

(** ** What becomes of the paths of a batch *)

(** How the handling of one path ends. *)
Inductive Outcome :=
| Transferred
| SkippedExisting
| SourceMissing
| TransferFailed (e : exn).

(** The result and the destination its history entry records, the message
    the warning box lists, and what it does to the counters. *)
Definition result_text (src : string) (o : Outcome) : string :=
  match o with
  | Transferred => "success"
  | SkippedExisting => SKIPPED
  | SourceMissing => "failed: Source does not exist: " +:+ src
  | TransferFailed e => "failed: " +:+ e
  end.

Definition counted (mode src : string) (o : Outcome) (t : Tally) : Tally :=
  match o with
  | Transferred => succeeded t
  | SkippedExisting => t
  | SourceMissing => failed ("Source does not exist: " +:+ src) t
  | TransferFailed e =>
      failed ("Failed to " +:+ mode +:+ " '" +:+ src +:+ "': " +:+ e) t
  end.

(** The counters of a batch whose paths ended as [items] says. *)
Definition tally_of (mode : string) (items : list (string * Outcome)) : Tally :=
  foldl (fun t item => counted mode item.1 item.2 t) no_tally items.

Section Routing.
Context `{Host}.

Definition item_entry (mode dest_root src : string) (o : Outcome) (w : W)
  : HistoryEntry :=
  entry_at w mode src
    (match o with
     | SourceMissing => ""
     | _ => target_of dest_root src
     end)
    (result_text src o).

(** What the file system decides for the path [src] in the world [w]: how
    the path ends, and the world the file operations leave (the history
    entry is not written yet). *)
Inductive Handled (mode dest_root src : string) (w : W) : Outcome -> W -> Prop :=
| HandledMissing :
    os_path_exists src w = false ->
    Handled mode dest_root src w SourceMissing w
| HandledSkipped :
    os_path_exists src w = true ->
    new_only mode = true ->
    os_path_exists (target_of dest_root src) w = true ->
    Handled mode dest_root src w SkippedExisting w
| HandledTransferred w1 w2 :
    transferred mode dest_root src w ->
    copy_step mode src (target_of dest_root src)
      (os_path_exists (target_of dest_root src) w) w = (Ok (), w1) ->
    delete_step mode src w1 = (Ok (), w2) ->
    Handled mode dest_root src w Transferred w2
| HandledCopyFailed e w1 :
    transferred mode dest_root src w ->
    copy_step mode src (target_of dest_root src)
      (os_path_exists (target_of dest_root src) w) w = (Raise e, w1) ->
    Handled mode dest_root src w (TransferFailed e) w1
| HandledDeleteFailed e w1 w2 :
    transferred mode dest_root src w ->
    copy_step mode src (target_of dest_root src)
      (os_path_exists (target_of dest_root src) w) w = (Ok (), w1) ->
    delete_step mode src w1 = (Raise e, w2) ->
    Handled mode dest_root src w (TransferFailed e) w2.

(** A batch, path by path: each path is handled in the world the paths
    before it left, its entry is appended to the history of the tab and the
    configuration is saved before the next path is looked at. *)
Inductive Routed (id mode dest_root : string)
  : list string -> Config -> W -> list Outcome -> list HistoryEntry
    -> Config -> W -> Prop :=
| RoutedNil cfg w :
    Routed id mode dest_root [] cfg w [] [] cfg w
| RoutedCons src rest cfg w o w1 os es cfg' w' :
    Handled mode dest_root src w o w1 ->
    Routed id mode dest_root rest
      (logged id (item_entry mode dest_root src o w1) cfg)
      (saved (logged id (item_entry mode dest_root src o w1) cfg) w1)
      os es cfg' w' ->
    Routed id mode dest_root (src :: rest) cfg w
      (o :: os) (item_entry mode dest_root src o w1 :: es) cfg' w'.

End Routing.

(** ** A host to run the program on

    A small file system: a flat map from paths to files and directories, a
    set of write-protected paths, a counter for identifiers and a clock.  It
    is one implementation of [Host], used to evaluate the program on
    concrete batches and documents. *)

Module Toy.

Inductive Content :=
| Text (s : string)
| Document (d : json).

Inductive Node :=
| File (c : Content)
| Directory.

Record World := {
  nodes : gmap string Node;
  protected : gset string;
  issued : nat;
  clock : nat
}.

Definition slash : ascii := "/"%char.

Fixpoint drop_slashes (l : list ascii) : list ascii :=
  match l with
  | c :: l' => if Ascii.eqb c slash then drop_slashes l' else l
  | [] => []
  end.

Fixpoint until_slash (l : list ascii) : list ascii :=
  match l with
  | c :: l' => if Ascii.eqb c slash then [] else c :: until_slash l'
  | [] => []
  end.

Definition rstrip (s : string) : string :=
  string_of_list_ascii (rev (drop_slashes (rev (list_ascii_of_string s)))).

Definition basename (s : string) : string :=
  string_of_list_ascii (rev (until_slash (rev (list_ascii_of_string s)))).

Definition join (a b : string) : string :=
  if String.prefix "/" b then b
  else if String.eqb a "" then b
  else match rev (list_ascii_of_string a) with
       | c :: _ => if Ascii.eqb c slash then a +:+ b else a +:+ "/" +:+ b
       | [] => b
       end.

(** The key of a path in the map: trailing separators do not count. *)
Definition key (p : string) : string :=
  if String.eqb (rstrip p) "" then p else rstrip p.

Definition exists_ (p : string) (w : World) : bool :=
  bool_decide (is_Some (nodes w !! key p)).

Definition isdir (p : string) (w : World) : bool :=
  match nodes w !! key p with
  | Some Directory => true
  | _ => false
  end.

(** [k] is [p] or lies below it. *)
Definition under (p k : string) : bool :=
  String.eqb k p || String.prefix (p +:+ "/") k.

Definition writes (f : gmap string Node -> gmap string Node) (w : World)
  : World :=
  {| nodes := f (nodes w); protected := protected w; issued := issued w;
     clock := S (clock w) |}.

Definition denied {A} (p : string) (w : World) : result A * World :=
  (Raise ("[Errno 13] Permission denied: '" +:+ p +:+ "'"), w).

Definition missing {A} (p : string) (w : World) : result A * World :=
  (Raise ("[Errno 2] No such file or directory: '" +:+ p +:+ "'"), w).

Definition is_a_directory {A} (p : string) (w : World) : result A * World :=
  (Raise ("[Errno 21] Is a directory: '" +:+ p +:+ "'"), w).

Definition rmtree (p : string) (w : World) : result unit * World :=
  let p := key p in
  match nodes w !! p with
  | None => missing p w
  | Some (File _) => (Raise ("[Errno 20] Not a directory: '" +:+ p +:+ "'"), w)
  | Some Directory =>
      if bool_decide (p ∈ protected w) then denied p w
      else (Ok (), writes (fun m =>
              list_to_map (List.filter (fun kv => negb (under p kv.1))
                                       (map_to_list m))) w)
  end.

Definition copytree (src dst : string) (w : World) : result unit * World :=
  let src := key src in
  let dst := key dst in
  match nodes w !! src with
  | None => missing src w
  | Some (File _) => (Raise ("[Errno 20] Not a directory: '" +:+ src +:+ "'"), w)
  | Some Directory =>
      if exists_ dst w then
        (Raise ("[Errno 17] File exists: '" +:+ dst +:+ "'"), w)
      else if bool_decide (dst ∈ protected w) then denied dst w
      else (Ok (), writes (fun m =>
              foldr (fun kv acc =>
                       <[dst +:+ substring (String.length src)
                                   (String.length kv.1 - String.length src)
                                   kv.1 := kv.2]> acc)
                    m
                    (List.filter (fun kv => under src kv.1) (map_to_list m))) w)
  end.

Definition copy2 (src dst : string) (w : World) : result unit * World :=
  let src := key src in
  match nodes w !! src with
  | None => missing src w
  | Some Directory => is_a_directory src w
  | Some (File c) =>
      let dst := if isdir dst w then join dst (basename src) else key dst in
      if bool_decide (dst ∈ protected w) then denied dst w
      else (Ok (), writes <[dst := File c]> w)
  end.

Definition remove (p : string) (w : World) : result unit * World :=
  let p := key p in
  match nodes w !! p with
  | None => missing p w
  | Some Directory => is_a_directory p w
  | Some (File _) =>
      if bool_decide (p ∈ protected w) then denied p w
      else (Ok (), writes (delete p) w)
  end.

Definition write_json (p : string) (d : json) (w : World)
  : result unit * World :=
  let p := key p in
  if isdir p w then is_a_directory p w
  else if bool_decide (p ∈ protected w) then denied p w
  else (Ok (), writes <[p := File (Document d)]> w).

Definition read_json (p : string) (w : World) : result json * World :=
  let p := key p in
  match nodes w !! p with
  | None => missing p w
  | Some Directory => is_a_directory p w
  | Some (File (Text _)) =>
      (Raise "Expecting value: line 1 column 1 (char 0)", w)
  | Some (File (Document d)) => (Ok d, w)
  end.

Definition fresh_id (w : World) : string * World :=
  ("uuid-" +:+ pretty (issued w),
   {| nodes := nodes w; protected := protected w; issued := S (issued w);
      clock := clock w |}).

Definition now (w : World) : string :=
  "2025-01-01 00:00:" +:+ (if clock w mod 60 <? 10 then "0" else "")
  +:+ pretty (clock w mod 60).

(** [str.strip()] on text whose only blanks are spaces. *)
Fixpoint drop_spaces (l : list ascii) : list ascii :=
  match l with
  | c :: l' => if Ascii.eqb c " "%char then drop_spaces l' else l
  | [] => []
  end.

Definition strip (s : string) : string :=
  string_of_list_ascii
    (rev (drop_spaces (rev (drop_spaces (list_ascii_of_string s))))).

#[export] Instance host : Host := {|
  W := World;
  CONFIG_FILENAME := "/home/u/.config/file_router/config.json";
  os_path_exists := exists_;
  os_path_isdir := isdir;
  rstrip_sep := rstrip;
  os_path_basename := basename;
  os_path_join := join;
  shutil_rmtree := rmtree;
  shutil_copytree := copytree;
  shutil_copy2 := copy2;
  os_remove := remove;
  open_write_json := write_json;
  open_read_json := read_json;
  uuid4 := fresh_id;
  datetime_now := now
|}.

End Toy.

(** ** Worlds, tabs and documents to run the program on *)

Module Fixture.
Import Toy.

Definition tab (mode path : string) : Tab :=
  {| tab_id := "t1"; tab_name := "L1"; tab_path := path;
     tab_operation := mode; tab_history := [] |}.

(** A destination directory with one file in it, and three files to drop. *)
Definition world : World :=
  {| nodes := {[ "/dst" := Directory;
                 "/a.txt" := File (Text "A");
                 "/c.txt" := File (Text "C");
                 "/dst/old.txt" := File (Text "old");
                 "/old.txt" := File (Text "new") ]};
     protected := ∅; issued := 0; clock := 0 |}.


(** A folder to drop, and an older copy of it in the destination. *)
Definition world_folders : World :=
  {| nodes := {[ "/dst" := Directory;
                 "/dst/photos" := Directory;
                 "/dst/photos/stale.jpg" := File (Text "stale");
                 "/photos" := Directory;
                 "/photos/a.jpg" := File (Text "a");
                 "/photos/trip" := Directory;
                 "/photos/trip/b.jpg" := File (Text "b") ]};
     protected := ∅; issued := 0; clock := 0 |}.

(** The entry made at clock reading [at_]. *)
Definition step (op src dest res : string) (at_ : nat) : HistoryEntry :=
  {| timestamp := now {| nodes := ∅; protected := ∅; issued := 0; clock := at_ |};
     operation := op; source := src; destination := dest; outcome := res |}.

End Fixture.

(** A tab whose destination is the application's own configuration folder,
    and a world where a file named like the configuration file waits to be
    dropped on it. *)
Definition settings_tab : Tab :=
  Fixture.tab OP_COPY_NEW "/home/u/.config/file_router".


(** A configuration file as an older version wrote it. *)
Definition legacy_tabs : list json :=
  [ JObj {[ "name" := JStr "A"; "operation" := JStr "move" ]};
    JObj {[ "name" := JStr "B"; "operation" := JStr "copy" ]};
    JObj {[ "name" := JStr "C"; "operation" := JStr "sync" ]};
    JObj {[ "name" := JStr "D"; "operation" := JInt 3 ]};
    JObj {[ "name" := JStr "E" ]};
    JObj {[ "name" := JStr "F"; "operation" := JStr "move_new" ]} ].

Definition legacy_document : json := JObj {[ "tabs" := JArr legacy_tabs ]}.

Definition world_holding (document : json) : Toy.World :=
  {| Toy.nodes := {[ "/home/u/.config/file_router/config.json"
                       := Toy.File (Toy.Document document) ]};
     Toy.protected := ∅; Toy.issued := 0; Toy.clock := 0 |}.

(** The operation of each tab of a configuration. *)
Definition operations (config : json) : list (option json) :=
  match config with
  | JObj m =>
      match m !! "tabs" with
      | Some (JArr ts) =>
          (fun t => match t with JObj tm => tm !! "operation" | _ => None end)
            <$> ts
      | _ => []
      end
  | _ => []
  end.

(** A document one of whose tabs has a list as its operation. *)
Definition list_operation_tab : json :=
  JObj {[ "name" := JStr "Inbox"; "operation" := JArr [] ]}.

Definition list_operation_document : json :=
  JObj {[ "tabs" := JArr [list_operation_tab] ]}.

(** A tab as the application writes it, with a key of its own besides. *)
Definition complete_tab : gmap string json :=
  {[ "id" := JStr "7c9e6679";
     "name" := JStr "Inbox";
     "path" := JStr "/dst";
     "operation" := JStr "move_new";
     "history" := JArr [json_of_entry
                          (Fixture.step "move_new" "/a.txt" "/dst/a.txt"
                             "success" 1)];
     "colour" := JStr "green" ]}.

(** The configuration of a window with two tabs. *)
Definition exported_config : json :=
  json_of_config [Fixture.tab OP_MOVE_NEW "/dst"; Fixture.tab OP_COPY_NEW ""].

(** A configuration file with a key of its own beside [tabs]. *)
Definition versioned_document : json :=
  JObj {[ "tabs" := JArr [blank_tab "Inbox" "7c9e6679"];
          "version" := JInt 2 ]}.

(** A file whose one tab has a list as its id. *)
Definition unhashable_id_tab : gmap string json :=
  {[ "id" := JArr []; "name" := JStr "Inbox" ]}.

Definition unhashable_id_document : json :=
  JObj {[ "tabs" := JArr [JObj unhashable_id_tab] ]}.

(** * Properties *)

(** ** Running a computation *)

Ltac unfold_M :=
  unfold mbind, M_mbind, M_bind, mret, M_mret, M_ret, reads, draws, raise,
    try_except in *.

Section Run.
Context `{Host}.

Lemma bind_ok {A B} (m : M A) (f : A -> M B) w a w' :
  m w = (Ok a, w') -> (x ← m; f x) w = f a w'.
Proof. intros Hm. unfold_M. now rewrite Hm. Qed.

Lemma bind_raise {A B} (m : M A) (f : A -> M B) w e w' :
  m w = (Raise e, w') -> (x ← m; f x) w = (Raise e, w').
Proof. intros Hm. unfold_M. now rewrite Hm. Qed.

Lemma try_ok {A} (m : M A) (h : exn -> M A) w a w' :
  m w = (Ok a, w') -> try_except m h w = (Ok a, w').
Proof. intros Hm. unfold try_except. now rewrite Hm. Qed.

Lemma try_raise {A} (m : M A) (h : exn -> M A) w e w' :
  m w = (Raise e, w') -> try_except m h w = h e w'.
Proof. intros Hm. unfold try_except. now rewrite Hm. Qed.

(** [save] swallows every exception of the write. *)
Lemma save_ok (data : json) (w : W) : save data w = (Ok (), (save data w).2).
Proof.
  unfold save, try_except.
  destruct (open_write_json CONFIG_FILENAME data w) as [[[]|e] w']; reflexivity.
Qed.

End Run.

(** ** The history log *)

Lemma last_200_length (h : list HistoryEntry) : length (last_200 h) <= 200.
Proof. unfold last_200. rewrite length_drop. lia. Qed.

Lemma last_200_short (h : list HistoryEntry) :
  length h <= 200 -> last_200 h = h.
Proof.
  intros Hle. unfold last_200.
  replace (length h - 200) with 0 by lia. reflexivity.
Qed.

(** The conditional of the source and the slice alone agree. *)
Lemma append_entry_last_200 (e : HistoryEntry) (h : list HistoryEntry) :
  append_entry e h = last_200 (h ++ [e]).
Proof.
  unfold append_entry. destruct (Nat.ltb_spec 200 (length (h ++ [e]))).
  - reflexivity.
  - now rewrite last_200_short.
Qed.

(** Entries evicted earlier would have been evicted anyway. *)
Lemma last_200_app (h l : list HistoryEntry) :
  last_200 (last_200 h ++ l) = last_200 (h ++ l).
Proof.
  unfold last_200.
  set (k := length h - 200).
  assert (Hk : k <= length h) by (unfold k; lia).
  rewrite length_app, length_drop, length_app.
  replace (length h + length l - 200) with (k + (length h - k + length l - 200))
    by (unfold k; lia).
  rewrite <- drop_drop. f_equal.
  now rewrite drop_app_le.
Qed.

(** Appending one entry after another keeps the last 200 of all of them. *)
Lemma appends_last_200 (es : list HistoryEntry) (e : HistoryEntry)
    (h : list HistoryEntry) :
  foldl (fun h e => append_entry e h) h (e :: es) = last_200 (h ++ e :: es).
Proof.
  revert e h. induction es as [|e' es IH]; intros e h.
  - simpl. apply append_entry_last_200.
  - change (foldl (fun h e => append_entry e h) (append_entry e h) (e' :: es)
            = last_200 (h ++ e :: e' :: es)).
    rewrite IH, append_entry_last_200, last_200_app.
    now rewrite <- app_assoc.
Qed.

(** ** Tabs of the configuration *)

Lemma get_update_tab (f : Tab -> Tab) (id : string) (cfg : Config) (tab : Tab) :
  (forall t, tab_id (f t) = tab_id t) ->
  _get_tab_config_by_id cfg id = Some tab ->
  _get_tab_config_by_id (update_tab f id cfg) id = Some (f tab).
Proof.
  intros Hid. induction cfg as [|t cfg IH]; simpl; [discriminate|].
  destruct (String.eqb (tab_id t) id) eqn:E; simpl.
  - intros [= ->]. now rewrite Hid, E.
  - rewrite E. exact IH.
Qed.

Section HistoryLog.
Context `{Host}.

Lemma get_logged id e cfg tab :
  _get_tab_config_by_id cfg id = Some tab ->
  _get_tab_config_by_id (logged id e cfg) id
  = Some (with_history (append_entry e) tab).
Proof. now apply get_update_tab. Qed.

(** An append to a known tab: the entry goes to the end of that tab's history,
    the cap is applied, the configuration is saved, and nothing is raised. *)
Lemma add_history_entry_logged id op src dest res cfg w tab :
  _get_tab_config_by_id cfg id = Some tab ->
  _add_history_entry id op src dest res cfg w
  = (Ok (logged id (entry_at w op src dest res) cfg),
     saved (logged id (entry_at w op src dest res) cfg) w).
Proof.
  intros Hget. unfold _add_history_entry. rewrite Hget.
  erewrite bind_ok by reflexivity.
  erewrite bind_ok by apply save_ok. reflexivity.
Qed.

Lemma add_history_entries_found id reqs : forall cfg w tab,
  _get_tab_config_by_id cfg id = Some tab ->
  exists entries cfg' w',
    add_history_entries id reqs cfg w = (Ok cfg', w')
    /\ request_of <$> entries = reqs
    /\ _get_tab_config_by_id cfg' id
       = Some (with_history
                 (fun h => foldl (fun h e => append_entry e h) h entries) tab).
Proof.
  induction reqs as [|[[[op src] dest] res] reqs IH]; intros cfg w tab Hget.
  - exists [], cfg, w. repeat split. simpl. rewrite Hget. now destruct tab.
  - pose (e := entry_at w op src dest res).
    destruct (IH (logged id e cfg) (saved (logged id e cfg) w) _
                (get_logged id e cfg tab Hget))
      as (es & cfg' & w' & Hrest & Hreq & Hfinal).
    exists (e :: es), cfg', w'. repeat split.
    + simpl.
      erewrite bind_ok by (eapply add_history_entry_logged; exact Hget).
      exact Hrest.
    + rewrite fmap_cons, Hreq. reflexivity.
    + rewrite Hfinal. reflexivity.
Qed.

(** C4. For every tab and every sequence of history appends (at least one),
    all of them reach the tab in the order of the calls, the history then
    holds at most 200 entries, and they are exactly the last 200 of the
    entries the history held before followed by the appended ones: the
    oldest entries are the ones dropped. *)
Theorem history_keeps_last_200 id (req : Request) (reqs : list Request)
    (cfg : Config) (w : W) (tab : Tab) :
  _get_tab_config_by_id cfg id = Some tab ->
  exists entries cfg' w' tab',
    add_history_entries id (req :: reqs) cfg w = (Ok cfg', w')
    /\ _get_tab_config_by_id cfg' id = Some tab'
    /\ request_of <$> entries = req :: reqs
    /\ tab_history tab' = last_200 (tab_history tab ++ entries)
    /\ length (tab_history tab') <= 200.
Proof.
  intros Hget.
  destruct (add_history_entries_found id (req :: reqs) cfg w tab Hget)
    as (es & cfg' & w' & Hrun & Hreq & Hfinal).
  destruct es as [|e es]; [discriminate|].
  eexists (e :: es), cfg', w', _. split; [exact Hrun|].
  split; [exact Hfinal|]. split; [exact Hreq|].
  unfold with_history. cbn [tab_history]. rewrite appends_last_200.
  split; [reflexivity | apply last_200_length].
Qed.

End HistoryLog.

(** ** One item of a batch *)

Section Item.
Context `{Host}.

Variables (id mode dest_root src : string) (t : Tally) (cfg : Config) (tab : Tab).
Hypothesis Hget : _get_tab_config_by_id cfg id = Some tab.

(** The source is not there. *)
Lemma drop_item_missing w :
  os_path_exists src w = false ->
  let e := entry_at w mode src "" ("failed: " +:+ source_missing src) in
  drop_item id mode dest_root src (t, cfg) w
  = (Ok (failed (source_missing src) t, logged id e cfg),
     saved (logged id e cfg) w).
Proof.
  intros Hsrc e. unfold drop_item.
  erewrite bind_ok by (unfold reads; rewrite Hsrc; reflexivity).
  cbn [negb]. erewrite bind_ok by (eapply add_history_entry_logged; exact Hget).
  reflexivity.
Qed.

(** The target is there and the mode is new-only. *)
Lemma drop_item_skipped w :
  os_path_exists src w = true ->
  new_only mode = true ->
  os_path_exists (target_of dest_root src) w = true ->
  let e := entry_at w mode src (target_of dest_root src)
             "skipped (target exists, NEW only)" in
  drop_item id mode dest_root src (t, cfg) w
  = (Ok (t, logged id e cfg), saved (logged id e cfg) w).
Proof.
  intros Hsrc Hnew Htgt e. unfold drop_item.
  erewrite bind_ok by (unfold reads; rewrite Hsrc; reflexivity).
  cbn [negb]. fold (target_of dest_root src).
  erewrite bind_ok by (unfold reads; rewrite Htgt; reflexivity).
  rewrite Hnew. cbn [andb].
  erewrite try_ok; [reflexivity|].
  erewrite bind_ok by (eapply add_history_entry_logged; exact Hget).
  reflexivity.
Qed.

(** Copy and delete went through. *)
Lemma drop_item_success w w1 w2 :
  transferred mode dest_root src w ->
  copy_step mode src (target_of dest_root src)
    (os_path_exists (target_of dest_root src) w) w = (Ok (), w1) ->
  delete_step mode src w1 = (Ok (), w2) ->
  let e := entry_at w2 mode src (target_of dest_root src) "success" in
  drop_item id mode dest_root src (t, cfg) w
  = (Ok (succeeded t, logged id e cfg), saved (logged id e cfg) w2).
Proof.
  intros [Hsrc Hskip] Hcopy Hdel e. unfold drop_item.
  erewrite bind_ok by (unfold reads; rewrite Hsrc; reflexivity).
  cbn [negb]. fold (target_of dest_root src).
  erewrite bind_ok by (unfold reads; reflexivity).
  rewrite Hskip.
  erewrite try_ok; [reflexivity|].
  erewrite bind_ok by exact Hcopy.
  erewrite bind_ok by exact Hdel.
  erewrite bind_ok by (eapply add_history_entry_logged; exact Hget).
  reflexivity.
Qed.

(** The copy step raised [e]. *)
Lemma drop_item_copy_failed w w1 e :
  transferred mode dest_root src w ->
  copy_step mode src (target_of dest_root src)
    (os_path_exists (target_of dest_root src) w) w = (Raise e, w1) ->
  let entry := entry_at w1 mode src (target_of dest_root src)
                 ("failed: " +:+ e) in
  drop_item id mode dest_root src (t, cfg) w
  = (Ok (failed (failure_message mode src e) t, logged id entry cfg),
     saved (logged id entry cfg) w1).
Proof.
  intros [Hsrc Hskip] Hcopy entry. unfold drop_item.
  erewrite bind_ok by (unfold reads; rewrite Hsrc; reflexivity).
  cbn [negb]. fold (target_of dest_root src).
  erewrite bind_ok by (unfold reads; reflexivity).
  rewrite Hskip.
  erewrite try_raise by (erewrite bind_raise by exact Hcopy; reflexivity).
  erewrite bind_ok by (eapply add_history_entry_logged; exact Hget).
  reflexivity.
Qed.

(** The copy step went through and the delete step raised [e]. *)
Lemma drop_item_delete_failed w w1 w2 e :
  transferred mode dest_root src w ->
  copy_step mode src (target_of dest_root src)
    (os_path_exists (target_of dest_root src) w) w = (Ok (), w1) ->
  delete_step mode src w1 = (Raise e, w2) ->
  let entry := entry_at w2 mode src (target_of dest_root src)
                 ("failed: " +:+ e) in
  drop_item id mode dest_root src (t, cfg) w
  = (Ok (failed (failure_message mode src e) t, logged id entry cfg),
     saved (logged id entry cfg) w2).
Proof.
  intros [Hsrc Hskip] Hcopy Hdel entry. unfold drop_item.
  erewrite bind_ok by (unfold reads; rewrite Hsrc; reflexivity).
  cbn [negb]. fold (target_of dest_root src).
  erewrite bind_ok by (unfold reads; reflexivity).
  rewrite Hskip.
  erewrite try_raise
    by (erewrite bind_ok by exact Hcopy;
        erewrite bind_raise by exact Hdel; reflexivity).
  erewrite bind_ok by (eapply add_history_entry_logged; exact Hget).
  reflexivity.
Qed.

End Item.

Lemma failed_prefix (reason : string) :
  String.prefix "failed: " ("failed: " +:+ reason) = true.
Proof. now destruct reason. Qed.

Lemma failed_not_success (reason : string) :
  String.eqb ("failed: " +:+ reason) "success" = false.
Proof. reflexivity. Qed.

Lemma failed_not_skipped (reason : string) :
  String.eqb ("failed: " +:+ reason) SKIPPED = false.
Proof. reflexivity. Qed.

Lemma recorded_counts t e t' :
  Recorded t e t' ->
  successes t' = successes t + count is_success [e]
  /\ failures t' = failures t + count is_failed [e]
  /\ length (failure_messages t')
     = length (failure_messages t) + count is_failed [e]
  /\ count is_success [e] + count is_failed [e] + count is_skipped [e] = 1.
Proof.
  unfold count, is_success, is_failed, is_skipped.
  intros [He | He | msg reason He]; cbn [List.filter]; rewrite He;
    rewrite ?failed_prefix, ?failed_not_success, ?failed_not_skipped;
    cbn; rewrite ?length_app; cbn; lia.
Qed.

Lemma count_cons f e es : count f (e :: es) = count f [e] + count f es.
Proof. unfold count. cbn. destruct (f e); reflexivity. Qed.

Lemma tallied_counts t es t' :
  Tallied t es t' ->
  successes t' = successes t + count is_success es
  /\ failures t' = failures t + count is_failed es
  /\ length (failure_messages t')
     = length (failure_messages t) + count is_failed es
  /\ count is_success es + count is_failed es + count is_skipped es
     = length es.
Proof.
  induction 1 as [t | t e t1 es t2 Hrec _ IH].
  - cbn. lia.
  - apply recorded_counts in Hrec.
    rewrite !(count_cons _ e es). cbn [length]. lia.
Qed.

Section Batch.
Context `{Host}.

(** Whatever happens to an item, it leaves exactly one entry, for its own
    source path, and the loop goes on. *)
Lemma drop_item_spec id mode dest_root src t cfg tab w :
  _get_tab_config_by_id cfg id = Some tab ->
  exists e t' w',
    drop_item id mode dest_root src (t, cfg) w = (Ok (t', logged id e cfg), w')
    /\ source e = src /\ operation e = mode /\ Recorded t e t'.
Proof.
  intros Hget.
  destruct (os_path_exists src w) eqn:Hsrc.
  2: { eexists _, _, _. split; [eapply drop_item_missing; eassumption|].
       repeat split. now eapply RecFailed. }
  destruct (new_only mode && os_path_exists (target_of dest_root src) w) eqn:Hskip.
  { apply andb_prop in Hskip as [Hnew Htgt].
    eexists _, _, _.
    split; [eapply drop_item_skipped; eassumption|].
    repeat split. now apply RecSkipped. }
  assert (Htr : transferred mode dest_root src w) by (split; assumption).
  destruct (copy_step mode src (target_of dest_root src)
              (os_path_exists (target_of dest_root src) w) w)
    as [[[]|e] w1] eqn:Hcopy.
  2: { eexists _, _, _.
       split; [eapply drop_item_copy_failed; eassumption|].
       repeat split. now eapply RecFailed. }
  destruct (delete_step mode src w1) as [[[]|e] w2] eqn:Hdel.
  - eexists _, _, _.
    split; [eapply drop_item_success; eassumption|].
    repeat split. now apply RecSuccess.
  - eexists _, _, _.
    split; [eapply drop_item_delete_failed; eassumption|].
    repeat split. now eapply RecFailed.
Qed.

Lemma drop_loop_spec id mode dest_root src_paths : forall t cfg tab w,
  _get_tab_config_by_id cfg id = Some tab ->
  exists entries t' cfg' w',
    drop_loop id mode dest_root src_paths (t, cfg) w = (Ok (t', cfg'), w')
    /\ source <$> entries = src_paths
    /\ Forall (fun e => operation e = mode) entries
    /\ Tallied t entries t'
    /\ cfg' = foldl (fun cfg e => logged id e cfg) cfg entries
    /\ _get_tab_config_by_id cfg' id
       = Some (with_history
                 (fun h => foldl (fun h e => append_entry e h) h entries) tab).
Proof.
  induction src_paths as [|src rest IH]; intros t cfg tab w Hget.
  - exists [], t, cfg, w. repeat split; [constructor | constructor |].
    rewrite Hget. now destruct tab.
  - destruct (drop_item_spec id mode dest_root src t cfg tab w Hget)
      as (e & t1 & w1 & Hitem & Hsrc & Hop & Hrec).
    destruct (IH t1 _ _ w1 (get_logged id e cfg tab Hget))
      as (es & t' & cfg' & w' & Hrest & Hsrcs & Hops & Htal & Hcfg & Hfinal).
    exists (e :: es), t', cfg', w'. repeat split.
    + cbn [drop_loop]. erewrite bind_ok by exact Hitem. exact Hrest.
    + rewrite fmap_cons, Hsrc, Hsrcs. reflexivity.
    + now constructor.
    + now apply (TalliedCons t e t1).
    + exact Hcfg.
    + rewrite Hfinal. reflexivity.
Qed.

(** The path ends as the file system decides, and the counters, the entry
    and the saved configuration follow from how it ends. *)
Lemma drop_item_handled id mode dest_root src cfg tab w :
  _get_tab_config_by_id cfg id = Some tab ->
  exists o w1,
    Handled mode dest_root src w o w1
    /\ forall t,
         drop_item id mode dest_root src (t, cfg) w
         = (Ok (counted mode src o t,
                logged id (item_entry mode dest_root src o w1) cfg),
            saved (logged id (item_entry mode dest_root src o w1) cfg) w1).
Proof.
  intros Hget.
  destruct (os_path_exists src w) eqn:Hsrc.
  2: { exists SourceMissing, w. split; [now constructor|]. intros t.
       exact (drop_item_missing id mode dest_root src t cfg tab Hget w Hsrc). }
  destruct (new_only mode && os_path_exists (target_of dest_root src) w) eqn:Hskip.
  { apply andb_prop in Hskip as [Hnew Htgt].
    exists SkippedExisting, w. split; [now constructor|]. intros t.
    exact (drop_item_skipped id mode dest_root src t cfg tab Hget w
             Hsrc Hnew Htgt). }
  assert (Htr : transferred mode dest_root src w) by (split; assumption).
  destruct (copy_step mode src (target_of dest_root src)
              (os_path_exists (target_of dest_root src) w) w)
    as [[[]|e] w1] eqn:Hcopy.
  2: { exists (TransferFailed e), w1.
       split; [now apply HandledCopyFailed|]. intros t.
       exact (drop_item_copy_failed id mode dest_root src t cfg tab Hget
                w w1 e Htr Hcopy). }
  destruct (delete_step mode src w1) as [[[]|e] w2] eqn:Hdel.
  - exists Transferred, w2.
    split; [now apply (HandledTransferred _ _ _ _ w1 w2)|]. intros t.
    exact (drop_item_success id mode dest_root src t cfg tab Hget
             w w1 w2 Htr Hcopy Hdel).
  - exists (TransferFailed e), w2.
    split; [now apply (HandledDeleteFailed _ _ _ _ e w1 w2)|]. intros t.
    exact (drop_item_delete_failed id mode dest_root src t cfg tab Hget
             w w1 w2 e Htr Hcopy Hdel).
Qed.

Lemma counted_recorded mode dest_root src o w1 t :
  Recorded t (item_entry mode dest_root src o w1) (counted mode src o t).
Proof.
  destruct o; cbn [counted].
  - now apply RecSuccess.
  - now apply RecSkipped.
  - now apply RecFailed with (reason := source_missing src).
  - now apply RecFailed with (reason := e).
Qed.

(** The file system decides one thing only. *)
Lemma Handled_det mode dest_root src w o1 w1 o2 w2 :
  Handled mode dest_root src w o1 w1 ->
  Handled mode dest_root src w o2 w2 ->
  o1 = o2 /\ w1 = w2.
Proof.
  intros H1 H2.
  destruct H1 as [Hs1 | Hs1 Hn1 Ht1 | u1 v1 [Hs1 Hk1] Hc1 Hd1
                 | e1 u1 [Hs1 Hk1] Hc1 | e1 u1 v1 [Hs1 Hk1] Hc1 Hd1];
    destruct H2 as [Hs2 | Hs2 Hn2 Ht2 | u2 v2 [Hs2 Hk2] Hc2 Hd2
                   | e2 u2 [Hs2 Hk2] Hc2 | e2 u2 v2 [Hs2 Hk2] Hc2 Hd2];
    try congruence;
    try (rewrite Hn1, Ht1 in Hk2; discriminate);
    try (rewrite Hn2, Ht2 in Hk1; discriminate);
    try (split; reflexivity);
    rewrite Hc1 in Hc2; try discriminate;
    injection Hc2 as ?; subst;
    try (split; reflexivity);
    rewrite Hd1 in Hd2; try discriminate;
    injection Hd2 as ?; subst; split; reflexivity.
Qed.

Lemma drop_loop_routed id mode dest_root src_paths : forall t cfg tab w,
  _get_tab_config_by_id cfg id = Some tab ->
  exists outcomes entries cfg' w',
    drop_loop id mode dest_root src_paths (t, cfg) w
    = (Ok (foldl (fun t item => counted mode item.1 item.2 t) t
             (zip src_paths outcomes), cfg'), w')
    /\ Routed id mode dest_root src_paths cfg w outcomes entries cfg' w'
    /\ length outcomes = length src_paths
    /\ source <$> entries = src_paths
    /\ Tallied t entries
         (foldl (fun t item => counted mode item.1 item.2 t) t
            (zip src_paths outcomes))
    /\ cfg' = foldl (fun cfg e => logged id e cfg) cfg entries
    /\ _get_tab_config_by_id cfg' id
       = Some (with_history
                 (fun h => foldl (fun h e => append_entry e h) h entries) tab).
Proof.
  induction src_paths as [|src rest IH]; intros t cfg tab w Hget.
  - exists [], [], cfg, w.
    repeat split; [constructor | constructor |].
    rewrite Hget. now destruct tab.
  - destruct (drop_item_handled id mode dest_root src cfg tab w Hget)
      as (o & w1 & Hhandled & Hitem).
    destruct (IH (counted mode src o t) _ _
                (saved (logged id (item_entry mode dest_root src o w1) cfg) w1)
                (get_logged id (item_entry mode dest_root src o w1) cfg tab Hget))
      as (os & es & cfg' & w' & Hrest & Hrouted & Hlen & Hsrcs & Htal & Hcfg
          & Hfinal).
    exists (o :: os), (item_entry mode dest_root src o w1 :: es), cfg', w'.
    repeat split.
    + cbn [drop_loop]. erewrite bind_ok by apply Hitem. exact Hrest.
    + now apply (RoutedCons id mode dest_root src rest cfg w o w1).
    + cbn [length]. now rewrite Hlen.
    + rewrite fmap_cons, Hsrcs. reflexivity.
    + apply (TalliedCons t _ (counted mode src o t)); [|exact Htal].
      apply counted_recorded.
    + exact Hcfg.
    + rewrite Hfinal. reflexivity.
Qed.

End Batch.

(** ** Batches *)

Section Batches.
Context `{Host}.

(** C1. For every batch against a tab whose destination is a directory,
    [handle_drop] returns normally with the closing status: no item aborts
    the batch.  Every path of the list is handled, in the order of the list,
    in the world the paths before it left: it ends as the file system
    decides there (source missing, skipped, transferred or failed with the
    exception of the copy or of the delete), its file operations are done,
    and one history entry that says how it ended is appended to the history
    of the tab and to no other before the next path is looked at.  The
    counters are those of the ways the paths ended: the success counter is
    the number of entries that say success, the failure counter the number
    that say failed, with one failure message each.  In particular, in a
    batch of three where the first path is transferred, the second does not
    exist when its turn comes and the third is transferred, there are 2
    successes and 1 failure, and exactly 3 entries are appended in the
    order of submission. *)
Theorem batch_processes_every_item id (src_paths : list string)
    (cfg : Config) (w : W) (tab : Tab) :
  _get_tab_config_by_id cfg id = Some tab ->
  tab_path tab <> "" ->
  os_path_isdir (tab_path tab) w = true ->
  exists outcomes entries t cfg' w' tab',
    handle_drop id src_paths cfg w
    = (Ok (BatchDone (tab_operation tab) (tab_path tab) (tab_name tab) t, cfg'),
       w')
    /\ Routed id (tab_operation tab) (tab_path tab) src_paths cfg w
         outcomes entries cfg' w'
    /\ length outcomes = length src_paths
    /\ t = tally_of (tab_operation tab) (zip src_paths outcomes)
    /\ source <$> entries = src_paths
    /\ cfg' = foldl (fun cfg e => logged id e cfg) cfg entries
    /\ _get_tab_config_by_id cfg' id = Some tab'
    /\ tab_history tab'
       = foldl (fun h e => append_entry e h) (tab_history tab) entries
    /\ successes t = count is_success entries
    /\ failures t = count is_failed entries
    /\ length (failure_messages t) = failures t
    /\ (forall a b c,
          src_paths = [a; b; c] ->
          outcome <$> entries
          = ["success"; "failed: " +:+ source_missing b; "success"] ->
          successes t = 2 /\ failures t = 1
          /\ source <$> entries = [a; b; c]
          /\ tab_history tab' = last_200 (tab_history tab ++ entries))
    /\ (forall a b c wa wc,
          src_paths = [a; b; c] ->
          let mode := tab_operation tab in
          let dest_root := tab_path tab in
          let ea := item_entry mode dest_root a Transferred wa in
          let wb := saved (logged id ea cfg) wa in
          let eb := item_entry mode dest_root b SourceMissing wb in
          let wc0 := saved (logged id eb (logged id ea cfg)) wb in
          let ec := item_entry mode dest_root c Transferred wc in
          Handled mode dest_root a w Transferred wa ->
          os_path_exists b wb = false ->
          Handled mode dest_root c wc0 Transferred wc ->
          outcomes = [Transferred; SourceMissing; Transferred]
          /\ successes t = 2 /\ failures t = 1
          /\ failure_messages t = ["Source does not exist: " +:+ b]
          /\ entries = [ea; eb; ec]
          /\ tab_history tab' = last_200 (tab_history tab ++ [ea; eb; ec])).
Proof.
  intros Hget Hpath Hdir.
  destruct (drop_loop_routed id (tab_operation tab) (tab_path tab) src_paths
              {| successes := 0; failures := 0; failure_messages := [] |}
              cfg tab w Hget)
    as (os & es & cfg' & w' & Hloop & Hrouted & Hlen & Hsrcs & Htal & Hcfg
        & Hfinal).
  fold no_tally in Hloop, Htal.
  fold (tally_of (tab_operation tab) (zip src_paths os)) in Hloop, Htal.
  pose proof (tallied_counts _ _ _ Htal) as (Hs & Hf & Hm & _).
  cbn in Hs, Hf, Hm.
  eexists os, es, (tally_of (tab_operation tab) (zip src_paths os)), cfg', w', _.
  split.
  { unfold handle_drop. rewrite Hget.
    destruct (String.eqb_spec (tab_path tab) ""); [contradiction|].
    erewrite bind_ok
      by (erewrite bind_ok by (unfold reads; rewrite Hdir; reflexivity);
          reflexivity).
    cbn [negb]. erewrite bind_ok by exact Hloop. reflexivity. }
  split; [exact Hrouted|]. split; [exact Hlen|]. split; [reflexivity|].
  split; [exact Hsrcs|]. split; [exact Hcfg|]. split; [exact Hfinal|].
  unfold with_history; cbn [tab_history].
  repeat (split; [first [assumption | reflexivity | lia]|]).
  split.
  - intros a b c -> Hout.
    destruct es as [|e1 [|e2 [|e3 [|? ?]]]]; try discriminate.
    injection Hout as H1 H2 H3.
    rewrite Hs, Hf. unfold count, is_success, is_failed.
    cbn [List.filter]. rewrite H1, H2, H3.
    rewrite failed_prefix, failed_not_success.
    repeat split; try reflexivity; [assumption|].
    apply appends_last_200.
  - intros a b c wa wc -> Ha Hb Hc.
    inversion Hrouted as [|? ? ? ? o1 w1 os1 es1 ? ? Hh1 Hr1]; subst.
    destruct (Handled_det _ _ _ _ _ _ _ _ Hh1 Ha) as [-> ->].
    inversion Hr1 as [|? ? ? ? o2 w2 os2 es2 ? ? Hh2 Hr2]; subst.
    destruct (Handled_det _ _ _ _ _ _ _ _ Hh2
                (HandledMissing _ _ _ _ Hb)) as [-> ->].
    inversion Hr2 as [|? ? ? ? o3 w3 os3 es3 ? ? Hh3 Hr3]; subst.
    destruct (Handled_det _ _ _ _ _ _ _ _ Hh3 Hc) as [-> ->].
    inversion Hr3; subst.
    repeat split; try reflexivity.
    apply appends_last_200.
Qed.

(** C2. For every batch request on a tab whose destination path is empty or
    is not a directory at the time of the call, [handle_drop] returns the
    no-valid-destination error and nothing else happened: the world is the
    one it started in (no file operation) and the configuration is the one
    it started with (no history entry for any item). *)
Theorem invalid_destination_rejects_batch id (src_paths : list string)
    (cfg : Config) (w : W) (tab : Tab) :
  _get_tab_config_by_id cfg id = Some tab ->
  tab_path tab = "" \/ os_path_isdir (tab_path tab) w = false ->
  handle_drop id src_paths cfg w
  = (Ok (NoValidDestination (tab_name tab), cfg), w)
  /\ is_error (NoValidDestination (tab_name tab)) = true.
Proof.
  intros Hget Hbad. split; [|reflexivity].
  unfold handle_drop. rewrite Hget. unfold_M.
  destruct Hbad as [-> | Hdir]; [reflexivity|].
  destruct (String.eqb (tab_path tab) ""); [reflexivity|].
  now rewrite Hdir.
Qed.

End Batches.

Lemma batch_processes_every_item_witness :
  _get_tab_config_by_id [Fixture.tab OP_COPY_REPLACE "/dst"] "t1"
  = Some (Fixture.tab OP_COPY_REPLACE "/dst")
  /\ exists t cfg' w',
       handle_drop (H := Toy.host) "t1" ["/a.txt"; "/b.txt"; "/c.txt"]
         [Fixture.tab OP_COPY_REPLACE "/dst"] Fixture.world
       = (Ok (BatchDone OP_COPY_REPLACE "/dst" "L1" t, cfg'), w')
       /\ successes t = 2 /\ failures t = 1
       /\ failure_messages t = ["Source does not exist: /b.txt"].
Proof.
  split; [reflexivity|].
  destruct (batch_processes_every_item (H := Toy.host) "t1"
              ["/a.txt"; "/b.txt"; "/c.txt"]
              [Fixture.tab OP_COPY_REPLACE "/dst"] Fixture.world
              (Fixture.tab OP_COPY_REPLACE "/dst") eq_refl
              ltac:(discriminate) eq_refl)
    as (outcomes & entries & t & cfg' & w' & tab' & Hrun & _ & _ & _ & _ & _
        & _ & _ & _ & _ & _ & _ & Hthree).
  exists t, cfg', w'. split; [exact Hrun|].
  pose (wa := (Toy.copy2 "/a.txt" "/dst/a.txt" Fixture.world).2).
  pose (cfg_a := logged "t1"
                   (item_entry (H := Toy.host) OP_COPY_REPLACE "/dst" "/a.txt"
                      Transferred wa)
                   [Fixture.tab OP_COPY_REPLACE "/dst"]).
  pose (wb := saved (H := Toy.host) cfg_a wa).
  pose (cfg_b := logged "t1"
                   (item_entry (H := Toy.host) OP_COPY_REPLACE "/dst" "/b.txt"
                      SourceMissing wb) cfg_a).
  pose (wc0 := saved (H := Toy.host) cfg_b wb).
  pose (wc := (Toy.copy2 "/c.txt" "/dst/c.txt" wc0).2).
  destruct (Hthree "/a.txt" "/b.txt" "/c.txt" wa wc eq_refl)
    as (_ & Hs & Hf & Hm & _).
  - apply (HandledTransferred (H := Toy.host) _ _ _ _ wa wa);
      [split; reflexivity | vm_compute; reflexivity | reflexivity].
  - vm_compute. reflexivity.
  - apply (HandledTransferred (H := Toy.host) _ _ _ _ wc wc);
      [split; vm_compute; reflexivity | vm_compute; reflexivity | reflexivity].
  - repeat split; assumption.
Defined.

(** The batch of the specification's example, run: three paths, the second
    one missing. *)
Example three_item_batch :
  exists w',
    handle_drop (H := Toy.host) "t1" ["/a.txt"; "/b.txt"; "/c.txt"]
      [Fixture.tab OP_COPY_REPLACE "/dst"] Fixture.world
    = (Ok (BatchDone OP_COPY_REPLACE "/dst" "L1"
             {| successes := 2; failures := 1;
                failure_messages := ["Source does not exist: /b.txt"] |},
           [{| tab_id := "t1"; tab_name := "L1"; tab_path := "/dst";
               tab_operation := OP_COPY_REPLACE;
               tab_history :=
                 [Fixture.step OP_COPY_REPLACE "/a.txt" "/dst/a.txt" "success" 1;
                  Fixture.step OP_COPY_REPLACE "/b.txt" ""
                    "failed: Source does not exist: /b.txt" 2;
                  Fixture.step OP_COPY_REPLACE "/c.txt" "/dst/c.txt" "success" 4]
             |}]), w')
    /\ Toy.nodes w' !! "/dst/a.txt" = Some (Toy.File (Toy.Text "A"))
    /\ Toy.nodes w' !! "/dst/c.txt" = Some (Toy.File (Toy.Text "C"))
    /\ Toy.nodes w' !! "/dst/b.txt" = None.
Proof. eexists. vm_compute. repeat split. Qed.

(** A file moved to a destination that has no file of that name: the target
    holds the contents, the source is gone. *)
Example moved_file_run :
  exists t cfg' w',
    handle_drop (H := Toy.host) "t1" ["/a.txt"]
      [Fixture.tab OP_MOVE_REPLACE "/dst"] Fixture.world
    = (Ok (BatchDone OP_MOVE_REPLACE "/dst" "L1" t, cfg'), w')
    /\ successes t = 1 /\ failures t = 0
    /\ Toy.nodes w' !! "/dst/a.txt" = Some (Toy.File (Toy.Text "A"))
    /\ Toy.nodes w' !! "/a.txt" = None.
Proof. eexists _, _, _. vm_compute. repeat split. Qed.

(** A folder, dropped with a trailing separator, copied over an older copy:
    the target is the tree of the source and nothing else, and the source
    is as it was. *)
Example replaced_folder_run :
  exists t cfg' w',
    handle_drop (H := Toy.host) "t1" ["/photos/"]
      [Fixture.tab OP_COPY_REPLACE "/dst"] Fixture.world_folders
    = (Ok (BatchDone OP_COPY_REPLACE "/dst" "L1" t, cfg'), w')
    /\ successes t = 1 /\ failures t = 0
    /\ Toy.nodes w' !! "/dst/photos" = Some Toy.Directory
    /\ Toy.nodes w' !! "/dst/photos/a.jpg" = Some (Toy.File (Toy.Text "a"))
    /\ Toy.nodes w' !! "/dst/photos/trip/b.jpg" = Some (Toy.File (Toy.Text "b"))
    /\ Toy.nodes w' !! "/dst/photos/stale.jpg" = None
    /\ Toy.nodes w' !! "/photos/a.jpg" = Some (Toy.File (Toy.Text "a"))
    /\ Toy.nodes w' !! "/photos/trip/b.jpg" = Some (Toy.File (Toy.Text "b")).
Proof. eexists _, _, _. vm_compute. repeat split. Qed.

Lemma invalid_destination_rejects_batch_witness :
  (_get_tab_config_by_id [Fixture.tab OP_MOVE_NEW "/gone"] "t1"
   = Some (Fixture.tab OP_MOVE_NEW "/gone")
   /\ Toy.isdir "/gone" Fixture.world = false)
  /\ handle_drop (H := Toy.host) "t1" ["/a.txt"; "/c.txt"]
       [Fixture.tab OP_MOVE_NEW "/gone"] Fixture.world
     = (Ok (NoValidDestination "L1", [Fixture.tab OP_MOVE_NEW "/gone"]),
        Fixture.world).
Proof.
  split; [split; reflexivity|].
  exact (proj1 (invalid_destination_rejects_batch (H := Toy.host) "t1"
                  ["/a.txt"; "/c.txt"] [Fixture.tab OP_MOVE_NEW "/gone"]
                  Fixture.world (Fixture.tab OP_MOVE_NEW "/gone")
                  eq_refl (or_intror eq_refl))).
Defined.

(** ** Skipped items *)

Section Skips.
Context `{Host}.

Lemma new_only_modes mode :
  mode = OP_COPY_NEW \/ mode = OP_MOVE_NEW -> new_only mode = true.
Proof. now intros [-> | ->]. Qed.

(** The world [save] leaves is the one the write of the configuration file
    leaves, whether the write raised or not. *)
Lemma saved_is_write cfg w :
  saved cfg w = (open_write_json CONFIG_FILENAME (json_of_config cfg) w).2.
Proof.
  unfold saved, save, try_except.
  now destruct (open_write_json CONFIG_FILENAME (json_of_config cfg) w)
    as [[[]|e] w'].
Qed.

(** C9. In a batch, for every item that is skipped because its target exists
    under a new-only mode: the counters after the item are the counters
    before it (neither the success counter nor the failure counter moves,
    and no failure message is added), the tab gets a history entry that says
    skipped, and the loop goes on with the rest of the batch with those
    counters. *)
Theorem skipped_item_counts_nothing id mode dest_root src
    (rest : list string) (t : Tally) (cfg : Config) (tab : Tab) (w : W) :
  _get_tab_config_by_id cfg id = Some tab ->
  mode = OP_COPY_NEW \/ mode = OP_MOVE_NEW ->
  os_path_exists src w = true ->
  os_path_exists (target_of dest_root src) w = true ->
  exists e cfg' w',
    drop_item id mode dest_root src (t, cfg) w = (Ok (t, cfg'), w')
    /\ _get_tab_config_by_id cfg' id
       = Some (with_history (append_entry e) tab)
    /\ request_of e = (mode, src, target_of dest_root src, SKIPPED)
    /\ drop_loop id mode dest_root (src :: rest) (t, cfg) w
       = drop_loop id mode dest_root rest (t, cfg') w'.
Proof.
  intros Hget Hmode Hsrc Htgt. apply new_only_modes in Hmode.
  pose proof (drop_item_skipped id mode dest_root src t cfg tab Hget w
                Hsrc Hmode Htgt) as Hitem.
  cbv zeta in Hitem. eexists _, _, _.
  split; [exact Hitem|]. split; [now apply get_logged|].
  split; [reflexivity|].
  cbn [drop_loop]. erewrite bind_ok by exact Hitem. reflexivity.
Qed.


End Skips.

Lemma skipped_item_counts_nothing_witness :
  (Toy.exists_ "/old.txt" Fixture.world = true
   /\ Toy.exists_ "/dst/old.txt" Fixture.world = true)
  /\ exists cfg' w',
       drop_item (H := Toy.host) "t1" OP_COPY_NEW "/dst" "/old.txt"
         ({| successes := 4; failures := 2; failure_messages := ["x"; "y"] |},
          [Fixture.tab OP_COPY_NEW "/dst"]) Fixture.world
       = (Ok ({| successes := 4; failures := 2;
                 failure_messages := ["x"; "y"] |}, cfg'), w').
Proof.
  split; [split; reflexivity|].
  destruct (skipped_item_counts_nothing (H := Toy.host) "t1" OP_COPY_NEW
              "/dst" "/old.txt" []
              {| successes := 4; failures := 2; failure_messages := ["x"; "y"] |}
              [Fixture.tab OP_COPY_NEW "/dst"] (Fixture.tab OP_COPY_NEW "/dst")
              Fixture.world eq_refl (or_introl eq_refl) eq_refl eq_refl)
    as (_ & cfg' & w' & Hitem & _).
  exists cfg', w'. exact Hitem.
Defined.

(** A skipped item on the small file system: the old target and the source
    are as they were, and the configuration file has been written. *)
Example skipped_item_run :
  exists t cfg' w',
    handle_drop (H := Toy.host) "t1" ["/old.txt"]
      [Fixture.tab OP_MOVE_NEW "/dst"] Fixture.world
    = (Ok (BatchDone OP_MOVE_NEW "/dst" "L1" t, cfg'), w')
    /\ successes t = 0 /\ failures t = 0
    /\ Toy.nodes w' !! "/dst/old.txt" = Some (Toy.File (Toy.Text "old"))
    /\ Toy.nodes w' !! "/old.txt" = Some (Toy.File (Toy.Text "new"))
    /\ Toy.nodes w' !! @CONFIG_FILENAME Toy.host
       = Some (Toy.File (Toy.Document (json_of_config cfg'))).
Proof. eexists _, _, _. vm_compute. repeat split. Qed.



(** ** A move whose source cannot be deleted *)

Section Moves.
Context `{Host}.



End Moves.



(** ** Normalization of tab documents *)

Lemma setdefault_lookup_ne k k' v (m : gmap string json) :
  k <> k' -> setdefault k v m !! k' = m !! k'.
Proof.
  intros Hne. unfold setdefault. destruct (m !! k); [reflexivity|].
  now rewrite lookup_insert_ne.
Qed.

Lemma setdefault_is_Some k v (m : gmap string json) :
  is_Some (setdefault k v m !! k).
Proof.
  unfold setdefault. destruct (m !! k) eqn:E.
  - rewrite E. eauto.
  - rewrite lookup_insert_eq. eauto.
Qed.

Lemma setdefault_present k v (m : gmap string json) :
  is_Some (m !! k) -> setdefault k v m = m.
Proof. intros [x Hx]. unfold setdefault. now rewrite Hx. Qed.

Lemma is_operation_cases op :
  is_operation op = true ->
  op = OP_COPY_REPLACE \/ op = OP_COPY_NEW \/ op = OP_MOVE_REPLACE
  \/ op = OP_MOVE_NEW.
Proof.
  unfold is_operation. rewrite !orb_true_iff, !String.eqb_eq. tauto.
Qed.

Lemma normalized_operation_enumerated o :
  is_operation (normalized_operation o) = true.
Proof.
  destruct o as [[]|]; try reflexivity. cbn.
  destruct (String.eqb s "copy"); [reflexivity|].
  destruct (String.eqb s "move"); [reflexivity|].
  now destruct (is_operation s) eqn:E.
Qed.

Lemma normalized_operation_fixed op :
  is_operation op = true -> normalized_operation (Some (JStr op)) = op.
Proof.
  intros Hop. apply is_operation_cases in Hop.
  destruct Hop as [-> | [-> | [-> | ->]]]; reflexivity.
Qed.

Lemma fill_defaults_operation u op m :
  fill_defaults u op m !! "operation" = Some op.
Proof.
  unfold fill_defaults.
  rewrite setdefault_lookup_ne by discriminate. apply lookup_insert_eq.
Qed.

Lemma fill_defaults_normalized u o m :
  normalized_tab (JObj (fill_defaults u (JStr (normalized_operation o)) m)).
Proof.
  exists (fill_defaults u (JStr (normalized_operation o)) m),
         (normalized_operation o).
  split; [reflexivity|].
  repeat split;
    try apply fill_defaults_operation;
    try apply normalized_operation_enumerated;
    unfold fill_defaults.
  - rewrite setdefault_lookup_ne, lookup_insert_ne,
      !setdefault_lookup_ne by discriminate.
    apply setdefault_is_Some.
  - rewrite setdefault_lookup_ne, lookup_insert_ne,
      setdefault_lookup_ne by discriminate.
    apply setdefault_is_Some.
  - rewrite setdefault_lookup_ne, lookup_insert_ne by discriminate.
    apply setdefault_is_Some.
  - apply setdefault_is_Some.
Qed.

Lemma fill_defaults_complete u m op :
  is_Some (m !! "id") -> is_Some (m !! "name") -> is_Some (m !! "path") ->
  is_Some (m !! "history") -> m !! "operation" = Some (JStr op) ->
  fill_defaults u (JStr op) m = m.
Proof.
  intros Hid Hname Hpath Hhist Hop. unfold fill_defaults.
  rewrite (setdefault_present "id"), (setdefault_present "name"),
    (setdefault_present "path") by assumption.
  rewrite insert_id by exact Hop.
  now apply setdefault_present.
Qed.

Lemma setdefault_keeps k' d (m : gmap string json) k v :
  m !! k = Some v -> setdefault k' d m !! k = Some v.
Proof.
  intros Hk. unfold setdefault. destruct (m !! k') eqn:Hk'; [exact Hk|].
  rewrite lookup_insert_ne by congruence. exact Hk.
Qed.

Lemma fill_defaults_keeps u op m k v :
  m !! k = Some v -> k <> "operation" -> fill_defaults u op m !! k = Some v.
Proof.
  intros Hk Hne. unfold fill_defaults. apply setdefault_keeps.
  rewrite lookup_insert_ne by congruence.
  now do 3 apply setdefault_keeps.
Qed.

Section Normalization.
Context `{Host}.

(** The loop body on a tab object whose operation can be hashed. *)
Lemma load_tab_eq m w :
  (forall v, m !! "operation" = Some v -> hashable v = true) ->
  load_tab (JObj m) w
  = (Ok (JObj (fill_defaults (uuid4 w).1
                 (JStr (normalized_operation (m !! "operation"))) m)),
     (uuid4 w).2).
Proof.
  intros Hh. unfold load_tab, fill_defaults.
  erewrite bind_ok by reflexivity.
  rewrite !setdefault_lookup_ne by discriminate.
  unfold normalized_operation.
  destruct (m !! "operation") as [v|] eqn:Hop; [|reflexivity].
  specialize (Hh v eq_refl).
  destruct v; try discriminate; try reflexivity.
  cbn [default from_option py_eq_str]. unfold Datatypes.id. cbn [py_eq_str].
  destruct (String.eqb s "copy"); [reflexivity|].
  destruct (String.eqb s "move"); [reflexivity|].
  unfold not_in_operations.
  destruct (is_operation s); reflexivity.
Qed.

(** It goes through on nothing else. *)
Lemma load_tab_inv t w t' w' :
  load_tab t w = (Ok t', w') ->
  exists m,
    t = JObj m /\ forall v, m !! "operation" = Some v -> hashable v = true.
Proof.
  destruct t; try discriminate. intros Hrun. exists m. split; [reflexivity|].
  intros v Hv. destruct v; try reflexivity; exfalso;
    unfold load_tab in Hrun;
    erewrite bind_ok in Hrun by reflexivity;
    rewrite !setdefault_lookup_ne in Hrun by discriminate;
    rewrite Hv in Hrun; discriminate.
Qed.

Lemma load_tab_normalized t w t' w' :
  load_tab t w = (Ok t', w') -> normalized_tab t'.
Proof.
  intros Hrun. destruct (load_tab_inv _ _ _ _ Hrun) as (m & -> & Hh).
  rewrite load_tab_eq in Hrun by exact Hh. injection Hrun as <- _.
  apply fill_defaults_normalized.
Qed.

(** The two loops have the same body. *)
Lemma import_tab_is_load_tab t : import_tab t = load_tab t.
Proof. reflexivity. Qed.

Lemma load_tab_complete t w :
  normalized_tab t -> load_tab t w = (Ok t, (uuid4 w).2).
Proof.
  intros (m & op & -> & Hid & Hname & Hpath & Hhist & Hop & Henum).
  rewrite load_tab_eq by (intros v Hv; rewrite Hop in Hv; now injection Hv as <-).
  rewrite Hop, (normalized_operation_fixed op Henum).
  now rewrite fill_defaults_complete.
Qed.

Lemma for_each_ok {A B} (f : A -> M B) (R : A -> B -> Prop) (l : list A) :
  (forall x w, x ∈ l -> exists y w', f x w = (Ok y, w') /\ R x y) ->
  forall w, exists ys w', for_each f l w = (Ok ys, w') /\ Forall2 R l ys.
Proof.
  induction l as [|x l IH]; intros Hf w.
  - exists [], w. split; [reflexivity | constructor].
  - destruct (Hf x w) as (y & w1 & Hx & Hr); [left|].
    destruct (IH (fun x' w' Hin => Hf x' w' (list_elem_of_further _ _ _ Hin)) w1)
      as (ys & w2 & Hl & Hrs).
    exists (y :: ys), w2. split; [|now constructor].
    cbn [for_each]. erewrite bind_ok by exact Hx.
    erewrite bind_ok by exact Hl. reflexivity.
Qed.

Lemma for_each_inv {A B} (f : A -> M B) (P : B -> Prop) :
  (forall x w y w', f x w = (Ok y, w') -> P y) ->
  forall l w ys w', for_each f l w = (Ok ys, w') -> Forall P ys.
Proof.
  intros Hf. induction l as [|x l IH]; intros w ys w' Hrun.
  - injection Hrun as <- _. constructor.
  - cbn [for_each] in Hrun. unfold_M.
    destruct (f x w) as [[y|e] w1] eqn:Hx; [|discriminate].
    destruct (for_each f l w1) as [[ys'|e] w2] eqn:Hl; [|discriminate].
    injection Hrun as <- _. constructor; eauto.
Qed.

Lemma for_each_load_tab_complete ts w :
  Forall normalized_tab ts ->
  exists w', for_each load_tab ts w = (Ok ts, w').
Proof.
  intros Hts.
  destruct (for_each_ok load_tab (fun t t' => t' = t) ts) with (w := w)
    as (ys & w' & Hrun & Heq).
  - intros t w0 Hin. exists t, (uuid4 w0).2. split; [|reflexivity].
    apply load_tab_complete. rewrite Forall_forall in Hts. now apply Hts.
  - exists w'. rewrite Hrun.
    assert (ys = ts) as ->; [|reflexivity].
    clear Hrun Hts. induction Heq as [|t t' ts ts' -> _ IH]; [reflexivity|].
    now rewrite IH.
Qed.

End Normalization.

(** ** The default configuration *)

Lemma blank_tab_normalized name u : normalized_tab (blank_tab name u).
Proof.
  eexists _, OP_COPY_REPLACE. split; [reflexivity|].
  repeat split; try (eexists; reflexivity).
Qed.

Lemma default_config_live config : is_default_config config -> live_config config.
Proof.
  intros (u1 & u2 & u3 & u4 & u5 & ->). eexists _, _.
  split; [reflexivity|]. split; [apply lookup_singleton_eq|].
  repeat constructor; apply blank_tab_normalized.
Qed.

Section Load.
Context `{Host}.

Lemma generate_default_config_ok w :
  exists config w',
    generate_default_config w = (Ok config, w') /\ is_default_config config.
Proof.
  eexists _, _. split.
  - unfold generate_default_config. cbn [seq for_each]. unfold default_tab.
    unfold_M. cbn [fst snd]. reflexivity.
  - do 5 eexists. reflexivity.
Qed.

(** What the [try] block makes of a document with a list of tabs. *)
Lemma load_try_tabs w m ts w1 :
  open_read_json CONFIG_FILENAME w = (Ok (JObj m), w1) ->
  m !! "tabs" = Some (JArr ts) ->
  load_try w
  = (ts' ← for_each load_tab ts; mret (JObj (<["tabs" := JArr ts']> m))) w1.
Proof.
  intros Hread Htabs. unfold load_try.
  erewrite bind_ok by exact Hread.
  cbn [py_contains py_getitem]. rewrite Htabs.
  erewrite bind_ok by reflexivity.
  rewrite bool_decide_eq_true_2 by eauto. cbn [negb].
  erewrite bind_ok by reflexivity. reflexivity.
Qed.

(** What it makes of any other document: the default configuration, or an
    exception. *)
Lemma load_try_invalid w data w1 :
  open_read_json CONFIG_FILENAME w = (Ok data, w1) ->
  ~ has_tabs_list data ->
  load_try w = generate_default_config w1
  \/ exists e, load_try w = (Raise e, w1).
Proof.
  intros Hread Hinv. unfold load_try.
  erewrite bind_ok by exact Hread.
  destruct data; cbn [py_contains];
    try (right; eexists; reflexivity).
  - (* a string: substring test, then a subscript that raises *)
    erewrite bind_ok by reflexivity.
    destruct (bool_decide _); cbn [negb]; [right | left; reflexivity].
    eexists. reflexivity.
  - (* a list: membership test, then a subscript that raises *)
    erewrite bind_ok by reflexivity.
    destruct (existsb _ l); cbn [negb]; [right | left; reflexivity].
    eexists. reflexivity.
  - (* a dict *)
    erewrite bind_ok by reflexivity.
    destruct (m !! "tabs") as [v|] eqn:Htabs.
    + rewrite bool_decide_eq_true_2 by eauto. cbn [negb py_getitem].
      rewrite Htabs. erewrite bind_ok by reflexivity.
      left. destruct v; try reflexivity.
      exfalso. apply Hinv. now exists m, l.
    + rewrite bool_decide_eq_false_2 by (intros [? ?]; discriminate).
      left. reflexivity.
Qed.

Lemma has_tabs_list_dec data : has_tabs_list data \/ ~ has_tabs_list data.
Proof.
  destruct data; try (right; intros (? & ? & ? & _); discriminate).
  destruct (m !! "tabs") as [v|] eqn:Htabs.
  - destruct v; try (right; intros (? & ? & [= <-] & ?); congruence).
    left. now exists m, l.
  - right. intros (? & ? & [= <-] & ?). congruence.
Qed.

Lemma load_unusable w :
  unusable_config_file w -> exists w0, load w = generate_default_config w0.
Proof.
  intros Hbad. unfold load. erewrite bind_ok by reflexivity.
  destruct (os_path_exists CONFIG_FILENAME w) eqn:Hex; cbn [negb];
    [|now exists w].
  destruct Hbad as [Habs | [(e & w1 & Hread) | (data & w1 & Hread & Hinv)]].
  - congruence.
  - exists w1. rewrite (try_raise _ _ w e w1); [reflexivity|].
    unfold load_try. now erewrite bind_raise by exact Hread.
  - exists w1.
    destruct (load_try_invalid w data w1 Hread Hinv) as [Htry | [e Htry]].
    + unfold try_except. rewrite Htry.
      now destruct (generate_default_config_ok w1) as (c & w' & -> & _).
    + now rewrite (try_raise _ _ w e w1).
Qed.

(** [load] returns the default configuration or the document of the file
    with every tab passed through the loop body. *)
Lemma load_cases w :
  (exists w0, load w = generate_default_config w0)
  \/ (exists m ts w1 ts' w',
        os_path_exists CONFIG_FILENAME w = true
        /\ open_read_json CONFIG_FILENAME w = (Ok (JObj m), w1)
        /\ m !! "tabs" = Some (JArr ts)
        /\ for_each load_tab ts w1 = (Ok ts', w')
        /\ load w = (Ok (JObj (<["tabs" := JArr ts']> m)), w')).
Proof.
  destruct (os_path_exists CONFIG_FILENAME w) eqn:Hex.
  2: { left. apply load_unusable. now left. }
  destruct (open_read_json CONFIG_FILENAME w) as [[data|e] w1] eqn:Hread.
  2: { left. apply load_unusable. right. left. now exists e, w1. }
  destruct (has_tabs_list_dec data) as [(m & ts & -> & Htabs) | Hinv].
  2: { left. apply load_unusable. right. right. now exists data, w1. }
  pose proof (load_try_tabs w m ts w1 Hread Htabs) as Htry.
  destruct (for_each load_tab ts w1) as [[ts'|e] w2] eqn:Hloop.
  - right. exists m, ts, w1, ts', w2. repeat split; try assumption.
    unfold load. erewrite bind_ok by reflexivity. rewrite Hex. cbn [negb].
    apply try_ok. rewrite Htry. now erewrite bind_ok by exact Hloop.
  - left. exists w2.
    unfold load. erewrite bind_ok by reflexivity. rewrite Hex. cbn [negb].
    rewrite (try_raise _ _ w e w2); [reflexivity|]. rewrite Htry.
    now erewrite bind_raise by exact Hloop.
Qed.

(** Whatever the file holds, [load] returns a configuration that load and
    import would leave as it is. *)
Lemma load_returns_live w :
  exists config w', load w = (Ok config, w') /\ live_config config.
Proof.
  destruct (load_cases w)
    as [[w0 Hdef] | (m & ts & w1 & ts' & w' & _ & _ & _ & Hloop & Hload)].
  - destruct (generate_default_config_ok w0) as (c & w' & Hrun & Hc).
    exists c, w'. split; [congruence | now apply default_config_live].
  - eexists _, w'. split; [exact Hload|].
    eexists _, ts'. split; [reflexivity|]. split; [apply lookup_insert_eq|].
    eapply for_each_inv; [|exact Hloop].
    intros; eapply load_tab_normalized; eassumption.
Qed.

(** C6. [load] never raises: in every world it returns a configuration.
    Whenever the configuration file is absent, cannot be read or parsed, or
    holds a document without a list under [tabs], that configuration is the
    freshly generated default: exactly five tabs named L1 to L5, each with
    a fresh id, the empty path, the mode [copy_replace] and an empty
    history. *)
Theorem load_never_raises_and_falls_back (w : W) :
  exists config w',
    load w = (Ok config, w')
    /\ (unusable_config_file w -> is_default_config config).
Proof.
  destruct (load_returns_live w) as (config & w' & Hload & _).
  exists config, w'. split; [exact Hload|].
  intros Hbad. destruct (load_unusable w Hbad) as [w0 Hdef].
  destruct (generate_default_config_ok w0) as (c & w'' & Hrun & Hc).
  congruence.
Qed.

End Load.

Lemma load_never_raises_and_falls_back_witness :
  Toy.exists_ "/home/u/.config/file_router/config.json" Fixture.world = false
  /\ exists config w',
       load (H := Toy.host) Fixture.world = (Ok config, w')
       /\ is_default_config config.
Proof.
  split; [reflexivity|].
  destruct (load_never_raises_and_falls_back (H := Toy.host) Fixture.world)
    as (config & w' & Hload & Hdefault).
  exists config, w'. split; [exact Hload|].
  apply Hdefault. left. reflexivity.
Defined.

(** No configuration file at all, and one that is not a document: the same
    five blank tabs. *)
Example load_without_a_file :
  exists w',
    load (H := Toy.host) Fixture.world
    = (Ok (JObj {[ "tabs" := JArr [blank_tab "L1" "uuid-0"; blank_tab "L2" "uuid-1";
                                   blank_tab "L3" "uuid-2"; blank_tab "L4" "uuid-3";
                                   blank_tab "L5" "uuid-4"] ]}), w').
Proof. eexists. vm_compute. reflexivity. Qed.

Example load_of_a_damaged_file :
  exists w',
    load (H := Toy.host)
      {| Toy.nodes := {[ "/home/u/.config/file_router/config.json"
                           := Toy.File (Toy.Text "{ tabs: ") ]};
         Toy.protected := ∅; Toy.issued := 0; Toy.clock := 0 |}
    = (Ok (JObj {[ "tabs" := JArr [blank_tab "L1" "uuid-0"; blank_tab "L2" "uuid-1";
                                   blank_tab "L3" "uuid-2"; blank_tab "L4" "uuid-3";
                                   blank_tab "L5" "uuid-4"] ]}), w').
Proof. eexists. vm_compute. reflexivity. Qed.

(** ** Operations of loaded tabs *)

(** The table of the specification, read off [normalized_operation]. *)
Lemma normalized_operation_table :
  normalized_operation (Some (JStr "copy")) = "copy_replace"
  /\ normalized_operation (Some (JStr "move")) = "move_replace"
  /\ normalized_operation (Some (JStr "copy_replace")) = "copy_replace"
  /\ normalized_operation (Some (JStr "copy_new")) = "copy_new"
  /\ normalized_operation (Some (JStr "move_replace")) = "move_replace"
  /\ normalized_operation (Some (JStr "move_new")) = "move_new"
  /\ normalized_operation None = "copy_replace"
  /\ (forall v, (forall s, v <> JStr s) ->
                normalized_operation (Some v) = "copy_replace")
  /\ (forall s, s <> "copy" -> s <> "move" -> is_operation s = false ->
                normalized_operation (Some (JStr s)) = "copy_replace").
Proof.
  repeat (split; [reflexivity|]). split.
  - intros v Hv. destruct v; try reflexivity. now destruct (Hv s).
  - intros s Hc Hm Hs. cbn.
    destruct (String.eqb_spec s "copy"); [contradiction|].
    destruct (String.eqb_spec s "move"); [contradiction|].
    now rewrite Hs.
Qed.

Section LoadedOperations.
Context `{Host}.

(** X27.  For every document with a list of tab objects whose operation is
    absent or a scalar (null, a boolean, a number or a string), [load]
    returns the document with, tab for tab, the operation normalized:
    [copy] to [copy_replace], [move] to [move_replace], each of the four
    enumerated values unchanged and every other value, a missing one
    included, to [copy_replace].  And whatever the file holds, after
    [load] the operation of every tab is one of the four enumerated values. *)
Theorem load_normalizes_scalar_operations :
  (forall (w : W) (m : gmap string json) (ts : list json) (w1 : W),
     os_path_exists CONFIG_FILENAME w = true ->
     open_read_json CONFIG_FILENAME w = (Ok (JObj m), w1) ->
     m !! "tabs" = Some (JArr ts) ->
     Forall scalar_operation ts ->
     exists ts' w',
       load w = (Ok (JObj (<["tabs" := JArr ts']> m)), w')
       /\ Forall2 operation_normalized ts ts')
  /\ (forall w : W,
        exists config w' m ts,
          load w = (Ok config, w')
          /\ config = JObj m /\ m !! "tabs" = Some (JArr ts)
          /\ Forall operation_enumerated ts).
Proof.
  split.
  - intros w m ts w1 Hex Hread Htabs Hts.
    destruct (for_each_ok load_tab operation_normalized ts) with (w := w1)
      as (ts' & w' & Hloop & Hnorm).
    { intros t w0 Hin. rewrite Forall_forall in Hts.
      destruct (Hts t Hin) as (tm & -> & Hh).
      eexists _, _. split; [now apply load_tab_eq|].
      eexists tm, _. repeat split. apply fill_defaults_operation. }
    exists ts', w'. split; [|exact Hnorm].
    unfold load. erewrite bind_ok by reflexivity. rewrite Hex. cbn [negb].
    apply try_ok. rewrite (load_try_tabs w m ts w1 Hread Htabs).
    now erewrite bind_ok by exact Hloop.
  - intros w.
    destruct (load_returns_live w) as (config & w' & Hload & m & ts & -> & Htabs & Hts).
    exists (JObj m), w', m, ts. repeat split; try assumption.
    eapply Forall_impl; [exact Hts|].
    intros t (tm & op & -> & _ & _ & _ & _ & Hop & Henum). now exists tm, op.
Qed.

End LoadedOperations.

Example legacy_document_loaded :
  exists config w',
    load (H := Toy.host) (world_holding legacy_document) = (Ok config, w')
    /\ operations config
       = [Some (JStr "move_replace"); Some (JStr "copy_replace");
          Some (JStr "copy_replace"); Some (JStr "copy_replace");
          Some (JStr "copy_replace"); Some (JStr "move_new")].
Proof. eexists _, _. split; vm_compute; reflexivity. Qed.

Lemma load_normalizes_scalar_operations_witness :
  (Toy.exists_ "/home/u/.config/file_router/config.json"
     (world_holding legacy_document) = true
   /\ Toy.read_json "/home/u/.config/file_router/config.json"
        (world_holding legacy_document)
      = (Ok legacy_document, world_holding legacy_document))
  /\ exists ts' w',
       load (H := Toy.host) (world_holding legacy_document)
       = (Ok (JObj {[ "tabs" := JArr ts' ]}), w')
       /\ length ts' = 6.
Proof.
  split; [split; reflexivity|].
  destruct (proj1 (load_normalizes_scalar_operations (H := Toy.host))
              (world_holding legacy_document)
              {[ "tabs" := JArr legacy_tabs ]} legacy_tabs
              (world_holding legacy_document) eq_refl eq_refl eq_refl)
    as (ts' & w' & Hload & Hnorm).
  { unfold legacy_tabs.
    repeat (apply Forall_cons_2;
            [eexists; split;
             [reflexivity
             |intros v Hv; vm_compute in Hv; try discriminate;
              now injection Hv as <-]|]).
    apply Forall_nil_2. }
  exists ts', w'. split.
  - rewrite Hload. now rewrite insert_singleton_eq.
  - symmetry. exact (Forall2_length _ _ _ Hnorm).
Defined.

(** C5.  The code on a tab whose operation is a list.  The value is not one
    of the four enumerated values, and the branch that maps every such value
    to [copy_replace] tests it with [op not in {...}], which hashes it: the
    loop body raises [TypeError] instead of mapping it.  [load] then falls
    back to the default configuration (five tabs, none of them the tab of
    the file), and [import_config] raises. *)
Lemma list_operation_is_not_normalized :
  (load_tab (H := Toy.host) list_operation_tab
     (world_holding list_operation_document)).1
  = Raise "TypeError: unhashable type: 'list'"
  /\ (exists config w',
        load (H := Toy.host) (world_holding list_operation_document)
        = (Ok config, w')
        /\ is_default_config config
        /\ length (operations config) = 5
        /\ ~ exists ts',
             config = JObj {[ "tabs" := JArr ts' ]}
             /\ Forall2 operation_normalized [list_operation_tab] ts')
  /\ (import_config (H := Toy.host) "/home/u/.config/file_router/config.json"
        Yes list_operation_document
        (world_holding list_operation_document)).1
     = Raise "TypeError: unhashable type: 'list'".
Proof.
  split; [reflexivity|]. split; [|reflexivity].
  eexists _, _. split; [vm_compute; reflexivity|].
  split; [do 5 eexists; vm_compute; reflexivity|].
  split; [reflexivity|].
  intros (ts' & Heq & Hnorm). apply Forall2_length in Hnorm.
  apply (f_equal (fun c => length (operations c))) in Heq.
  unfold operations in Heq at 2. rewrite lookup_singleton_eq in Heq.
  rewrite length_fmap, <- Hnorm in Heq. vm_compute in Heq. discriminate.
Qed.

(** ** Tabs that need no normalization *)

Section CompleteTabs.
Context `{Host}.

(** C10.  The loop bodies of [load] and [import_config] never overwrite a
    field that is present: in the tab they return, every key of the input
    other than [operation] has the value it had, and so has [operation] when
    it was one of the four enumerated values.  So for every tab object that
    has the keys [id], [name], [path] and [history] and whose operation is
    one of the four enumerated values, the loaded tab and the imported tab
    are the input tab: no key is added, none is rewritten. *)
Theorem normalization_keeps_present_fields :
  (forall (m m' : gmap string json) (w w' : W),
     load_tab (JObj m) w = (Ok (JObj m'), w')
     \/ import_tab (JObj m) w = (Ok (JObj m'), w') ->
     forall k v,
       m !! k = Some v ->
       k <> "operation" \/ (exists op, v = JStr op /\ is_operation op = true) ->
       m' !! k = Some v)
  /\ (forall (m : gmap string json) (op : string) (w : W),
        is_Some (m !! "id") -> is_Some (m !! "name") ->
        is_Some (m !! "path") -> is_Some (m !! "history") ->
        m !! "operation" = Some (JStr op) -> is_operation op = true ->
        load_tab (JObj m) w = (Ok (JObj m), (uuid4 w).2)
        /\ import_tab (JObj m) w = (Ok (JObj m), (uuid4 w).2)).
Proof.
  split.
  - intros m m' w w' Hrun k v Hk Hkeep.
    assert (Hload : load_tab (JObj m) w = (Ok (JObj m'), w'))
      by (destruct Hrun as [Hrun | Hrun]; exact Hrun).
    destruct (load_tab_inv _ _ _ _ Hload) as (m0 & [= <-] & Hh).
    rewrite load_tab_eq in Hload by exact Hh. injection Hload as <- _.
    destruct (decide (k = "operation")) as [-> | Hne].
    + destruct Hkeep as [Hne | (op & -> & Henum)]; [contradiction|].
      rewrite fill_defaults_operation, Hk.
      now rewrite (normalized_operation_fixed op Henum).
    + now apply fill_defaults_keeps.
  - intros m op w Hid Hname Hpath Hhist Hop Henum.
    assert (Hload : load_tab (JObj m) w = (Ok (JObj m), (uuid4 w).2)).
    { apply load_tab_complete. exists m, op. repeat split; assumption. }
    split; [exact Hload|]. rewrite import_tab_is_load_tab. exact Hload.
Qed.

(** A document all of whose tabs are complete is loaded as it is. *)
Lemma complete_document_is_left_alone w m ts w1 :
  os_path_exists CONFIG_FILENAME w = true ->
  open_read_json CONFIG_FILENAME w = (Ok (JObj m), w1) ->
  m !! "tabs" = Some (JArr ts) ->
  Forall normalized_tab ts ->
  exists w', load w = (Ok (JObj m), w').
Proof.
  intros Hex Hread Htabs Hts.
  destruct (for_each_load_tab_complete ts w1 Hts) as [w' Hloop].
  exists w'. unfold load. erewrite bind_ok by reflexivity.
  rewrite Hex. cbn [negb].
  apply try_ok. rewrite (load_try_tabs w m ts w1 Hread Htabs).
  erewrite bind_ok by exact Hloop. cbn. now rewrite insert_id.
Qed.

End CompleteTabs.

Lemma normalization_keeps_present_fields_witness :
  load_tab (H := Toy.host) (JObj complete_tab) Fixture.world
  = (Ok (JObj complete_tab), (Toy.fresh_id Fixture.world).2)
  /\ import_tab (H := Toy.host) (JObj complete_tab) Fixture.world
     = (Ok (JObj complete_tab), (Toy.fresh_id Fixture.world).2).
Proof.
  apply (proj2 (normalization_keeps_present_fields (H := Toy.host))
           complete_tab "move_new" Fixture.world);
    first [reflexivity | eexists; reflexivity].
Defined.

(** ** The window's configuration as a document *)

Lemma entry_of_json_of_entry (e : HistoryEntry) :
  entry_of_json (json_of_entry e) = Some e.
Proof. now destruct e. Qed.

Lemma tab_of_json_of_tab (t : Tab) : tab_of_json (json_of_tab t) = Some t.
Proof.
  destruct t as [id name path op history].
  unfold tab_of_json, json_of_tab, field.
  cbn [tab_id tab_name tab_path tab_operation tab_history].
  replace (({[ "id" := JStr id; "name" := JStr name; "path" := JStr path;
               "operation" := JStr op;
               "history" := JArr (json_of_entry <$> history) ]}
            : gmap string json) !! "history")
    with (Some (JArr (json_of_entry <$> history))) by reflexivity.
  rewrite (mapM_fmap_Some _ _ _ entry_of_json_of_entry). reflexivity.
Qed.

(** What [save] writes determines the configuration it was written from. *)
Lemma config_of_json_of_config (cfg : Config) :
  config_of_json (json_of_config cfg) = Some cfg.
Proof.
  unfold config_of_json, json_of_config. rewrite lookup_singleton_eq.
  apply mapM_fmap_Some, tab_of_json_of_tab.
Qed.

(** ** Export, then import with Replace *)

Lemma json_of_tab_normalized (t : Tab) :
  is_operation (tab_operation t) = true -> normalized_tab (json_of_tab t).
Proof.
  intros Hop. eexists _, (tab_operation t). split; [reflexivity|].
  repeat split; try (eexists; reflexivity); assumption.
Qed.

(** The configuration of a running window is live as a document. *)
Lemma json_of_config_live (cfg : Config) :
  Forall (fun t => is_operation (tab_operation t) = true) cfg ->
  live_config (json_of_config cfg).
Proof.
  intros Hcfg. eexists _, _. split; [reflexivity|].
  split; [apply lookup_singleton_eq|].
  apply Forall_fmap. eapply Forall_impl; [exact Hcfg|].
  intros t Ht. now apply json_of_tab_normalized.
Qed.

Section ExportImport.
Context `{Host}.

(** [_rebuild_tabs] ends in one of two ways. *)
Lemma rebuild_and_report_cases config w :
  (exists w', _rebuild_tabs config w = (Ok (), w')
              /\ rebuild_and_report config w = (Ok Imported, w'))
  \/ (exists e w', _rebuild_tabs config w = (Raise e, w')
                   /\ rebuild_and_report config w = (Ok (RebuildRaised e), w')).
Proof.
  unfold rebuild_and_report, try_except. unfold_M.
  destruct (_rebuild_tabs config w) as [[[]|e] w'].
  - left. now exists w'.
  - right. now exists e, w'.
Qed.

(** The page of a tab whose id, name and path are strings is built, and
    nothing in the world changes. *)
Lemma create_tab_typed t tab w :
  tab_of_json t = Some tab -> _create_tab t w = (Ok (), w).
Proof.
  destruct t; try discriminate. unfold tab_of_json, field. intros Htab.
  destruct (m !! "id") as [[]|] eqn:Hid; try discriminate.
  destruct (m !! "name") as [[]|] eqn:Hname; try discriminate.
  destruct (m !! "path") as [[]|] eqn:Hpath; try discriminate.
  unfold _create_tab. cbn [py_getitem py_get]. rewrite Hid, Hname, Hpath.
  unfold_M. cbn [default from_option]. unfold Datatypes.id.
  unfold _update_tab_path_ui. cbn [py_truthy isdir_asked].
  now destruct (String.eqb s1 "").
Qed.

Lemma rebuild_tabs_typed config cfg w :
  config_of_json config = Some cfg -> _rebuild_tabs config w = (Ok (), w).
Proof.
  destruct config; try discriminate. unfold config_of_json.
  destruct (m !! "tabs") as [[]|] eqn:Htabs; try discriminate.
  intros Hcfg. unfold _rebuild_tabs. cbn [py_getitem]. rewrite Htabs.
  erewrite bind_ok by reflexivity.
  assert (Hloop : exists us, for_each _create_tab l w = (Ok us, w)).
  { apply mapM_Some in Hcfg. clear Htabs.
    induction Hcfg as [|t tab ts cfg Ht _ [us IH]].
    - now exists [].
    - exists (() :: us). cbn [for_each].
      erewrite bind_ok by (eapply create_tab_typed; exact Ht).
      erewrite bind_ok by exact IH. reflexivity. }
  destruct Hloop as [us Hloop]. erewrite bind_ok by exact Hloop. reflexivity.
Qed.

Lemma rebuild_and_report_typed config cfg w :
  config_of_json config = Some cfg ->
  rebuild_and_report config w = (Ok Imported, w).
Proof.
  intros Hcfg. unfold rebuild_and_report.
  apply try_ok. erewrite bind_ok by (eapply rebuild_tabs_typed; exact Hcfg).
  reflexivity.
Qed.

(** C8, as the code has it.  For every live configuration (one that load or
    import has left), exported to a file from which the exported document is
    read back: import with Replace makes the configuration the document
    with the key [tabs] alone, and its tab list is the exported tab list,
    tab for tab and field for field.  It is the exported configuration
    itself when that one has no key besides [tabs].  The configuration is
    assigned and saved before the pages are rebuilt, so this holds whether
    [_rebuild_tabs] returns or raises; the import is reported when it
    returns, as it does when the id, name and path of every tab are
    strings. *)
Theorem export_then_import_replace (filename : string) (config current : json)
    (w w1 w2 : W) :
  live_config config ->
  export_config filename config w = (Ok (Exported filename), w1) ->
  open_read_json filename w1 = (Ok config, w2) ->
  exists m ts status w3,
    config = JObj m /\ m !! "tabs" = Some (JArr ts)
    /\ import_config filename Yes current w1
       = (Ok (status, JObj {[ "tabs" := JArr ts ]}), w3)
    /\ (status = Imported \/ exists e, status = RebuildRaised e)
    /\ (is_Some (config_of_json config) -> status = Imported)
    /\ ((forall k, k <> "tabs" -> m !! k = None) ->
        JObj {[ "tabs" := JArr ts ]} = config).
Proof.
  intros (m & ts & -> & Htabs & Hts) Hexport Hread.
  assert (Hname : String.eqb filename "" = false).
  { unfold export_config in Hexport.
    destruct (String.eqb filename ""); [discriminate|reflexivity]. }
  destruct (for_each_load_tab_complete ts w2 Hts) as [w3 Hloop].
  assert (Hrun : forall status w4,
            rebuild_and_report (JObj {[ "tabs" := JArr ts ]})
              (save (JObj {[ "tabs" := JArr ts ]}) w3).2 = (Ok status, w4) ->
            import_config filename Yes current w1
            = (Ok (status, JObj {[ "tabs" := JArr ts ]}), w4)).
  { intros status w4 Hreport. unfold import_config. rewrite Hname.
    erewrite bind_ok
      by (apply try_ok; erewrite bind_ok by exact Hread; reflexivity).
    cbv beta iota. cbn [py_contains py_getitem]. rewrite Htabs.
    erewrite bind_ok by reflexivity.
    rewrite bool_decide_eq_true_2 by eauto. cbn [negb].
    erewrite bind_ok by reflexivity. cbv beta iota.
    change (for_each import_tab ts) with (for_each load_tab ts).
    erewrite bind_ok by exact Hloop.
    erewrite bind_ok by apply save_ok.
    erewrite bind_ok by exact Hreport. reflexivity. }
  assert (Honly : (forall k, k <> "tabs" -> m !! k = None) ->
                  JObj {[ "tabs" := JArr ts ]} = JObj m).
  { intros Honly. f_equal. apply map_eq. intros k.
    destruct (decide (k = "tabs")) as [-> | Hk].
    - now rewrite lookup_singleton_eq, Htabs.
    - now rewrite lookup_singleton_ne, Honly. }
  destruct (rebuild_and_report_cases (JObj {[ "tabs" := JArr ts ]})
              (save (JObj {[ "tabs" := JArr ts ]}) w3).2)
    as [(w4 & _ & Hreport) | (e & w4 & Hraise & Hreport)].
  - exists m, ts, Imported, w4. repeat split; auto.
  - exists m, ts, (RebuildRaised e), w4.
    split; [reflexivity|]. split; [exact Htabs|].
    split; [now apply Hrun|]. split; [right; now exists e|].
    split; [|exact Honly].
    intros [cfg Hcfg]. exfalso.
    assert (Htyped : config_of_json (JObj {[ "tabs" := JArr ts ]}) = Some cfg).
    { unfold config_of_json in *. rewrite Htabs in Hcfg.
      now rewrite lookup_singleton_eq. }
    rewrite (rebuild_tabs_typed _ cfg _ Htyped) in Hraise. discriminate.
Qed.

Lemma extend_tabs_world current ts w :
  (extend_tabs current ts w).2 = w.
Proof.
  unfold extend_tabs. destruct current; try reflexivity.
  cbn [py_getitem]. destruct (m !! "tabs") as [[]|]; reflexivity.
Qed.

(** The ways [import_config] ends: before the assignment, with the
    configuration as it was; with an exception of the format check or of
    the loop, also before the assignment; or after the assignment and the
    save, with whatever [_rebuild_tabs] did. *)
Lemma import_config_cases filename choice current w :
  (exists status w',
     import_config filename choice current w = (Ok (status, current), w')
     /\ (status = ImportCancelled \/ (exists e, status = ImportReadError e)
         \/ status = ImportInvalidFormat
         \/ (status = ImportAborted /\ choice = Cancel)))
  \/ (exists e w', import_config filename choice current w = (Raise e, w'))
  \/ (exists config' ts w2 status w3,
        ((choice = Yes /\ config' = JObj {[ "tabs" := JArr ts ]})
         \/ (choice = No /\ extend_tabs current ts w2 = (Ok config', w2)))
        /\ Forall normalized_tab ts
        /\ rebuild_and_report config' (save config' w2).2 = (Ok status, w3)
        /\ (status = Imported \/ exists e, status = RebuildRaised e)
        /\ import_config filename choice current w
           = (Ok (status, config'), w3)).
Proof.
  unfold import_config.
  destruct (String.eqb filename "").
  { left. eexists _, _. split; [reflexivity | now left]. }
  unfold_M.
  destruct (open_read_json filename w) as [[data|e] w1].
  2: { left. eexists _, _. split; [reflexivity|]. right; left. now exists e. }
  destruct data; cbn [py_contains py_getitem]; unfold_M;
    try (right; left; eexists _, _; reflexivity).
  - destruct (bool_decide _); cbn [negb].
    + right; left. eexists _, _; reflexivity.
    + left. eexists _, _. split; [reflexivity | tauto].
  - destruct (existsb _ l); cbn [negb].
    + right; left. eexists _, _; reflexivity.
    + left. eexists _, _. split; [reflexivity | tauto].
  - destruct (m !! "tabs") as [v|] eqn:Htabs.
    2: { rewrite bool_decide_eq_false_2 by (intros [? ?]; discriminate).
         left. eexists _, _. split; [reflexivity | tauto]. }
    rewrite bool_decide_eq_true_2 by eauto. cbn [negb].
    destruct v; try (left; eexists _, _; split; [reflexivity | tauto]).
    change (for_each import_tab l) with (for_each load_tab l).
    destruct (for_each load_tab l w1) as [[ts|e] w2] eqn:Hloop.
    2: { right; left. eexists _, _; reflexivity. }
    assert (Hts : Forall normalized_tab ts).
    { eapply for_each_inv; [|exact Hloop].
      intros; eapply load_tab_normalized; eassumption. }
    destruct choice.
    + rewrite save_ok.
      destruct (rebuild_and_report_cases (JObj {[ "tabs" := JArr ts ]})
                  (save (JObj {[ "tabs" := JArr ts ]}) w2).2)
        as [(w3 & _ & Hreport) | (e & w3 & _ & Hreport)];
        rewrite Hreport; right; right; eexists _, ts, w2, _, w3;
        (split; [left; split; reflexivity|]); (split; [exact Hts|]);
        (split; [exact Hreport|]); (split; [|reflexivity]);
        [now left | right; now exists e].
    + pose proof (extend_tabs_world current ts w2) as Hworld.
      destruct (extend_tabs current ts w2) as [[c|e] w2'] eqn:Hext;
        cbn in Hworld; subst w2'.
      2: { right; left. eexists _, _; reflexivity. }
      rewrite save_ok.
      destruct (rebuild_and_report_cases c (save c w2).2)
        as [(w3 & _ & Hreport) | (e & w3 & _ & Hreport)];
        rewrite Hreport; right; right; eexists c, ts, w2, _, w3;
        (split; [right; split; [reflexivity | exact Hext]|]);
        (split; [exact Hts|]);
        (split; [exact Hreport|]); (split; [|reflexivity]);
        [now left | right; now exists e].
    + left. eexists _, _. split; [reflexivity|]. do 3 right. now split.
Qed.

(** Import leaves a live configuration live, whatever the button. *)
Lemma import_config_live filename choice current w status config' w' :
  live_config current ->
  import_config filename choice current w = (Ok (status, config'), w') ->
  live_config config'.
Proof.
  intros Hlive Hrun.
  destruct (import_config_cases filename choice current w)
    as [(st & w1 & Heq & _) | [(e & w1 & Heq)
       | (c & ts & w2 & st & w3 & Hchoice & Hts & _ & _ & Heq)]];
    rewrite Heq in Hrun; try discriminate.
  - now injection Hrun as _ <- _.
  - injection Hrun as _ <- _.
    destruct Hchoice as [[_ ->] | [_ Hext]].
    + eexists _, ts. split; [reflexivity|].
      split; [apply lookup_singleton_eq | exact Hts].
    + destruct Hlive as (m0 & ts0 & -> & Htabs0 & Hts0).
      unfold extend_tabs in Hext. cbn [py_getitem] in Hext.
      rewrite Htabs0 in Hext. unfold_M. injection Hext as <-.
      eexists _, (ts0 ++ ts). split; [reflexivity|].
      split; [apply lookup_insert_eq | now apply Forall_app].
Qed.

End ExportImport.

Lemma export_then_import_replace_witness :
  (export_config (H := Toy.host) "/tmp/tabs_config.json" exported_config
     Fixture.world
   = (Ok (Exported "/tmp/tabs_config.json"),
      Toy.writes <["/tmp/tabs_config.json"
                     := Toy.File (Toy.Document exported_config)]>
        Fixture.world)
   /\ Toy.read_json "/tmp/tabs_config.json"
        (Toy.writes <["/tmp/tabs_config.json"
                        := Toy.File (Toy.Document exported_config)]>
           Fixture.world)
      = (Ok exported_config,
         Toy.writes <["/tmp/tabs_config.json"
                        := Toy.File (Toy.Document exported_config)]>
           Fixture.world))
  /\ exists w3,
       import_config (H := Toy.host) "/tmp/tabs_config.json" Yes JNull
         (Toy.writes <["/tmp/tabs_config.json"
                         := Toy.File (Toy.Document exported_config)]>
            Fixture.world)
       = (Ok (Imported, exported_config), w3).
Proof.
  split; [split; reflexivity|].
  destruct (export_then_import_replace (H := Toy.host)
              "/tmp/tabs_config.json" exported_config JNull Fixture.world
              (Toy.writes <["/tmp/tabs_config.json"
                              := Toy.File (Toy.Document exported_config)]>
                 Fixture.world)
              (Toy.writes <["/tmp/tabs_config.json"
                              := Toy.File (Toy.Document exported_config)]>
                 Fixture.world)
              (json_of_config_live
                 [Fixture.tab OP_MOVE_NEW "/dst"; Fixture.tab OP_COPY_NEW ""]
                 ltac:(repeat apply Forall_cons_2; done))
              eq_refl eq_refl)
    as (m & ts & status & w3 & Hm & Htabs & Himport & _ & Htyped & _).
  exists w3. rewrite Himport.
  rewrite Htyped
    by (unfold exported_config; rewrite config_of_json_of_config; eauto).
  repeat f_equal.
  unfold exported_config, json_of_config in Hm. injection Hm as <-.
  rewrite lookup_singleton_eq in Htabs. now injection Htabs as <-.
Defined.

(** C8 as stated fails on a configuration with a key beside [tabs]: [load]
    returns the document of the file as it is, [export_config] writes it as
    it is, and import with Replace keeps the tab list alone. *)
Lemma replace_import_keeps_tabs_only :
  exists w0 w1 w2,
    load (H := Toy.host) (world_holding versioned_document)
    = (Ok versioned_document, w0)
    /\ export_config (H := Toy.host) "/tmp/tabs_config.json"
         versioned_document w0
       = (Ok (Exported "/tmp/tabs_config.json"), w1)
    /\ Toy.read_json "/tmp/tabs_config.json" w1 = (Ok versioned_document, w1)
    /\ import_config (H := Toy.host) "/tmp/tabs_config.json" Yes
         versioned_document w1
       = (Ok (Imported, JObj {[ "tabs" := JArr [blank_tab "Inbox" "7c9e6679"] ]}),
          w2)
    /\ JObj {[ "tabs" := JArr [blank_tab "Inbox" "7c9e6679"] ]}
       <> versioned_document.
Proof.
  eexists _, _, _.
  repeat (split; [vm_compute; reflexivity|]).
  intros Heq.
  apply (f_equal (fun c => match c with
                           | JObj m => m !! "version"
                           | _ => None
                           end)) in Heq.
  vm_compute in Heq. discriminate.
Qed.

(** ** The history log on the small file system *)

Lemma history_keeps_last_200_witness :
  _get_tab_config_by_id [Fixture.tab OP_COPY_NEW "/dst"] "t1"
  = Some (Fixture.tab OP_COPY_NEW "/dst")
  /\ exists entries cfg' w' tab',
       add_history_entries (H := Toy.host) "t1"
         [("copy_new", "/a.txt", "/dst/a.txt", "success");
          ("copy_new", "/b.txt", "", "failed: Source does not exist: /b.txt")]
         [Fixture.tab OP_COPY_NEW "/dst"] Fixture.world
       = (Ok cfg', w')
       /\ _get_tab_config_by_id cfg' "t1" = Some tab'
       /\ tab_history tab' = last_200 entries
       /\ length (tab_history tab') <= 200.
Proof.
  split; [reflexivity|].
  destruct (history_keeps_last_200 (H := Toy.host) "t1"
              ("copy_new", "/a.txt", "/dst/a.txt", "success")
              [("copy_new", "/b.txt", "", "failed: Source does not exist: /b.txt")]
              [Fixture.tab OP_COPY_NEW "/dst"] Fixture.world
              (Fixture.tab OP_COPY_NEW "/dst") eq_refl)
    as (entries & cfg' & w' & tab' & Hrun & Hget & _ & Hhist & Hlen).
  exists entries, cfg', w', tab'. repeat split; assumption.
Defined.

(** A full history takes one more entry and lets its oldest one go. *)
Example full_history_evicts_oldest :
  let old := Fixture.step "copy_new" "/old" "/dst/old" "success" 0 in
  let kept := Fixture.step "copy_new" "/kept" "/dst/kept" "success" 1 in
  let new := Fixture.step "copy_new" "/new" "/dst/new" "success" 2 in
  append_entry new (old :: replicate 199 kept) = replicate 199 kept ++ [new].
Proof. vm_compute. reflexivity. Qed.

(** * The rest of the window *)

(** ** Looking a tab up *)

Lemma get_unknown cfg id :
  _get_tab_config_by_id cfg id = None <-> unknown_id id cfg.
Proof.
  unfold unknown_id. induction cfg as [|t cfg IH]; cbn.
  - split; [constructor | reflexivity].
  - destruct (String.eqb_spec (tab_id t) id) as [Heq | Hne].
    + split; [discriminate|]. intros Hall. inversion Hall. contradiction.
    + rewrite IH. split.
      * intros Hall. now constructor.
      * intros Hall. now inversion Hall.
Qed.

Lemma get_split cfg id t :
  _get_tab_config_by_id cfg id = Some t <->
  exists before after,
    cfg = before ++ t :: after /\ first_with_id id before t after.
Proof.
  unfold first_with_id, unknown_id. revert t.
  induction cfg as [|t0 cfg IH]; intros t; cbn.
  - split; [discriminate|]. intros (before & after & Heq & _).
    now destruct before.
  - destruct (String.eqb_spec (tab_id t0) id) as [Hid | Hne].
    + split.
      * intros [= <-]. exists [], cfg. repeat split; [exact Hid | constructor].
      * intros (before & after & Heq & Hid' & Hbefore).
        destruct before as [|b before]; cbn in Heq.
        -- now injection Heq as ->.
        -- injection Heq as -> _. inversion Hbefore. contradiction.
    + rewrite IH. split.
      * intros (before & after & -> & Hid & Hbefore).
        exists (t0 :: before), after. repeat split; [exact Hid|].
        now constructor.
      * intros (before & after & Heq & Hid & Hbefore).
        destruct before as [|b before]; cbn in Heq.
        -- injection Heq as -> _. contradiction.
        -- injection Heq as -> ->. exists before, after.
           repeat split; [exact Hid|]. now inversion Hbefore.
Qed.

Lemma update_tab_split f id before tab after :
  first_with_id id before tab after ->
  update_tab f id (before ++ tab :: after) = before ++ f tab :: after.
Proof.
  intros [Hid Hbefore]. induction Hbefore as [|b before Hb _ IH]; cbn.
  - apply String.eqb_eq in Hid. now rewrite Hid.
  - apply String.eqb_neq in Hb. now rewrite Hb, IH.
Qed.

Lemma update_tab_unknown f id cfg :
  unknown_id id cfg -> update_tab f id cfg = cfg.
Proof.
  induction 1 as [|t cfg Ht _ IH]; cbn; [reflexivity|].
  apply String.eqb_neq in Ht. now rewrite Ht, IH.
Qed.

(** X1.  [_get_tab_config_by_id] returns the first tab with the id, whatever
    comes after it, and nothing exactly when no tab has the id. *)
Theorem get_tab_is_first_match (cfg : Config) (id : string) :
  (forall t,
     _get_tab_config_by_id cfg id = Some t <->
     exists before after,
       cfg = before ++ t :: after
       /\ tab_id t = id /\ Forall (fun t' => tab_id t' <> id) before)
  /\ (_get_tab_config_by_id cfg id = None <->
      Forall (fun t' => tab_id t' <> id) cfg).
Proof.
  split; [intros t; apply get_split | apply get_unknown].
Qed.

(** ** What a batch does to the configuration *)

Lemma first_with_id_history id before tab after f :
  first_with_id id before tab after ->
  first_with_id id before (with_history f tab) after.
Proof. intros [Hid Hbefore]. now split. Qed.

Lemma logged_split id e before tab after :
  first_with_id id before tab after ->
  logged id e (before ++ tab :: after)
  = before ++ with_history (append_entry e) tab :: after.
Proof. apply update_tab_split. Qed.

Lemma logged_all_split id entries : forall before tab after,
  first_with_id id before tab after ->
  foldl (fun cfg e => logged id e cfg) (before ++ tab :: after) entries
  = before
    ++ with_history (fun h => foldl (fun h e => append_entry e h) h entries) tab
    :: after.
Proof.
  induction entries as [|e entries IH]; intros before tab after Hfirst; cbn.
  - now destruct tab.
  - rewrite (logged_split id e before tab after Hfirst).
    rewrite IH by now apply first_with_id_history.
    reflexivity.
Qed.

Section BatchCases.
Context `{Host}.

(** The three ways [handle_drop] ends. *)
Lemma handle_drop_cases id src_paths cfg w :
  (_get_tab_config_by_id cfg id = None
   /\ handle_drop id src_paths cfg w = (Ok (TabNotFound, cfg), w))
  \/ (exists tab,
        _get_tab_config_by_id cfg id = Some tab
        /\ (tab_path tab = "" \/ os_path_isdir (tab_path tab) w = false)
        /\ handle_drop id src_paths cfg w
           = (Ok (NoValidDestination (tab_name tab), cfg), w))
  \/ (exists tab entries t cfg' w',
        _get_tab_config_by_id cfg id = Some tab
        /\ tab_path tab <> ""
        /\ os_path_isdir (tab_path tab) w = true
        /\ handle_drop id src_paths cfg w
           = (Ok (BatchDone (tab_operation tab) (tab_path tab) (tab_name tab) t,
                  cfg'), w')
        /\ source <$> entries = src_paths
        /\ Forall (fun e => operation e = tab_operation tab) entries
        /\ Tallied no_tally entries t
        /\ cfg' = foldl (fun cfg e => logged id e cfg) cfg entries).
Proof.
  destruct (_get_tab_config_by_id cfg id) as [tab|] eqn:Hget.
  2: { left. split; [reflexivity|]. unfold handle_drop. now rewrite Hget. }
  right.
  destruct (String.eqb_spec (tab_path tab) "") as [Hpath | Hpath].
  { left. exists tab. repeat split; [now left|].
    unfold handle_drop. rewrite Hget. unfold_M.
    apply String.eqb_eq in Hpath. now rewrite Hpath. }
  destruct (os_path_isdir (tab_path tab) w) eqn:Hdir.
  2: { left. exists tab. repeat split; [now right|].
       unfold handle_drop. rewrite Hget. unfold_M.
       apply String.eqb_neq in Hpath. now rewrite Hpath, Hdir. }
  right.
  destruct (drop_loop_spec id (tab_operation tab) (tab_path tab) src_paths
              no_tally cfg tab w Hget)
    as (es & t & cfg' & w' & Hloop & Hsrcs & Hops & Htal & Hcfg & _).
  exists tab, es, t, cfg', w'. repeat split; try assumption.
  unfold handle_drop. rewrite Hget.
  apply String.eqb_neq in Hpath. rewrite Hpath.
  erewrite bind_ok
    by (erewrite bind_ok by (unfold reads; rewrite Hdir; reflexivity);
        reflexivity).
  cbn [negb]. erewrite bind_ok by exact Hloop. reflexivity.
Qed.

(** X2.  Whatever the batch and whatever the destination, [handle_drop]
    returns normally and changes nothing of the configuration but the
    history of the first tab with the id: the tabs before and after it, and
    its own id, name, path and operation, are as they were. *)
Theorem handle_drop_touches_one_history id (src_paths : list string)
    (before : list Tab) (tab : Tab) (after : list Tab) (w : W) :
  tab_id tab = id ->
  Forall (fun t => tab_id t <> id) before ->
  exists status entries w',
    handle_drop id src_paths (before ++ tab :: after) w
    = (Ok (status,
           before
           ++ with_history
                (fun h => foldl (fun h e => append_entry e h) h entries) tab
           :: after), w').
Proof.
  intros Hid Hbefore.
  assert (Hfirst : first_with_id id before tab after) by now split.
  destruct (handle_drop_cases id src_paths (before ++ tab :: after) w)
    as [[Hnone _] | [(tab' & _ & _ & Hrun)
                    | (tab' & es & t & cfg' & w' & _ & _ & _ & Hrun & _ & _ & _ & ->)]].
  - apply get_unknown in Hnone. apply Forall_app in Hnone as [_ Hnone].
    inversion Hnone. contradiction.
  - eexists _, [], w. rewrite Hrun. cbn. now destruct tab.
  - eexists _, es, w'. rewrite Hrun.
    now rewrite (logged_all_split id es before tab after Hfirst).
Qed.

(** X3.  An empty batch on a tab with a valid destination ends with the
    closing status and all counters at zero; nothing is logged, nothing is
    saved, the world is as it was. *)
Theorem empty_batch_changes_nothing id (cfg : Config) (w : W) (tab : Tab) :
  _get_tab_config_by_id cfg id = Some tab ->
  tab_path tab <> "" ->
  os_path_isdir (tab_path tab) w = true ->
  handle_drop id [] cfg w
  = (Ok (BatchDone (tab_operation tab) (tab_path tab) (tab_name tab) no_tally,
         cfg), w)
  /\ is_error (BatchDone (tab_operation tab) (tab_path tab) (tab_name tab)
                 no_tally) = false.
Proof.
  intros Hget Hpath Hdir. split; [|reflexivity].
  unfold handle_drop. rewrite Hget.
  apply String.eqb_neq in Hpath. rewrite Hpath. unfold_M. now rewrite Hdir.
Qed.

Lemma count_zero_Forall f es :
  count f es = 0 <-> Forall (fun e => f e = false) es.
Proof.
  induction es as [|e es IH].
  - split; [constructor | reflexivity].
  - rewrite count_cons. unfold count at 1. cbn [List.filter].
    destruct (f e) eqn:Hf; cbn [length].
    + split; [discriminate|]. intros Hall. inversion Hall. congruence.
    + cbn. rewrite IH. split.
      * intros Hall. now constructor.
      * intros Hall. now inversion Hall.
Qed.

(** X4.  The closing status of a batch is an error (and the warning box
    with the failure messages is shown) exactly when the entry of some item
    says failed: skipped items do not make a batch an error. *)
Theorem batch_is_error_iff_an_item_failed id (src_paths : list string)
    (cfg : Config) (w : W) (tab : Tab) :
  _get_tab_config_by_id cfg id = Some tab ->
  tab_path tab <> "" ->
  os_path_isdir (tab_path tab) w = true ->
  exists entries t cfg' w',
    handle_drop id src_paths cfg w
    = (Ok (BatchDone (tab_operation tab) (tab_path tab) (tab_name tab) t, cfg'),
       w')
    /\ source <$> entries = src_paths
    /\ cfg' = foldl (fun cfg e => logged id e cfg) cfg entries
    /\ (is_error (BatchDone (tab_operation tab) (tab_path tab) (tab_name tab) t)
        = false
        <-> Forall (fun e => is_failed e = false) entries).
Proof.
  intros Hget Hpath Hdir.
  destruct (handle_drop_cases id src_paths cfg w)
    as [[Hnone _] | [(tab' & Hget' & Hbad & _)
                    | (tab' & es & t & cfg' & w' & Hget' & _ & _ & Hrun & Hsrcs
                       & _ & Htal & Hcfg)]].
  - congruence.
  - rewrite Hget in Hget'. injection Hget' as <-.
    destruct Hbad; congruence.
  - rewrite Hget in Hget'. injection Hget' as <-.
    exists es, t, cfg', w'. repeat split; try assumption.
    + cbn [is_error]. intros Herr. apply negb_false_iff, Nat.eqb_eq in Herr.
      apply tallied_counts in Htal as (_ & Hf & _). cbn in Hf.
      apply count_zero_Forall. lia.
    + intros Hall. apply count_zero_Forall in Hall.
      apply tallied_counts in Htal as (_ & Hf & _). cbn in Hf.
      cbn [is_error]. apply negb_false_iff, Nat.eqb_eq. lia.
Qed.

Lemma last_200_covers (h l : list HistoryEntry) :
  200 <= length l -> last_200 (h ++ l) = last_200 l.
Proof.
  intros Hl. unfold last_200. rewrite length_app.
  replace (length h + length l - 200) with (length h + (length l - 200))
    by lia.
  rewrite <- drop_drop. now rewrite drop_app_length.
Qed.

(** X5.  After a batch of at least one path on a tab with a valid
    destination, the history of the tab holds at most 200 entries: the last
    200 of what it held followed by one entry per path; a batch of 200
    paths or more leaves nothing of what it held. *)
Theorem batch_keeps_history_bounded id (src : string) (rest : list string)
    (cfg : Config) (w : W) (tab : Tab) :
  _get_tab_config_by_id cfg id = Some tab ->
  tab_path tab <> "" ->
  os_path_isdir (tab_path tab) w = true ->
  exists entries status cfg' w' tab',
    handle_drop id (src :: rest) cfg w = (Ok (status, cfg'), w')
    /\ _get_tab_config_by_id cfg' id = Some tab'
    /\ source <$> entries = src :: rest
    /\ tab_history tab' = last_200 (tab_history tab ++ entries)
    /\ length (tab_history tab') <= 200
    /\ (200 <= length (src :: rest) -> tab_history tab' = last_200 entries).
Proof.
  intros Hget Hpath Hdir.
  destruct (handle_drop_cases id (src :: rest) cfg w)
    as [[Hnone _] | [(tab' & Hget' & Hbad & _)
                    | (tab' & es & t & cfg' & w' & Hget' & _ & _ & Hrun & Hsrcs
                       & _ & _ & Hcfg)]].
  - congruence.
  - rewrite Hget in Hget'. injection Hget' as <-. destruct Hbad; congruence.
  - destruct (proj1 (get_split cfg id tab) Hget)
      as (before & after & -> & Hfirst).
    rewrite (logged_all_split id es before tab after Hfirst) in Hcfg.
    destruct es as [|e es]; [discriminate|].
    eexists (e :: es), _, cfg', w', _. split; [exact Hrun|].
    split.
    { rewrite Hcfg. apply get_split. exists before, after.
      split; [reflexivity|]. now apply first_with_id_history. }
    split; [exact Hsrcs|].
    unfold with_history; cbn [tab_history]. rewrite appends_last_200.
    split; [reflexivity|]. split; [apply last_200_length|].
    intros Hlong. apply last_200_covers.
    rewrite <- Hsrcs, length_fmap in Hlong. exact Hlong.
Qed.

End BatchCases.

Lemma handle_drop_touches_one_history_witness :
  Forall (fun t => tab_id t <> "t1") ([] : list Tab)
  /\ exists status entries w',
       handle_drop (H := Toy.host) "t1" ["/a.txt"; "/b.txt"]
         ([] ++ Fixture.tab OP_MOVE_NEW "/dst"
             :: [Fixture.tab OP_COPY_NEW "/elsewhere"]) Fixture.world
       = (Ok (status,
              [] ++ with_history
                      (fun h => foldl (fun h e => append_entry e h) h entries)
                      (Fixture.tab OP_MOVE_NEW "/dst")
                 :: [Fixture.tab OP_COPY_NEW "/elsewhere"]), w').
Proof.
  split; [constructor|].
  apply (handle_drop_touches_one_history (H := Toy.host) "t1"
           ["/a.txt"; "/b.txt"] [] (Fixture.tab OP_MOVE_NEW "/dst")
           [Fixture.tab OP_COPY_NEW "/elsewhere"] Fixture.world eq_refl).
  constructor.
Defined.

Lemma empty_batch_changes_nothing_witness :
  Toy.isdir "/dst" Fixture.world = true
  /\ handle_drop (H := Toy.host) "t1" []
       [Fixture.tab OP_MOVE_REPLACE "/dst"] Fixture.world
     = (Ok (BatchDone OP_MOVE_REPLACE "/dst" "L1" no_tally,
            [Fixture.tab OP_MOVE_REPLACE "/dst"]), Fixture.world).
Proof.
  split; [reflexivity|].
  apply (empty_batch_changes_nothing (H := Toy.host) "t1"
           [Fixture.tab OP_MOVE_REPLACE "/dst"] Fixture.world
           (Fixture.tab OP_MOVE_REPLACE "/dst") eq_refl
           ltac:(discriminate) eq_refl).
Defined.

Lemma batch_is_error_iff_an_item_failed_witness :
  Toy.isdir "/dst" Fixture.world = true
  /\ exists entries t cfg' w',
       handle_drop (H := Toy.host) "t1" ["/old.txt"; "/b.txt"]
         [Fixture.tab OP_COPY_NEW "/dst"] Fixture.world
       = (Ok (BatchDone OP_COPY_NEW "/dst" "L1" t, cfg'), w')
       /\ source <$> entries = ["/old.txt"; "/b.txt"].
Proof.
  split; [reflexivity|].
  destruct (batch_is_error_iff_an_item_failed (H := Toy.host) "t1"
              ["/old.txt"; "/b.txt"] [Fixture.tab OP_COPY_NEW "/dst"]
              Fixture.world (Fixture.tab OP_COPY_NEW "/dst") eq_refl
              ltac:(discriminate) eq_refl)
    as (entries & t & cfg' & w' & Hrun & Hsrcs & _).
  exists entries, t, cfg', w'. split; [exact Hrun | exact Hsrcs].
Defined.

Lemma batch_keeps_history_bounded_witness :
  Toy.isdir "/dst" Fixture.world = true
  /\ exists entries status cfg' w' tab',
       handle_drop (H := Toy.host) "t1" ["/a.txt"; "/c.txt"]
         [Fixture.tab OP_COPY_REPLACE "/dst"] Fixture.world
       = (Ok (status, cfg'), w')
       /\ _get_tab_config_by_id cfg' "t1" = Some tab'
       /\ source <$> entries = ["/a.txt"; "/c.txt"]
       /\ length (tab_history tab') <= 200.
Proof.
  split; [reflexivity|].
  destruct (batch_keeps_history_bounded (H := Toy.host) "t1" "/a.txt"
              ["/c.txt"] [Fixture.tab OP_COPY_REPLACE "/dst"]
              Fixture.world (Fixture.tab OP_COPY_REPLACE "/dst") eq_refl
              ltac:(discriminate) eq_refl)
    as (entries & status & cfg' & w' & tab' & Hrun & Hget & Hsrcs & _ & Hlen & _).
  exists entries, status, cfg', w', tab'. repeat split; assumption.
Defined.

(** ** One batch after another *)

Lemma add_tally_none (t : Tally) : add_tally t no_tally = t.
Proof.
  destruct t as [s f m]. unfold add_tally, no_tally. cbn.
  rewrite app_nil_r. f_equal; lia.
Qed.

Lemma none_add_tally (t : Tally) : add_tally no_tally t = t.
Proof. now destruct t. Qed.

Lemma add_tally_assoc (a b c : Tally) :
  add_tally a (add_tally b c) = add_tally (add_tally a b) c.
Proof.
  unfold add_tally. cbn. rewrite app_assoc. f_equal; lia.
Qed.

Lemma failed_add_tally msg (t : Tally) :
  failed msg t = add_tally t (failed msg no_tally).
Proof. destruct t as [s f m]. unfold failed, add_tally. cbn. f_equal; lia. Qed.

Lemma succeeded_add_tally (t : Tally) :
  succeeded t = add_tally t (succeeded no_tally).
Proof.
  destruct t as [s f m]. unfold succeeded, add_tally. cbn.
  rewrite app_nil_r. f_equal; lia.
Qed.

Lemma replaces_not_new_only mode : replaces mode = true -> new_only mode = false.
Proof.
  unfold replaces, new_only. intros Hrep.
  apply orb_prop in Hrep as [Heq | Heq]; apply String.eqb_eq in Heq;
    now subst mode.
Qed.

Section Composition.
Context `{Host}.

(** With a valid destination [handle_drop] is the loop and the closing
    status. *)
Lemma handle_drop_valid id src_paths cfg w tab :
  _get_tab_config_by_id cfg id = Some tab ->
  tab_path tab <> "" ->
  os_path_isdir (tab_path tab) w = true ->
  handle_drop id src_paths cfg w
  = ('(t, cfg) ← drop_loop id (tab_operation tab) (tab_path tab) src_paths
                   (no_tally, cfg);
     mret (BatchDone (tab_operation tab) (tab_path tab) (tab_name tab) t, cfg))
      w.
Proof.
  intros Hget Hpath Hdir. unfold handle_drop. rewrite Hget.
  apply String.eqb_neq in Hpath. rewrite Hpath.
  erewrite bind_ok
    by (erewrite bind_ok by (unfold reads; rewrite Hdir; reflexivity);
        reflexivity).
  reflexivity.
Qed.

Lemma handle_drop_one id src cfg w tab t cfg' w' :
  _get_tab_config_by_id cfg id = Some tab ->
  tab_path tab <> "" ->
  os_path_isdir (tab_path tab) w = true ->
  drop_item id (tab_operation tab) (tab_path tab) src (no_tally, cfg) w
  = (Ok (t, cfg'), w') ->
  handle_drop id [src] cfg w
  = (Ok (BatchDone (tab_operation tab) (tab_path tab) (tab_name tab) t, cfg'),
     w').
Proof.
  intros Hget Hpath Hdir Hitem.
  rewrite (handle_drop_valid id [src] cfg w tab Hget Hpath Hdir).
  cbn [drop_loop].
  erewrite bind_ok by (erewrite bind_ok by exact Hitem; reflexivity).
  reflexivity.
Qed.

(** What an item adds to the counters does not depend on the counters. *)
Lemma drop_item_uniform id mode dest_root src cfg tab w :
  _get_tab_config_by_id cfg id = Some tab ->
  exists e dt w',
    forall t,
      drop_item id mode dest_root src (t, cfg) w
      = (Ok (add_tally t dt, logged id e cfg), w').
Proof.
  intros Hget.
  destruct (os_path_exists src w) eqn:Hsrc.
  2: { eexists _, (failed (source_missing src) no_tally), _. intros t.
       rewrite <- failed_add_tally.
       eapply drop_item_missing; eassumption. }
  destruct (new_only mode && os_path_exists (target_of dest_root src) w) eqn:Hskip.
  { apply andb_prop in Hskip as [Hnew Htgt].
    eexists _, no_tally, _. intros t. rewrite add_tally_none.
    eapply drop_item_skipped; eassumption. }
  assert (Htr : transferred mode dest_root src w) by (split; assumption).
  destruct (copy_step mode src (target_of dest_root src)
              (os_path_exists (target_of dest_root src) w) w)
    as [[[]|e] w1] eqn:Hcopy.
  2: { eexists _, (failed (failure_message mode src e) no_tally), _. intros t.
       rewrite <- failed_add_tally.
       eapply drop_item_copy_failed; eassumption. }
  destruct (delete_step mode src w1) as [[[]|e] w2] eqn:Hdel.
  - eexists _, (succeeded no_tally), _. intros t.
    rewrite <- succeeded_add_tally.
    eapply drop_item_success; eassumption.
  - eexists _, (failed (failure_message mode src e) no_tally), _. intros t.
    rewrite <- failed_add_tally.
    eapply drop_item_delete_failed; eassumption.
Qed.

Lemma drop_loop_uniform id mode dest_root src_paths : forall cfg tab w,
  _get_tab_config_by_id cfg id = Some tab ->
  exists dt cfg' w' f,
    _get_tab_config_by_id cfg' id = Some (with_history f tab)
    /\ forall t,
         drop_loop id mode dest_root src_paths (t, cfg) w
         = (Ok (add_tally t dt, cfg'), w').
Proof.
  induction src_paths as [|src rest IH]; intros cfg tab w Hget.
  - exists no_tally, cfg, w, (fun h => h). split.
    + rewrite Hget. now destruct tab.
    + intros t. now rewrite add_tally_none.
  - destruct (drop_item_uniform id mode dest_root src cfg tab w Hget)
      as (e & dt1 & w1 & Hitem).
    destruct (IH _ _ w1 (get_logged id e cfg tab Hget))
      as (dt2 & cfg' & w' & f & Hfinal & Hrest).
    exists (add_tally dt1 dt2), cfg', w', (fun h => f (append_entry e h)).
    split; [exact Hfinal|].
    intros t. cbn [drop_loop]. erewrite bind_ok by apply Hitem.
    rewrite Hrest. now rewrite add_tally_assoc.
Qed.

Lemma drop_loop_app id mode dest_root l1 l2 : forall st w,
  drop_loop id mode dest_root (l1 ++ l2) st w
  = (st1 ← drop_loop id mode dest_root l1 st;
     drop_loop id mode dest_root l2 st1) w.
Proof.
  induction l1 as [|src l1 IH]; intros st w.
  - reflexivity.
  - cbn [app drop_loop]. unfold_M.
    destruct (drop_item id mode dest_root src st w) as [[st'|e] w'];
      [apply IH | reflexivity].
Qed.

(** X6.  The destination is checked once, when the batch starts.  A batch
    of the paths [l1] followed by the paths [l2] does what the batch [l1]
    does and then, if the destination is still a directory, what the batch
    [l2] does from there: same entries, same files, and the counters and
    failure messages of the two added up. *)
Theorem batches_compose id (l1 l2 : list string) (cfg : Config) (w : W)
    (tab : Tab) :
  _get_tab_config_by_id cfg id = Some tab ->
  tab_path tab <> "" ->
  os_path_isdir (tab_path tab) w = true ->
  exists t1 cfg1 w1,
    handle_drop id l1 cfg w
    = (Ok (BatchDone (tab_operation tab) (tab_path tab) (tab_name tab) t1,
           cfg1), w1)
    /\ (os_path_isdir (tab_path tab) w1 = true ->
        exists t2 cfg2 w2,
          handle_drop id l2 cfg1 w1
          = (Ok (BatchDone (tab_operation tab) (tab_path tab) (tab_name tab) t2,
                 cfg2), w2)
          /\ handle_drop id (l1 ++ l2) cfg w
             = (Ok (BatchDone (tab_operation tab) (tab_path tab) (tab_name tab)
                      (add_tally t1 t2), cfg2), w2)).
Proof.
  intros Hget Hpath Hdir.
  destruct (drop_loop_uniform id (tab_operation tab) (tab_path tab) l1
              cfg tab w Hget) as (t1 & cfg1 & w1 & f & Hget1 & Hl1).
  exists t1, cfg1, w1. split.
  { rewrite (handle_drop_valid id l1 cfg w tab Hget Hpath Hdir).
    erewrite bind_ok by apply Hl1. now rewrite none_add_tally. }
  intros Hdir1.
  destruct (drop_loop_uniform id (tab_operation tab) (tab_path tab) l2
              cfg1 _ w1 Hget1) as (t2 & cfg2 & w2 & g & _ & Hl2).
  exists t2, cfg2, w2. split.
  { rewrite (handle_drop_valid id l2 cfg1 w1 _ Hget1 Hpath Hdir1).
    erewrite bind_ok by apply Hl2. now rewrite none_add_tally. }
  rewrite (handle_drop_valid id (l1 ++ l2) cfg w tab Hget Hpath Hdir).
  erewrite bind_ok
    by (rewrite drop_loop_app; erewrite bind_ok by apply Hl1; apply Hl2).
  now rewrite !none_add_tally.
Qed.

(** ** What becomes of one item *)

(** X7.  A path that does not exist is counted as a failure with the
    message that the source does not exist; its entry has an empty
    destination; no file is touched but the configuration file, which is
    written with the entry in it. *)
Theorem missing_source_is_a_failure id (src : string) (cfg : Config) (w : W)
    (tab : Tab) :
  _get_tab_config_by_id cfg id = Some tab ->
  tab_path tab <> "" ->
  os_path_isdir (tab_path tab) w = true ->
  os_path_exists src w = false ->
  handle_drop id [src] cfg w
  = (Ok (BatchDone (tab_operation tab) (tab_path tab) (tab_name tab)
           {| successes := 0; failures := 1;
              failure_messages := ["Source does not exist: " +:+ src] |},
         logged id
           (entry_at w (tab_operation tab) src ""
              ("failed: Source does not exist: " +:+ src)) cfg),
     (open_write_json CONFIG_FILENAME
        (json_of_config
           (logged id
              (entry_at w (tab_operation tab) src ""
                 ("failed: Source does not exist: " +:+ src)) cfg)) w).2).
Proof.
  intros Hget Hpath Hdir Hsrc.
  rewrite <- saved_is_write.
  apply (handle_drop_one id src cfg w tab _ _ _ Hget Hpath Hdir).
  now apply (drop_item_missing id (tab_operation tab) (tab_path tab) src
               no_tally cfg tab Hget w).
Qed.

(** X8.  In a copy mode a file that is not skipped is handed to [copy2] and
    to nothing else: an existing target is not removed first and the source
    is not removed afterwards.  The item is a success when [copy2] returns
    and a failure with its exception when it raises; the world is the one
    [copy2] left, with the configuration file written. *)
Theorem file_copy_is_one_copy2 id (src : string) (cfg : Config) (w : W)
    (tab : Tab) (r : result unit) (w1 : W) :
  _get_tab_config_by_id cfg id = Some tab ->
  tab_path tab <> "" ->
  os_path_isdir (tab_path tab) w = true ->
  moves (tab_operation tab) = false ->
  transferred (tab_operation tab) (tab_path tab) src w ->
  os_path_isdir src w = false ->
  shutil_copy2 src (target_of (tab_path tab) src) w = (r, w1) ->
  exists t res,
    handle_drop id [src] cfg w
    = (Ok (BatchDone (tab_operation tab) (tab_path tab) (tab_name tab) t,
           logged id
             (entry_at w1 (tab_operation tab) src
                (target_of (tab_path tab) src) res) cfg),
       saved
         (logged id
            (entry_at w1 (tab_operation tab) src
               (target_of (tab_path tab) src) res) cfg) w1)
    /\ match r with
       | Ok _ => res = "success" /\ t = succeeded no_tally
       | Raise e =>
           res = "failed: " +:+ e
           /\ t = failed (failure_message (tab_operation tab) src e) no_tally
       end.
Proof.
  intros Hget Hpath Hdir Hcopy Htr Hfile Hcopy2.
  assert (Hstep : copy_step (tab_operation tab) src
                    (target_of (tab_path tab) src)
                    (os_path_exists (target_of (tab_path tab) src) w) w
                  = (r, w1)).
  { unfold copy_step. unfold_M. now rewrite Hfile. }
  destruct r as [[]|e].
  - exists (succeeded no_tally), "success". split; [|now split].
    apply (handle_drop_one id src cfg w tab _ _ _ Hget Hpath Hdir).
    eapply drop_item_success; [exact Hget | exact Htr | exact Hstep |].
    unfold delete_step. now rewrite Hcopy.
  - exists (failed (failure_message (tab_operation tab) src e) no_tally),
      ("failed: " +:+ e). split; [|now split].
    apply (handle_drop_one id src cfg w tab _ _ _ Hget Hpath Hdir).
    eapply drop_item_copy_failed; [exact Hget | exact Htr | exact Hstep].
Qed.

(** X9.  A folder dropped in a replace mode on a target that exists: the
    target is removed before the copy starts and is not put back.  When the
    copy then raises, the item is a failure with that exception, the source
    is not deleted even in the move mode, and the world is the one the
    failed copy left after the removal, with the configuration file
    written.  When the removal itself raises, the copy is not tried. *)
Theorem folder_replace_removes_target_first id (src : string) (cfg : Config)
    (w : W) (tab : Tab) :
  _get_tab_config_by_id cfg id = Some tab ->
  tab_path tab <> "" ->
  os_path_isdir (tab_path tab) w = true ->
  replaces (tab_operation tab) = true ->
  os_path_exists src w = true ->
  os_path_isdir src w = true ->
  os_path_exists (target_of (tab_path tab) src) w = true ->
  forall e w1 w2,
    (shutil_rmtree (target_of (tab_path tab) src) w = (Ok (), w1)
     /\ shutil_copytree src (target_of (tab_path tab) src) w1 = (Raise e, w2))
    \/ (shutil_rmtree (target_of (tab_path tab) src) w = (Raise e, w1)
        /\ w2 = w1) ->
    handle_drop id [src] cfg w
    = (Ok (BatchDone (tab_operation tab) (tab_path tab) (tab_name tab)
             (failed (failure_message (tab_operation tab) src e) no_tally),
           logged id
             (entry_at w2 (tab_operation tab) src
                (target_of (tab_path tab) src) ("failed: " +:+ e)) cfg),
       saved
         (logged id
            (entry_at w2 (tab_operation tab) src
               (target_of (tab_path tab) src) ("failed: " +:+ e)) cfg) w2).
Proof.
  intros Hget Hpath Hdir Hrep Hsrc Hfolder Htgt e w1 w2 Hcopy.
  assert (Htr : transferred (tab_operation tab) (tab_path tab) src w).
  { split; [exact Hsrc|]. now rewrite (replaces_not_new_only _ Hrep). }
  apply (handle_drop_one id src cfg w tab _ _ _ Hget Hpath Hdir).
  eapply drop_item_copy_failed; [exact Hget | exact Htr |].
  unfold copy_step. unfold_M. rewrite Hfolder, Htgt, Hrep. cbn [andb].
  destruct Hcopy as [[Hrm Hcopy] | [Hrm ->]]; rewrite Hrm.
  - now rewrite Hcopy.
  - reflexivity.
Qed.

End Composition.

Lemma batches_compose_witness :
  Toy.isdir "/dst" Fixture.world = true
  /\ exists t1 cfg1 w1,
       handle_drop (H := Toy.host) "t1" ["/a.txt"]
         [Fixture.tab OP_COPY_REPLACE "/dst"] Fixture.world
       = (Ok (BatchDone OP_COPY_REPLACE "/dst" "L1" t1, cfg1), w1).
Proof.
  split; [reflexivity|].
  destruct (batches_compose (H := Toy.host) "t1" ["/a.txt"] ["/c.txt"]
              [Fixture.tab OP_COPY_REPLACE "/dst"] Fixture.world
              (Fixture.tab OP_COPY_REPLACE "/dst") eq_refl
              ltac:(discriminate) eq_refl)
    as (t1 & cfg1 & w1 & Hrun & _).
  exists t1, cfg1, w1. exact Hrun.
Defined.

Lemma missing_source_is_a_failure_witness :
  Toy.exists_ "/b.txt" Fixture.world = false
  /\ exists cfg' w',
       handle_drop (H := Toy.host) "t1" ["/b.txt"]
         [Fixture.tab OP_MOVE_NEW "/dst"] Fixture.world
       = (Ok (BatchDone OP_MOVE_NEW "/dst" "L1"
                {| successes := 0; failures := 1;
                   failure_messages := ["Source does not exist: /b.txt"] |},
              cfg'), w').
Proof.
  split; [reflexivity|].
  eexists _, _.
  apply (missing_source_is_a_failure (H := Toy.host) "t1" "/b.txt"
           [Fixture.tab OP_MOVE_NEW "/dst"] Fixture.world
           (Fixture.tab OP_MOVE_NEW "/dst") eq_refl
           ltac:(discriminate) eq_refl eq_refl).
Defined.

Lemma file_copy_is_one_copy2_witness :
  Toy.copy2 "/old.txt" "/dst/old.txt" Fixture.world
  = (Ok (), (Toy.copy2 "/old.txt" "/dst/old.txt" Fixture.world).2)
  /\ exists t res cfg' w',
       handle_drop (H := Toy.host) "t1" ["/old.txt"]
         [Fixture.tab OP_COPY_REPLACE "/dst"] Fixture.world
       = (Ok (BatchDone OP_COPY_REPLACE "/dst" "L1" t, cfg'), w')
       /\ res = "success" /\ t = succeeded no_tally.
Proof.
  split; [reflexivity|].
  destruct (file_copy_is_one_copy2 (H := Toy.host) "t1" "/old.txt"
              [Fixture.tab OP_COPY_REPLACE "/dst"] Fixture.world
              (Fixture.tab OP_COPY_REPLACE "/dst") (Ok ())
              (Toy.copy2 "/old.txt" "/dst/old.txt" Fixture.world).2
              eq_refl ltac:(discriminate) eq_refl eq_refl
              (conj eq_refl eq_refl) eq_refl eq_refl)
    as (t & res & Hrun & Hres).
  exists t, res. eexists _, _. split; [exact Hrun | exact Hres].
Defined.

Lemma folder_replace_removes_target_first_witness :
  Toy.exists_ "/dst/photos/stale.jpg" Fixture.world_folders = true
  /\ exists status cfg' w',
       handle_drop (H := Toy.host) "t1" ["/dst/photos"]
         [Fixture.tab OP_COPY_REPLACE "/dst"] Fixture.world_folders
       = (Ok (status, cfg'), w')
       /\ is_error status = true
       /\ Toy.exists_ "/dst/photos/stale.jpg" w' = false
       /\ Toy.exists_ "/dst/photos" w' = false.
Proof.
  split; [reflexivity|].
  eexists _, _, _. split.
  - apply (folder_replace_removes_target_first (H := Toy.host) "t1"
             "/dst/photos" [Fixture.tab OP_COPY_REPLACE "/dst"]
             Fixture.world_folders (Fixture.tab OP_COPY_REPLACE "/dst")
             eq_refl ltac:(discriminate) eq_refl eq_refl eq_refl eq_refl
             eq_refl
             "[Errno 2] No such file or directory: '/dst/photos'"
             (Toy.rmtree "/dst/photos" Fixture.world_folders).2
             (Toy.rmtree "/dst/photos" Fixture.world_folders).2).
    left. split; reflexivity.
  - repeat split; reflexivity.
Defined.

(** ** Loading and importing *)

Lemma setdefault_lookup k v (m : gmap string json) :
  setdefault k v m !! k = Some (default v (m !! k)).
Proof.
  unfold setdefault. destruct (m !! k) eqn:E.
  - now rewrite E.
  - now rewrite lookup_insert_eq.
Qed.

Section LoadingAndImporting.
Context `{Host}.

(** X10.  A configuration of the window whose operations are enumerated,
    once saved, is loaded back as it was: when the configuration file holds
    the document [save] writes for it, [load] returns that document, and
    the document determines the tabs, their order, their fields and their
    histories. *)
Theorem saved_config_loads_back (cfg : Config) (w w1 : W) :
  enumerated cfg ->
  os_path_exists CONFIG_FILENAME w = true ->
  open_read_json CONFIG_FILENAME w = (Ok (json_of_config cfg), w1) ->
  exists doc w',
    load w = (Ok doc, w') /\ config_of_json doc = Some cfg.
Proof.
  intros Hcfg Hex Hread.
  destruct (json_of_config_live cfg Hcfg) as (m & ts & Hdoc & Htabs & Hts).
  rewrite Hdoc in Hread.
  destruct (complete_document_is_left_alone w m ts w1 Hex Hread Htabs Hts)
    as [w' Hload].
  exists (JObj m), w'. split; [exact Hload|].
  rewrite <- Hdoc. apply config_of_json_of_config.
Qed.

(** X11.  What the loop body of [load] returns for a tab object: each of
    [id], [name], [path] and [history] keeps its value when it is there, and
    is the fresh id, "Unnamed", the empty string and the empty list when it
    is not; [operation] is the normalized operation; no other key is added
    or changed.  A uuid is drawn even when the tab has an id. *)
Theorem load_tab_fills_the_gaps (m m' : gmap string json) (w w' : W) :
  load_tab (JObj m) w = (Ok (JObj m'), w') ->
  w' = (uuid4 w).2
  /\ m' !! "id" = Some (default (JStr (uuid4 w).1) (m !! "id"))
  /\ m' !! "name" = Some (default (JStr "Unnamed") (m !! "name"))
  /\ m' !! "path" = Some (default (JStr "") (m !! "path"))
  /\ m' !! "history" = Some (default (JArr []) (m !! "history"))
  /\ m' !! "operation" = Some (JStr (normalized_operation (m !! "operation")))
  /\ forall k,
       k <> "id" -> k <> "name" -> k <> "path" -> k <> "history" ->
       k <> "operation" ->
       m' !! k = m !! k.
Proof.
  intros Hrun.
  destruct (load_tab_inv _ _ _ _ Hrun) as (m0 & [= <-] & Hh).
  rewrite load_tab_eq in Hrun by exact Hh. injection Hrun as <- <-.
  split; [reflexivity|]. unfold fill_defaults.
  repeat split.
  - rewrite setdefault_lookup_ne, lookup_insert_ne,
      !setdefault_lookup_ne by discriminate.
    apply setdefault_lookup.
  - rewrite setdefault_lookup_ne, lookup_insert_ne,
      setdefault_lookup_ne by discriminate.
    rewrite setdefault_lookup. now rewrite setdefault_lookup_ne by discriminate.
  - rewrite setdefault_lookup_ne, lookup_insert_ne by discriminate.
    rewrite setdefault_lookup. now rewrite !setdefault_lookup_ne by discriminate.
  - rewrite setdefault_lookup. rewrite lookup_insert_ne by discriminate.
    now rewrite !setdefault_lookup_ne by discriminate.
  - rewrite setdefault_lookup_ne by discriminate. apply lookup_insert_eq.
  - intros k Hid Hname Hpath Hhist Hop.
    rewrite setdefault_lookup_ne, lookup_insert_ne by congruence.
    now rewrite !setdefault_lookup_ne by congruence.
Qed.

(** X12.  Normalizing is idempotent: a tab the loop body of [load] or of
    [import_config] has returned goes through either loop body again
    unchanged. *)
Theorem normalization_is_idempotent (t t' : json) (w w' : W) :
  load_tab t w = (Ok t', w') \/ import_tab t w = (Ok t', w') ->
  forall w2,
    load_tab t' w2 = (Ok t', (uuid4 w2).2)
    /\ import_tab t' w2 = (Ok t', (uuid4 w2).2).
Proof.
  intros Hrun w2.
  assert (Hload : load_tab t w = (Ok t', w'))
    by (destruct Hrun as [Hrun | Hrun]; exact Hrun).
  apply load_tab_normalized in Hload.
  change (import_tab t' w2) with (load_tab t' w2).
  split; now apply load_tab_complete.
Qed.

Lemma load_tab_raises t w :
  not_normalizable t -> exists e w', load_tab t w = (Raise e, w').
Proof.
  destruct t; try (intros _; eexists _, _; reflexivity).
  intros (v & Hv & Hhash).
  unfold load_tab. erewrite bind_ok by reflexivity.
  rewrite !setdefault_lookup_ne by discriminate. rewrite Hv.
  destruct v; try discriminate; eexists _, _; reflexivity.
Qed.

Lemma for_each_raises {A B} (f : A -> M B) (P : A -> Prop) :
  (forall x w, P x -> exists e w', f x w = (Raise e, w')) ->
  forall l w, Exists P l -> exists e w', for_each f l w = (Raise e, w').
Proof.
  intros Hf. induction l as [|x l IH]; intros w Hl.
  - inversion Hl.
  - cbn [for_each]. unfold_M.
    destruct (f x w) as [[y|e] w1] eqn:Hx; [|now eexists _, _].
    inversion Hl as [? ? Hbad | ? ? Hbad]; subst.
    + destruct (Hf x w Hbad) as (e & w' & Hraise). congruence.
    + destruct (IH w1 Hbad) as (e & w' & Hraise).
      unfold_M. rewrite Hraise. now eexists _, _.
Qed.

(** X13.  [load] is all or nothing.  When one tab of the file is not an
    object, or has a list or a dict as its operation, none of the tabs of
    the file is loaded: [load] returns the default configuration. *)
Theorem load_is_all_or_nothing (w : W) (m : gmap string json)
    (ts : list json) (w1 : W) :
  os_path_exists CONFIG_FILENAME w = true ->
  open_read_json CONFIG_FILENAME w = (Ok (JObj m), w1) ->
  m !! "tabs" = Some (JArr ts) ->
  Exists not_normalizable ts ->
  exists config w', load w = (Ok config, w') /\ is_default_config config.
Proof.
  intros Hex Hread Htabs Hbad.
  destruct (for_each_raises load_tab not_normalizable
              (fun x w0 => load_tab_raises x w0) ts w1 Hbad)
    as (e & w2 & Hloop).
  destruct (generate_default_config_ok w2) as (c & w' & Hrun & Hc).
  exists c, w'. split; [|exact Hc].
  unfold load. erewrite bind_ok by reflexivity. rewrite Hex. cbn [negb].
  rewrite (try_raise _ _ w e w2); [exact Hrun|].
  rewrite (load_try_tabs w m ts w1 Hread Htabs).
  now erewrite bind_raise by exact Hloop.
Qed.

(** X14.  [import_config] raises where [load] falls back.  Only the read of
    the file is guarded: on a document that is a number, a boolean or null,
    on a list or a string that contains "tabs", and on a tab list with a tab
    that is not an object or has a list or a dict as its operation, the
    exception leaves [import_config], whatever button the user would have
    chosen. *)
Theorem import_raises_on_malformed_documents (filename : string)
    (choice : Choice) (current data : json) (w w1 : W) :
  filename <> "" ->
  open_read_json filename w = (Ok data, w1) ->
  crashes_import data ->
  exists e w', import_config filename choice current w = (Raise e, w').
Proof.
  intros Hname Hread Hbad. unfold import_config.
  apply String.eqb_neq in Hname. rewrite Hname.
  erewrite bind_ok
    by (apply try_ok; erewrite bind_ok by exact Hread; reflexivity).
  cbv beta iota.
  destruct data; cbn [py_contains py_getitem crashes_import] in *;
    try (eexists _, _; reflexivity).
  - erewrite bind_ok by reflexivity.
    rewrite bool_decide_eq_true_2 by exact Hbad. cbn [negb].
    eexists _, _; reflexivity.
  - erewrite bind_ok by reflexivity. rewrite Hbad. cbn [negb].
    eexists _, _; reflexivity.
  - destruct Hbad as (ts & Htabs & Hbad). rewrite Htabs.
    erewrite bind_ok by reflexivity.
    rewrite bool_decide_eq_true_2 by eauto. cbn [negb].
    erewrite bind_ok by reflexivity. cbv beta iota.
    change (for_each import_tab ts) with (for_each load_tab ts).
    destruct (for_each_raises load_tab not_normalizable
                (fun x w0 => load_tab_raises x w0) ts w1 Hbad)
      as (e & w2 & Hloop).
    exists e, w2. now erewrite bind_raise by exact Hloop.
Qed.

End LoadingAndImporting.

Lemma saved_config_loads_back_witness :
  Toy.read_json "/home/u/.config/file_router/config.json"
    (world_holding (json_of_config [settings_tab]))
  = (Ok (json_of_config [settings_tab]),
     world_holding (json_of_config [settings_tab]))
  /\ exists doc w',
       load (H := Toy.host) (world_holding (json_of_config [settings_tab]))
       = (Ok doc, w')
       /\ config_of_json doc = Some [settings_tab].
Proof.
  split; [reflexivity|].
  apply (saved_config_loads_back (H := Toy.host) [settings_tab]
           (world_holding (json_of_config [settings_tab]))
           (world_holding (json_of_config [settings_tab]))
           ltac:(apply Forall_cons_2; [reflexivity | apply Forall_nil_2])
           eq_refl eq_refl).
Defined.

Lemma load_tab_fills_the_gaps_witness :
  load_tab (H := Toy.host)
    (JObj {[ "name" := JStr "E"; "colour" := JStr "green" ]}) Fixture.world
  = (Ok (JObj (fill_defaults "uuid-0" (JStr "copy_replace")
                 {[ "name" := JStr "E"; "colour" := JStr "green" ]})),
     (Toy.fresh_id Fixture.world).2)
  /\ fill_defaults "uuid-0" (JStr "copy_replace")
       ({[ "name" := JStr "E"; "colour" := JStr "green" ]} : gmap string json)
     !! "path" = Some (JStr "")
  /\ fill_defaults "uuid-0" (JStr "copy_replace")
       ({[ "name" := JStr "E"; "colour" := JStr "green" ]} : gmap string json)
     !! "colour" = Some (JStr "green").
Proof.
  assert (Hrun : load_tab (H := Toy.host)
                   (JObj {[ "name" := JStr "E"; "colour" := JStr "green" ]})
                   Fixture.world
                 = (Ok (JObj (fill_defaults "uuid-0" (JStr "copy_replace")
                                {[ "name" := JStr "E";
                                   "colour" := JStr "green" ]})),
                    (Toy.fresh_id Fixture.world).2)).
  { apply (load_tab_eq (H := Toy.host)).
    intros v Hv. vm_compute in Hv. discriminate. }
  split; [exact Hrun|].
  destruct (load_tab_fills_the_gaps (H := Toy.host) _ _ _ _ Hrun)
    as (_ & _ & _ & Hpath & _ & _ & Hother).
  split; [exact Hpath|].
  now rewrite (Hother "colour") by discriminate.
Defined.

Lemma normalization_is_idempotent_witness :
  load_tab (H := Toy.host)
    (JObj {[ "name" := JStr "A"; "operation" := JStr "move" ]}) Fixture.world
  = (Ok (JObj (fill_defaults "uuid-0" (JStr "move_replace")
                 {[ "name" := JStr "A"; "operation" := JStr "move" ]})),
     (Toy.fresh_id Fixture.world).2)
  /\ load_tab (H := Toy.host)
       (JObj (fill_defaults "uuid-0" (JStr "move_replace")
                {[ "name" := JStr "A"; "operation" := JStr "move" ]}))
       Fixture.world
     = (Ok (JObj (fill_defaults "uuid-0" (JStr "move_replace")
                    {[ "name" := JStr "A"; "operation" := JStr "move" ]})),
        (Toy.fresh_id Fixture.world).2).
Proof.
  assert (Hrun : load_tab (H := Toy.host)
                   (JObj {[ "name" := JStr "A"; "operation" := JStr "move" ]})
                   Fixture.world
                 = (Ok (JObj (fill_defaults "uuid-0" (JStr "move_replace")
                                {[ "name" := JStr "A";
                                   "operation" := JStr "move" ]})),
                    (Toy.fresh_id Fixture.world).2)).
  { apply (load_tab_eq (H := Toy.host)).
    intros v Hv. vm_compute in Hv. now injection Hv as <-. }
  split; [exact Hrun|].
  apply (normalization_is_idempotent (H := Toy.host) _ _ _ _
           (or_introl Hrun) Fixture.world).
Defined.

Lemma load_is_all_or_nothing_witness :
  Exists not_normalizable [blank_tab "Inbox" "7c9e6679"; list_operation_tab]
  /\ exists config w',
       load (H := Toy.host)
         (world_holding
            (JObj {[ "tabs" := JArr [blank_tab "Inbox" "7c9e6679";
                                     list_operation_tab] ]}))
       = (Ok config, w')
       /\ is_default_config config.
Proof.
  assert (Hbad : Exists not_normalizable
                   [blank_tab "Inbox" "7c9e6679"; list_operation_tab]).
  { apply Exists_cons_tl, Exists_cons_hd. exists (JArr []).
    split; reflexivity. }
  split; [exact Hbad|].
  apply (load_is_all_or_nothing (H := Toy.host)
           (world_holding
              (JObj {[ "tabs" := JArr [blank_tab "Inbox" "7c9e6679";
                                       list_operation_tab] ]}))
           {[ "tabs" := JArr [blank_tab "Inbox" "7c9e6679";
                              list_operation_tab] ]}
           [blank_tab "Inbox" "7c9e6679"; list_operation_tab]
           (world_holding
              (JObj {[ "tabs" := JArr [blank_tab "Inbox" "7c9e6679";
                                       list_operation_tab] ]}))
           eq_refl eq_refl (lookup_singleton_eq _ _) Hbad).
Defined.

Lemma import_raises_on_malformed_documents_witness :
  crashes_import (JObj {[ "tabs" := JArr [JStr "Inbox"] ]})
  /\ exists e w',
       import_config (H := Toy.host)
         "/home/u/.config/file_router/config.json" Cancel
         (json_of_config [settings_tab])
         (world_holding (JObj {[ "tabs" := JArr [JStr "Inbox"] ]}))
       = (Raise e, w').
Proof.
  assert (Hbad : crashes_import (JObj {[ "tabs" := JArr [JStr "Inbox"] ]})).
  { exists [JStr "Inbox"]. split; [apply lookup_singleton_eq|].
    now apply Exists_cons_hd. }
  split; [exact Hbad|].
  apply (import_raises_on_malformed_documents (H := Toy.host)
           "/home/u/.config/file_router/config.json" Cancel
           (json_of_config [settings_tab])
           (JObj {[ "tabs" := JArr [JStr "Inbox"] ]})
           (world_holding (JObj {[ "tabs" := JArr [JStr "Inbox"] ]}))
           (world_holding (JObj {[ "tabs" := JArr [JStr "Inbox"] ]}))
           ltac:(discriminate) eq_refl Hbad).
Defined.

(** ** Merging an imported configuration *)

Section Merge.
Context `{Host}.

(** [import_config] on a file that holds a document with a list of tabs
    the loop goes through: what is left is the choice of the user. *)
Lemma import_config_tabs filename choice current w md ts w1 ts' w2 :
  filename <> "" ->
  open_read_json filename w = (Ok (JObj md), w1) ->
  md !! "tabs" = Some (JArr ts) ->
  for_each load_tab ts w1 = (Ok ts', w2) ->
  import_config filename choice current w
  = (match choice with
     | Cancel => mret (ImportAborted, current)
     | Yes =>
         let config := JObj {[ "tabs" := JArr ts' ]} in
         save config;;
         status ← rebuild_and_report config;
         mret (status, config)
     | No =>
         config ← extend_tabs current ts';
         save config;;
         status ← rebuild_and_report config;
         mret (status, config)
     end) w2.
Proof.
  intros Hname Hread Htabs Hloop. unfold import_config.
  apply String.eqb_neq in Hname. rewrite Hname.
  erewrite bind_ok
    by (apply try_ok; erewrite bind_ok by exact Hread; reflexivity).
  cbv beta iota. cbn [py_contains py_getitem]. rewrite Htabs.
  erewrite bind_ok by reflexivity.
  rewrite bool_decide_eq_true_2 by eauto. cbn [negb].
  erewrite bind_ok by reflexivity. cbv beta iota.
  change (for_each import_tab ts) with (for_each load_tab ts).
  erewrite bind_ok by exact Hloop. reflexivity.
Qed.

Lemma extend_tabs_ok m0 ts0 ts w :
  m0 !! "tabs" = Some (JArr ts0) ->
  extend_tabs (JObj m0) ts w
  = (Ok (JObj (<["tabs" := JArr (ts0 ++ ts)]> m0)), w).
Proof.
  intros Htabs. unfold extend_tabs. cbn [py_getitem]. rewrite Htabs.
  erewrite bind_ok by reflexivity. reflexivity.
Qed.


(** X16.  Exporting the configuration of the window and importing the file
    with Merge doubles it: every tab is there twice, with the same id, so
    the ids of a window with at least one tab are no longer unique. *)
Theorem export_then_merge_doubles_the_tabs (filename : string) (cfg : Config)
    (w w1 w2 : W) :
  enumerated cfg ->
  export_config filename (json_of_config cfg) w
  = (Ok (Exported filename), w1) ->
  open_read_json filename w1 = (Ok (json_of_config cfg), w2) ->
  exists w3,
    import_config filename No (json_of_config cfg) w1
    = (Ok (Imported, json_of_config (cfg ++ cfg)), w3)
    /\ ids (cfg ++ cfg) = ids cfg ++ ids cfg
    /\ (NoDup (ids (cfg ++ cfg)) -> cfg = []).
Proof.
  intros Hcfg Hexport Hread.
  assert (Hname : filename <> "").
  { intros ->. discriminate. }
  destruct (json_of_config_live cfg Hcfg) as (m & ts & Hdoc & Htabs & Hts).
  unfold json_of_config in Hdoc. injection Hdoc as <-.
  rewrite lookup_singleton_eq in Htabs. injection Htabs as <-.
  destruct (for_each_load_tab_complete _ w2 Hts) as [w3 Hloop].
  eexists. split; [|split].
  - unfold json_of_config at 1 2.
    rewrite (import_config_tabs filename No _ w1 _ _ w2 _ w3
               Hname Hread (lookup_singleton_eq _ _) Hloop).
    erewrite bind_ok by (apply extend_tabs_ok, lookup_singleton_eq).
    erewrite bind_ok by apply save_ok.
    rewrite insert_singleton_eq, <- fmap_app.
    fold (json_of_config (cfg ++ cfg)).
    erewrite bind_ok
      by (eapply rebuild_and_report_typed, config_of_json_of_config).
    reflexivity.
  - unfold ids. apply fmap_app.
  - unfold ids. rewrite fmap_app. intros Hnodup.
    destruct cfg as [|t cfg]; [reflexivity|]. exfalso.
    apply NoDup_app in Hnodup as (_ & Hdisj & _).
    apply (Hdisj (tab_id t)); rewrite fmap_cons; left.
Qed.

(** X17.  The configuration changes when [import_config] assigns it, not
    when it reports.  A run that ends with a closed file dialog, a file that
    cannot be read, a document without a list of tabs or the Cancel button
    leaves the configuration as it was.  Every other run that returns from
    the loop over the tabs assigns the new configuration and saves it, and
    only then rebuilds the pages: the import is reported when
    [_rebuild_tabs] returns, and when it raises (on a tab whose id cannot
    be hashed, say) its exception leaves [import_config] with the new
    configuration in place and saved, and nothing reported. *)
Theorem import_assigns_before_it_rebuilds (filename : string)
    (choice : Choice) (current : json) (w : W) (status : ImportStatus)
    (config' : json) (w' : W) :
  import_config filename choice current w = (Ok (status, config'), w') ->
  (status = ImportCancelled \/ (exists e, status = ImportReadError e)
   \/ status = ImportInvalidFormat \/ status = ImportAborted ->
   config' = current)
  /\ (choice = Cancel -> status = ImportAborted \/ config' = current)
  /\ (status = Imported \/ (exists e, status = RebuildRaised e) ->
      choice <> Cancel
      /\ exists w2,
           rebuild_and_report config'
             (open_write_json CONFIG_FILENAME config' w2).2 = (Ok status, w')
           /\ (_rebuild_tabs config'
                 (open_write_json CONFIG_FILENAME config' w2).2).1
              = match status with
                | RebuildRaised e => Raise e
                | _ => Ok ()
                end).
Proof.
  intros Hrun.
  destruct (import_config_cases filename choice current w)
    as [(st & w1 & Heq & Hst) | [(e & w1 & Heq)
       | (c & ts & w2 & st & w3 & Hchoice & _ & Hreport & Hst & Heq)]];
    rewrite Heq in Hrun; try discriminate.
  - injection Hrun as <- <- <-. split; [reflexivity|]. split; [now right|].
    intros [-> | [e ->]];
      destruct Hst as [? | [[? ?] | [? | [? ?]]]]; discriminate.
  - injection Hrun as <- <- <-. split.
    { intros [-> | [[e ->] | [-> | ->]]];
        destruct Hst as [? | [? ?]]; discriminate. }
    split.
    { intros ->. destruct Hchoice as [[? _] | [? _]]; discriminate. }
    intros _. split.
    { intros ->. destruct Hchoice as [[? _] | [? _]]; discriminate. }
    exists w2.
    assert (Hsaved : (save c w2).2 = (open_write_json CONFIG_FILENAME c w2).2).
    { unfold save, try_except, mret, M_mret, M_ret.
      now destruct (open_write_json CONFIG_FILENAME c w2) as [[[]|e] w4]. }
    rewrite <- Hsaved. split; [exact Hreport|].
    destruct (rebuild_and_report_cases c (save c w2).2)
      as [(w4 & Hrebuild & Hreport') | (e & w4 & Hrebuild & Hreport')];
      rewrite Hreport' in Hreport; injection Hreport as <- _;
      now rewrite Hrebuild.
Qed.

End Merge.


Lemma export_then_merge_doubles_the_tabs_witness :
  Toy.read_json "/tmp/tabs_config.json"
    (Toy.writes <["/tmp/tabs_config.json"
                    := Toy.File (Toy.Document exported_config)]>
       Fixture.world)
  = (Ok exported_config,
     Toy.writes <["/tmp/tabs_config.json"
                    := Toy.File (Toy.Document exported_config)]>
       Fixture.world)
  /\ exists w3,
       import_config (H := Toy.host) "/tmp/tabs_config.json" No
         exported_config
         (Toy.writes <["/tmp/tabs_config.json"
                         := Toy.File (Toy.Document exported_config)]>
            Fixture.world)
       = (Ok (Imported,
              json_of_config
                ([Fixture.tab OP_MOVE_NEW "/dst"; Fixture.tab OP_COPY_NEW ""]
                 ++ [Fixture.tab OP_MOVE_NEW "/dst";
                     Fixture.tab OP_COPY_NEW ""])), w3).
Proof.
  split; [reflexivity|].
  destruct (export_then_merge_doubles_the_tabs (H := Toy.host)
              "/tmp/tabs_config.json"
              [Fixture.tab OP_MOVE_NEW "/dst"; Fixture.tab OP_COPY_NEW ""]
              Fixture.world
              (Toy.writes <["/tmp/tabs_config.json"
                              := Toy.File (Toy.Document exported_config)]>
                 Fixture.world)
              (Toy.writes <["/tmp/tabs_config.json"
                              := Toy.File (Toy.Document exported_config)]>
                 Fixture.world)
              ltac:(repeat apply Forall_cons_2; done)
              eq_refl eq_refl)
    as (w3 & Hrun & _).
  exists w3. exact Hrun.
Defined.

Lemma import_assigns_before_it_rebuilds_witness :
  import_config (H := Toy.host) "/home/u/.config/file_router/config.json"
    Yes (json_of_config [settings_tab]) (world_holding unhashable_id_document)
  = (Ok (RebuildRaised "TypeError: unhashable type: 'list'",
         JObj {[ "tabs" := JArr [JObj (fill_defaults "uuid-0"
                                          (JStr "copy_replace")
                                          unhashable_id_tab)] ]}),
     (import_config (H := Toy.host) "/home/u/.config/file_router/config.json"
        Yes (json_of_config [settings_tab])
        (world_holding unhashable_id_document)).2)
  /\ Toy.read_json "/home/u/.config/file_router/config.json"
       (import_config (H := Toy.host)
          "/home/u/.config/file_router/config.json"
          Yes (json_of_config [settings_tab])
          (world_holding unhashable_id_document)).2
     = (Ok (JObj {[ "tabs" := JArr [JObj (fill_defaults "uuid-0"
                                            (JStr "copy_replace")
                                            unhashable_id_tab)] ]}),
        (import_config (H := Toy.host)
           "/home/u/.config/file_router/config.json"
           Yes (json_of_config [settings_tab])
           (world_holding unhashable_id_document)).2)
  /\ exists w2,
       (_rebuild_tabs (H := Toy.host)
          (JObj {[ "tabs" := JArr [JObj (fill_defaults "uuid-0"
                                           (JStr "copy_replace")
                                           unhashable_id_tab)] ]})
          (Toy.write_json "/home/u/.config/file_router/config.json"
             (JObj {[ "tabs" := JArr [JObj (fill_defaults "uuid-0"
                                              (JStr "copy_replace")
                                              unhashable_id_tab)] ]})
             w2).2).1
       = Raise "TypeError: unhashable type: 'list'".
Proof.
  assert (Hrun :
    import_config (H := Toy.host) "/home/u/.config/file_router/config.json"
      Yes (json_of_config [settings_tab])
      (world_holding unhashable_id_document)
    = (Ok (RebuildRaised "TypeError: unhashable type: 'list'",
           JObj {[ "tabs" := JArr [JObj (fill_defaults "uuid-0"
                                            (JStr "copy_replace")
                                            unhashable_id_tab)] ]}),
       (import_config (H := Toy.host)
          "/home/u/.config/file_router/config.json"
          Yes (json_of_config [settings_tab])
          (world_holding unhashable_id_document)).2)).
  { vm_compute. reflexivity. }
  split; [exact Hrun|]. split; [vm_compute; reflexivity|].
  destruct (import_assigns_before_it_rebuilds (H := Toy.host) _ _ _ _ _ _ _
              Hrun) as (_ & _ & Hassigned).
  destruct Hassigned as [_ (w2 & _ & Hraised)]; [right; eexists; reflexivity|].
  exists w2. exact Hraised.
Defined.

(** ** The commands of the tab registry *)

Lemma get_update_other (f : Tab -> Tab) (id id' : string) (cfg : Config) :
  (forall t, tab_id (f t) = tab_id t) ->
  id' <> id ->
  _get_tab_config_by_id (update_tab f id cfg) id'
  = _get_tab_config_by_id cfg id'.
Proof.
  intros Hid Hne. induction cfg as [|t cfg IH]; cbn; [reflexivity|].
  destruct (String.eqb_spec (tab_id t) id) as [Heq | Hneq]; cbn.
  - rewrite Hid.
    destruct (String.eqb_spec (tab_id t) id'); [congruence | reflexivity].
  - now rewrite IH.
Qed.

Lemma get_app (l1 l2 : Config) (id : string) :
  _get_tab_config_by_id (l1 ++ l2) id
  = match _get_tab_config_by_id l1 id with
    | Some t => Some t
    | None => _get_tab_config_by_id l2 id
    end.
Proof.
  induction l1 as [|t l1 IH]; cbn; [reflexivity|].
  now destruct (String.eqb (tab_id t) id).
Qed.

Lemma get_without_other (id id' : string) (cfg : Config) :
  id' <> id ->
  _get_tab_config_by_id (without_tab id cfg) id'
  = _get_tab_config_by_id cfg id'.
Proof.
  intros Hne. unfold without_tab.
  induction cfg as [|t cfg IH]; cbn; [reflexivity|].
  destruct (String.eqb_spec (tab_id t) id) as [Heq | Hneq]; cbn.
  - destruct (String.eqb_spec (tab_id t) id'); [congruence | exact IH].
  - now rewrite IH.
Qed.

Lemma without_tab_unknown (id : string) (cfg : Config) :
  unknown_id id (without_tab id cfg).
Proof.
  unfold unknown_id, without_tab.
  induction cfg as [|t cfg IH]; cbn; [constructor|].
  destruct (String.eqb_spec (tab_id t) id) as [Heq | Hneq]; cbn;
    [exact IH | now constructor].
Qed.

Lemma without_tab_split (id : string) (before : list Tab) (tab : Tab)
    (after : list Tab) :
  first_with_id id before tab after ->
  without_tab id (before ++ tab :: after) = before ++ without_tab id after.
Proof.
  intros [Hid Hbefore]. unfold without_tab.
  induction Hbefore as [|b before Hb _ IH]; cbn.
  - apply String.eqb_eq in Hid. now rewrite Hid.
  - apply String.eqb_neq in Hb. rewrite Hb. cbn. now rewrite IH.
Qed.

Lemma without_tab_absent (id : string) (cfg : Config) :
  unknown_id id cfg -> without_tab id cfg = cfg.
Proof.
  unfold without_tab. induction 1 as [|t cfg Ht _ IH]; cbn; [reflexivity|].
  apply String.eqb_neq in Ht. rewrite Ht. cbn. now rewrite IH.
Qed.

Lemma enumerated_update (f : Tab -> Tab) (id : string) (cfg : Config) :
  (forall t, is_operation (tab_operation t) = true ->
             is_operation (tab_operation (f t)) = true) ->
  enumerated cfg -> enumerated (update_tab f id cfg).
Proof.
  intros Hf. unfold enumerated.
  induction 1 as [|t cfg Ht Hcfg IH]; cbn; [constructor|].
  destruct (String.eqb (tab_id t) id); constructor; auto.
Qed.

Lemma enumerated_logged (id : string) (entries : list HistoryEntry) :
  forall cfg,
    enumerated cfg ->
    enumerated (foldl (fun cfg e => logged id e cfg) cfg entries).
Proof.
  induction entries as [|e entries IH]; intros cfg Hcfg; cbn; [exact Hcfg|].
  apply IH. now apply enumerated_update.
Qed.

Lemma enumerated_without (id : string) (cfg : Config) :
  enumerated cfg -> enumerated (without_tab id cfg).
Proof.
  unfold enumerated, without_tab.
  induction 1 as [|t cfg Ht Hcfg IH]; cbn; [constructor|].
  destruct (negb (String.eqb (tab_id t) id)); [now constructor | exact IH].
Qed.

Lemma radio_operation_enumerated (r : Radio) :
  is_operation (radio_operation r) = true.
Proof. now destruct r. Qed.

Section Commands.
Context `{Host}.
Variable str_strip : string -> string.

Lemma saved_run (cfg : Config) (w : W) :
  (save (json_of_config cfg);; mret cfg) w = (Ok cfg, saved cfg w).
Proof. erewrite bind_ok by apply save_ok. reflexivity. Qed.

(** Each command either leaves everything as it is or makes one change and
    saves. *)
Lemma assign_folder_cases id folder cfg w :
  assign_folder id folder cfg w = (Ok cfg, w)
  \/ assign_folder id folder cfg w
     = (Ok (update_tab (with_path folder) id cfg),
        saved (update_tab (with_path folder) id cfg) w).
Proof.
  unfold assign_folder. destruct (String.eqb folder ""); [now left|].
  destruct (_get_tab_config_by_id cfg id); [right | now left].
  apply saved_run.
Qed.

Lemma clear_folder_cases id cfg w :
  clear_folder id cfg w = (Ok cfg, w)
  \/ clear_folder id cfg w
     = (Ok (update_tab (with_path "") id cfg),
        saved (update_tab (with_path "") id cfg) w).
Proof.
  unfold clear_folder.
  destruct (_get_tab_config_by_id cfg id); [right | now left].
  apply saved_run.
Qed.

Lemma set_operation_cases id op cfg w :
  set_operation id op cfg w = (Ok cfg, w)
  \/ set_operation id op cfg w
     = (Ok (update_tab (with_operation op) id cfg),
        saved (update_tab (with_operation op) id cfg) w).
Proof.
  unfold set_operation.
  destruct (_get_tab_config_by_id cfg id); [right | now left].
  apply saved_run.
Qed.

Lemma rename_current_tab_cases current text ok cfg w :
  rename_current_tab str_strip current text ok cfg w = (Ok cfg, w)
  \/ exists id,
       current = Some id
       /\ rename_current_tab str_strip current text ok cfg w
          = (Ok (update_tab (with_name (str_strip text)) id cfg),
             saved (update_tab (with_name (str_strip text)) id cfg) w).
Proof.
  unfold rename_current_tab. destruct current as [id|]; [|now left].
  destruct (_get_tab_config_by_id cfg id); [|now left].
  destruct (negb ok || String.eqb (str_strip text) ""); [now left|].
  right. exists id. split; [reflexivity | apply saved_run].
Qed.

Lemma delete_current_tab_cases current confirmed cfg w :
  delete_current_tab current confirmed cfg w = (Ok cfg, w)
  \/ exists id,
       current = Some id
       /\ delete_current_tab current confirmed cfg w
          = (Ok (without_tab id cfg), saved (without_tab id cfg) w).
Proof.
  unfold delete_current_tab. destruct current as [id|]; [|now left].
  destruct (_get_tab_config_by_id cfg id); [|now left].
  destruct (negb confirmed); [now left|].
  right. exists id. split; [reflexivity | apply saved_run].
Qed.

Lemma add_tab_run text cfg w :
  str_strip text <> "" ->
  add_tab str_strip text true cfg w
  = (Ok (cfg ++ [{| tab_id := (uuid4 w).1; tab_name := str_strip text;
                    tab_path := ""; tab_operation := OP_COPY_REPLACE;
                    tab_history := [] |}]),
     saved (cfg ++ [{| tab_id := (uuid4 w).1; tab_name := str_strip text;
                       tab_path := ""; tab_operation := OP_COPY_REPLACE;
                       tab_history := [] |}]) (uuid4 w).2).
Proof.
  intros Hname. unfold add_tab. apply String.eqb_neq in Hname.
  rewrite Hname. cbn [negb orb].
  erewrite bind_ok by (unfold draws; reflexivity).
  erewrite bind_ok by (eapply create_tab_typed, tab_of_json_of_tab).
  apply saved_run.
Qed.

Lemma add_tab_cases text ok cfg w :
  add_tab str_strip text ok cfg w = (Ok cfg, w)
  \/ add_tab str_strip text ok cfg w
     = (Ok (cfg ++ [{| tab_id := (uuid4 w).1; tab_name := str_strip text;
                       tab_path := ""; tab_operation := OP_COPY_REPLACE;
                       tab_history := [] |}]),
        saved (cfg ++ [{| tab_id := (uuid4 w).1; tab_name := str_strip text;
                          tab_path := ""; tab_operation := OP_COPY_REPLACE;
                          tab_history := [] |}]) (uuid4 w).2).
Proof.
  destruct ok.
  - destruct (String.eqb_spec (str_strip text) "") as [Hblank | Hname].
    + left. unfold add_tab. apply String.eqb_eq in Hblank. now rewrite Hblank.
    + right. now apply add_tab_run.
  - now left.
Qed.

(** X18.  A dismissed dialog changes nothing and saves nothing: a folder
    dialog that was closed, an input dialog that was cancelled or whose
    text is blank, a deletion that was not confirmed, a closed file dialog
    of export or import, and a rename or a deletion when the tab widget
    shows no page. *)
Theorem dismissed_dialogs_change_nothing (id text : string)
    (current : option string) (choice : Choice) (cfg : Config)
    (config : json) (w : W) :
  assign_folder id "" cfg w = (Ok cfg, w)
  /\ add_tab str_strip text false cfg w = (Ok cfg, w)
  /\ (str_strip text = "" ->
      forall ok,
        add_tab str_strip text ok cfg w = (Ok cfg, w)
        /\ rename_current_tab str_strip current text ok cfg w = (Ok cfg, w))
  /\ rename_current_tab str_strip current text false cfg w = (Ok cfg, w)
  /\ (forall ok, rename_current_tab str_strip None text ok cfg w = (Ok cfg, w))
  /\ delete_current_tab current false cfg w = (Ok cfg, w)
  /\ (forall confirmed, delete_current_tab None confirmed cfg w = (Ok cfg, w))
  /\ export_config "" config w = (Ok ExportCancelled, w)
  /\ import_config "" choice config w = (Ok (ImportCancelled, config), w).
Proof.
  repeat split; try reflexivity.
  - unfold add_tab. apply String.eqb_eq in H0. rewrite H0.
    now rewrite orb_true_r.
  - unfold rename_current_tab. destruct current as [id0|]; [|reflexivity].
    destruct (_get_tab_config_by_id cfg id0); [|reflexivity].
    apply String.eqb_eq in H0. rewrite H0. now rewrite orb_true_r.
  - unfold rename_current_tab. destruct current as [id0|]; [|reflexivity].
    now destruct (_get_tab_config_by_id cfg id0).
  - unfold delete_current_tab. destruct current as [id0|]; [|reflexivity].
    now destruct (_get_tab_config_by_id cfg id0).
Qed.

(** X19.  A command for an id that no tab has changes nothing and saves
    nothing: a batch ends with the tab-not-found error before any path is
    looked at, a history entry is dropped, and the folder, operation,
    rename and delete commands return as they came. *)
Theorem unknown_id_changes_nothing (id : string) (cfg : Config) (w : W) :
  Forall (fun t => tab_id t <> id) cfg ->
  (forall src_paths,
     handle_drop id src_paths cfg w = (Ok (TabNotFound, cfg), w))
  /\ (forall op src dest res,
        _add_history_entry id op src dest res cfg w = (Ok cfg, w))
  /\ (forall folder, assign_folder id folder cfg w = (Ok cfg, w))
  /\ clear_folder id cfg w = (Ok cfg, w)
  /\ (forall op, set_operation id op cfg w = (Ok cfg, w))
  /\ (forall text ok,
        rename_current_tab str_strip (Some id) text ok cfg w = (Ok cfg, w))
  /\ (forall confirmed,
        delete_current_tab (Some id) confirmed cfg w = (Ok cfg, w)).
Proof.
  intros Hunknown. apply get_unknown in Hunknown.
  repeat split; intros;
    unfold handle_drop, _add_history_entry, assign_folder, clear_folder,
      set_operation, rename_current_tab, delete_current_tab;
    rewrite Hunknown; try reflexivity.
  now destruct (String.eqb folder "").
Qed.

(** X20.  [add_tab] with a name that is not blank appends one tab and saves:
    the tab has the stripped name, the drawn id, no folder, the operation
    [copy_replace] and no history.  Every tab that was there is found as
    before; the new tab is found by its id when no tab had that id, and
    then unique ids stay unique. *)
Theorem add_tab_registers_a_new_tab (text : string) (cfg : Config) (w : W) :
  str_strip text <> "" ->
  exists new cfg' w',
    add_tab str_strip text true cfg w = (Ok cfg', w')
    /\ new = {| tab_id := (uuid4 w).1; tab_name := str_strip text;
                tab_path := ""; tab_operation := OP_COPY_REPLACE;
                tab_history := [] |}
    /\ cfg' = cfg ++ [new]
    /\ w' = (open_write_json CONFIG_FILENAME (json_of_config cfg')
               (uuid4 w).2).2
    /\ (forall id t,
          _get_tab_config_by_id cfg id = Some t ->
          _get_tab_config_by_id cfg' id = Some t)
    /\ (Forall (fun t => tab_id t <> (uuid4 w).1) cfg ->
        _get_tab_config_by_id cfg' (uuid4 w).1 = Some new
        /\ (NoDup (ids cfg) -> NoDup (ids cfg'))).
Proof.
  intros Hname. eexists _, _, _.
  split; [now apply add_tab_run|]. split; [reflexivity|].
  split; [reflexivity|]. split; [apply saved_is_write|]. split.
  - intros id t Hget. now rewrite get_app, Hget.
  - intros Hfresh. split.
    + rewrite get_app. rewrite (proj2 (get_unknown cfg _) Hfresh).
      cbn. now rewrite String.eqb_refl.
    + intros Hnodup. unfold ids. rewrite fmap_app. cbn.
      apply NoDup_app. split; [exact Hnodup|]. split.
      * intros x Hx Hin. apply list_elem_of_singleton in Hin as ->.
        apply list_elem_of_fmap in Hx as (t & Heq & Hin).
        rewrite Forall_forall in Hfresh. now apply (Hfresh t Hin).
      * apply NoDup_singleton.
Qed.

(** X21.  A confirmed [delete_current_tab] removes the current tab with its
    history and, with it, every later tab that has the same id; the other
    tabs stay, in their order, and are found as before.  When the id was
    unique exactly one tab goes. *)
Theorem delete_removes_every_tab_with_the_id (id : string)
    (before : list Tab) (tab : Tab) (after : list Tab) (w : W) :
  tab_id tab = id ->
  Forall (fun t => tab_id t <> id) before ->
  exists cfg' w',
    delete_current_tab (Some id) true (before ++ tab :: after) w
    = (Ok cfg', w')
    /\ cfg' = before ++ without_tab id after
    /\ w' = (open_write_json CONFIG_FILENAME (json_of_config cfg') w).2
    /\ _get_tab_config_by_id cfg' id = None
    /\ (forall id',
          id' <> id ->
          _get_tab_config_by_id cfg' id'
          = _get_tab_config_by_id (before ++ tab :: after) id')
    /\ (Forall (fun t => tab_id t <> id) after -> cfg' = before ++ after).
Proof.
  intros Hid Hbefore.
  assert (Hfirst : first_with_id id before tab after) by now split.
  assert (Hget : _get_tab_config_by_id (before ++ tab :: after) id = Some tab).
  { apply get_split. now exists before, after. }
  exists (before ++ without_tab id after). eexists.
  split.
  { unfold delete_current_tab. rewrite Hget. cbn [negb].
    rewrite saved_run. rewrite (without_tab_split id before tab after Hfirst).
    reflexivity. }
  split; [reflexivity|]. split; [apply saved_is_write|].
  rewrite <- (without_tab_split id before tab after Hfirst).
  split; [apply get_unknown, without_tab_unknown|].
  split; [intros id' Hne; now apply get_without_other|].
  intros Hafter. rewrite (without_tab_split id before tab after Hfirst).
  now rewrite (without_tab_absent id after Hafter).
Qed.

(** X22.  The folder, operation and rename commands change one field of the
    first tab with the id and nothing else: its other fields and its history
    and all other tabs are as they were, and the configuration is saved. *)
Theorem setters_change_one_field (id : string) (before : list Tab)
    (tab : Tab) (after : list Tab) (w : W) :
  tab_id tab = id ->
  Forall (fun t => tab_id t <> id) before ->
  (forall folder,
     folder <> "" ->
     assign_folder id folder (before ++ tab :: after) w
     = (Ok (before ++ with_path folder tab :: after),
        saved (before ++ with_path folder tab :: after) w))
  /\ clear_folder id (before ++ tab :: after) w
     = (Ok (before ++ with_path "" tab :: after),
        saved (before ++ with_path "" tab :: after) w)
  /\ (forall op,
        set_operation id op (before ++ tab :: after) w
        = (Ok (before ++ with_operation op tab :: after),
           saved (before ++ with_operation op tab :: after) w))
  /\ (forall text,
        str_strip text <> "" ->
        rename_current_tab str_strip (Some id) text true
          (before ++ tab :: after) w
        = (Ok (before ++ with_name (str_strip text) tab :: after),
           saved (before ++ with_name (str_strip text) tab :: after) w)).
Proof.
  intros Hid Hbefore.
  assert (Hfirst : first_with_id id before tab after) by now split.
  assert (Hget : _get_tab_config_by_id (before ++ tab :: after) id = Some tab).
  { apply get_split. now exists before, after. }
  repeat split.
  - intros folder Hfolder. unfold assign_folder.
    apply String.eqb_neq in Hfolder. rewrite Hfolder, Hget.
    rewrite saved_run. now rewrite (update_tab_split _ id before tab after Hfirst).
  - unfold clear_folder. rewrite Hget.
    rewrite saved_run. now rewrite (update_tab_split _ id before tab after Hfirst).
  - intros op. unfold set_operation. rewrite Hget.
    rewrite saved_run. now rewrite (update_tab_split _ id before tab after Hfirst).
  - intros text Hname. unfold rename_current_tab. rewrite Hget.
    apply String.eqb_neq in Hname. rewrite Hname. cbn [negb orb].
    rewrite saved_run. now rewrite (update_tab_split _ id before tab after Hfirst).
Qed.

End Commands.

(** ** Commands and batches together *)

Section CommandsAndBatches.
Context `{Host}.
Variable str_strip : string -> string.

Lemma handle_drop_runs id src_paths cfg w tab :
  _get_tab_config_by_id cfg id = Some tab ->
  tab_path tab <> "" ->
  os_path_isdir (tab_path tab) w = true ->
  exists t cfg' w',
    handle_drop id src_paths cfg w
    = (Ok (BatchDone (tab_operation tab) (tab_path tab) (tab_name tab) t, cfg'),
       w').
Proof.
  intros Hget Hpath Hdir.
  destruct (drop_loop_uniform id (tab_operation tab) (tab_path tab) src_paths
              cfg tab w Hget) as (t & cfg' & w' & f & _ & Hloop).
  exists t, cfg', w'.
  rewrite (handle_drop_valid id src_paths cfg w tab Hget Hpath Hdir).
  erewrite bind_ok by apply Hloop. now rewrite none_add_tally.
Qed.

Lemma handle_drop_rejects id src_paths cfg w tab :
  _get_tab_config_by_id cfg id = Some tab ->
  tab_path tab = "" \/ os_path_isdir (tab_path tab) w = false ->
  handle_drop id src_paths cfg w
  = (Ok (NoValidDestination (tab_name tab), cfg), w).
Proof.
  intros Hget Hbad.
  destruct (handle_drop_cases id src_paths cfg w)
    as [[Hnone _] | [(tab' & Hget' & _ & Hrun)
                    | (tab' & es & t & cfg' & w' & Hget' & Hpath & Hdir & _)]].
  - congruence.
  - rewrite Hget in Hget'. now injection Hget' as <-.
  - rewrite Hget in Hget'. injection Hget' as <-.
    destruct Hbad; congruence.
Qed.

(** X23.  A setting takes effect on the next drop.  After [clear_folder]
    every batch on the tab is rejected for want of a destination; after
    [set_operation] a batch runs in the new mode, to the same folder; after
    [assign_folder] a batch goes to the new folder in the old mode when the
    folder is a directory, and is rejected when it is not: the folder is not
    checked when it is assigned. *)
Theorem settings_take_effect_on_the_next_drop (id : string)
    (src_paths : list string) (cfg : Config) (w : W) (tab : Tab) :
  _get_tab_config_by_id cfg id = Some tab ->
  (exists cfg' w',
     clear_folder id cfg w = (Ok cfg', w')
     /\ handle_drop id src_paths cfg' w'
        = (Ok (NoValidDestination (tab_name tab), cfg'), w'))
  /\ (forall op,
        exists cfg' w',
          set_operation id op cfg w = (Ok cfg', w')
          /\ (tab_path tab <> "" ->
              os_path_isdir (tab_path tab) w' = true ->
              exists t cfg'' w'',
                handle_drop id src_paths cfg' w'
                = (Ok (BatchDone op (tab_path tab) (tab_name tab) t, cfg''),
                   w'')))
  /\ (forall folder,
        folder <> "" ->
        exists cfg' w',
          assign_folder id folder cfg w = (Ok cfg', w')
          /\ (os_path_isdir folder w' = true ->
              exists t cfg'' w'',
                handle_drop id src_paths cfg' w'
                = (Ok (BatchDone (tab_operation tab) folder (tab_name tab) t,
                       cfg''), w''))
          /\ (os_path_isdir folder w' = false ->
              handle_drop id src_paths cfg' w'
              = (Ok (NoValidDestination (tab_name tab), cfg'), w'))).
Proof.
  intros Hget. split; [|split].
  - eexists _, _. split.
    + unfold clear_folder. rewrite Hget. apply saved_run.
    + apply (handle_drop_rejects id src_paths _ _ (with_path "" tab)).
      * now apply get_update_tab.
      * now left.
  - intros op. eexists _, _. split.
    + unfold set_operation. rewrite Hget. apply saved_run.
    + intros Hpath Hdir.
      apply (handle_drop_runs id src_paths _ _ (with_operation op tab)).
      * now apply get_update_tab.
      * exact Hpath.
      * exact Hdir.
  - intros folder Hfolder. eexists _, _. split; [|split].
    + unfold assign_folder. apply String.eqb_neq in Hfolder.
      rewrite Hfolder, Hget. apply saved_run.
    + intros Hdir.
      apply (handle_drop_runs id src_paths _ _ (with_path folder tab)).
      * now apply get_update_tab.
      * exact Hfolder.
      * exact Hdir.
    + intros Hdir.
      apply (handle_drop_rejects id src_paths _ _ (with_path folder tab)).
      * now apply get_update_tab.
      * now right.
Qed.

(** X24.  The operation of every tab stays one of the four enumerated
    values: a window that starts from such a configuration keeps it through
    batches, history entries, new, renamed and deleted tabs, folder changes
    and every operation a radio button sets, so every document it saves is
    one that [load] and [import_config] take as it is. *)
Theorem operations_stay_enumerated (cfg : Config) (w : W) (cfg' : Config)
    (w' : W) :
  enumerated cfg ->
  (exists id src_paths status,
     handle_drop id src_paths cfg w = (Ok (status, cfg'), w'))
  \/ (exists id op src dest res,
        _add_history_entry id op src dest res cfg w = (Ok cfg', w'))
  \/ (exists id folder, assign_folder id folder cfg w = (Ok cfg', w'))
  \/ (exists id, clear_folder id cfg w = (Ok cfg', w'))
  \/ (exists id r,
        set_operation id (radio_operation r) cfg w = (Ok cfg', w'))
  \/ (exists text ok, add_tab str_strip text ok cfg w = (Ok cfg', w'))
  \/ (exists current text ok,
        rename_current_tab str_strip current text ok cfg w = (Ok cfg', w'))
  \/ (exists current confirmed,
        delete_current_tab current confirmed cfg w = (Ok cfg', w')) ->
  enumerated cfg' /\ live_config (json_of_config cfg').
Proof.
  intros Hcfg Hrun.
  assert (Henum : enumerated cfg'); [|split; [exact Henum|]].
  2: { now apply json_of_config_live. }
  destruct Hrun as [(id & srcs & status & Hrun)
    | [(id & op & src & dest & res & Hrun)
    | [(id & folder & Hrun)
    | [(id & Hrun)
    | [(id & r & Hrun)
    | [(text & ok & Hrun)
    | [(current & text & ok & Hrun)
    | (current & confirmed & Hrun)]]]]]]].
  - destruct (handle_drop_cases id srcs cfg w)
      as [[_ Heq] | [(tab & _ & _ & Heq)
                    | (tab & es & t & cfg1 & w1 & _ & _ & _ & Heq & _ & _ & _
                       & ->)]];
      rewrite Heq in Hrun; injection Hrun as _ <- _; try exact Hcfg.
    now apply enumerated_logged.
  - destruct (_get_tab_config_by_id cfg id) as [tab|] eqn:Hget.
    + rewrite (add_history_entry_logged id op src dest res cfg w tab Hget)
        in Hrun.
      injection Hrun as <- _. now apply enumerated_update.
    + unfold _add_history_entry in Hrun. rewrite Hget in Hrun.
      injection Hrun as <- _. exact Hcfg.
  - destruct (assign_folder_cases id folder cfg w) as [Heq | Heq];
      rewrite Heq in Hrun; injection Hrun as <- _;
      [exact Hcfg | now apply enumerated_update].
  - destruct (clear_folder_cases id cfg w) as [Heq | Heq];
      rewrite Heq in Hrun; injection Hrun as <- _;
      [exact Hcfg | now apply enumerated_update].
  - destruct (set_operation_cases id (radio_operation r) cfg w) as [Heq | Heq];
      rewrite Heq in Hrun; injection Hrun as <- _; [exact Hcfg|].
    apply enumerated_update; [|exact Hcfg].
    intros t _. apply radio_operation_enumerated.
  - destruct (add_tab_cases str_strip text ok cfg w) as [Heq | Heq];
      rewrite Heq in Hrun; injection Hrun as <- _; [exact Hcfg|].
    apply Forall_app. split; [exact Hcfg|].
    apply Forall_cons_2; [reflexivity | apply Forall_nil_2].
  - destruct (rename_current_tab_cases str_strip current text ok cfg w)
      as [Heq | (id & _ & Heq)];
      rewrite Heq in Hrun; injection Hrun as <- _;
      [exact Hcfg | now apply enumerated_update].
  - destruct (delete_current_tab_cases current confirmed cfg w)
      as [Heq | (id & _ & Heq)];
      rewrite Heq in Hrun; injection Hrun as <- _;
      [exact Hcfg | now apply enumerated_without].
Qed.


End CommandsAndBatches.

(** X26.  The radio buttons of a tab page and the operation of the tab.
    The button [_create_tab] checks for the operation a button sets is that
    button; the operation of the checked button is the operation of the tab
    exactly when that is one of the four enumerated values (for any other
    text the page shows the last button, move if new). *)
Theorem radio_buttons_show_the_operation :
  (forall r, checked_radio (radio_operation r) = r)
  /\ (forall op,
        radio_operation (checked_radio op) = op <-> is_operation op = true)
  /\ (forall op,
        is_operation op = false -> checked_radio op = MoveNewRadio).
Proof.
  split; [|split].
  - now intros [].
  - intros op. split.
    + intros <-. apply radio_operation_enumerated.
    + intros Hop. apply is_operation_cases in Hop.
      destruct Hop as [-> | [-> | [-> | ->]]]; reflexivity.
  - intros op Hop. unfold is_operation in Hop.
    apply orb_false_elim in Hop as [Hop H4].
    apply orb_false_elim in Hop as [Hop H3].
    apply orb_false_elim in Hop as [H1 H2].
    unfold checked_radio. now rewrite H1, H2, H3.
Qed.

Lemma unknown_id_changes_nothing_witness :
  Forall (fun t => tab_id t <> "t9") [Fixture.tab OP_MOVE_NEW "/dst"]
  /\ handle_drop (H := Toy.host) "t9" ["/a.txt"]
       [Fixture.tab OP_MOVE_NEW "/dst"] Fixture.world
     = (Ok (TabNotFound, [Fixture.tab OP_MOVE_NEW "/dst"]), Fixture.world).
Proof.
  assert (Hunknown : Forall (fun t => tab_id t <> "t9")
                       [Fixture.tab OP_MOVE_NEW "/dst"]).
  { apply Forall_cons_2; [discriminate | apply Forall_nil_2]. }
  split; [exact Hunknown|].
  apply (proj1 (unknown_id_changes_nothing (H := Toy.host) Toy.strip "t9"
                  [Fixture.tab OP_MOVE_NEW "/dst"] Fixture.world Hunknown)).
Defined.

Lemma add_tab_registers_a_new_tab_witness :
  Toy.strip "  Inbox " = "Inbox"
  /\ exists new cfg' w',
       add_tab (H := Toy.host) Toy.strip "  Inbox " true
         [Fixture.tab OP_MOVE_NEW "/dst"] Fixture.world
       = (Ok cfg', w')
       /\ new = {| tab_id := "uuid-0"; tab_name := "Inbox"; tab_path := "";
                   tab_operation := OP_COPY_REPLACE; tab_history := [] |}
       /\ cfg' = [Fixture.tab OP_MOVE_NEW "/dst"] ++ [new].
Proof.
  split; [reflexivity|].
  destruct (add_tab_registers_a_new_tab (H := Toy.host) Toy.strip "  Inbox "
              [Fixture.tab OP_MOVE_NEW "/dst"] Fixture.world
              ltac:(discriminate))
    as (new & cfg' & w' & Hrun & Hnew & Hcfg & _).
  exists new, cfg', w'. split; [exact Hrun|]. split; [exact Hnew | exact Hcfg].
Defined.

Lemma delete_removes_every_tab_with_the_id_witness :
  Forall (fun t => tab_id t <> "t1") ([] : list Tab)
  /\ exists cfg' w',
       delete_current_tab (H := Toy.host) (Some "t1") true
         ([] ++ Fixture.tab OP_MOVE_NEW "/dst"
             :: [Fixture.tab OP_COPY_NEW "/elsewhere"]) Fixture.world
       = (Ok cfg', w')
       /\ cfg' = [] ++ without_tab "t1" [Fixture.tab OP_COPY_NEW "/elsewhere"].
Proof.
  split; [apply Forall_nil_2|].
  destruct (delete_removes_every_tab_with_the_id (H := Toy.host) "t1" []
              (Fixture.tab OP_MOVE_NEW "/dst")
              [Fixture.tab OP_COPY_NEW "/elsewhere"] Fixture.world eq_refl
              (Forall_nil_2 _))
    as (cfg' & w' & Hrun & Hcfg & _).
  exists cfg', w'. split; [exact Hrun | exact Hcfg].
Defined.

Lemma setters_change_one_field_witness :
  Forall (fun t => tab_id t <> "t1") ([] : list Tab)
  /\ set_operation (H := Toy.host) "t1" OP_COPY_NEW
       ([] ++ Fixture.tab OP_MOVE_NEW "/dst" :: []) Fixture.world
     = (Ok ([] ++ with_operation OP_COPY_NEW (Fixture.tab OP_MOVE_NEW "/dst")
               :: []),
        saved (H := Toy.host) ([] ++ with_operation OP_COPY_NEW (Fixture.tab OP_MOVE_NEW "/dst")
                  :: []) Fixture.world).
Proof.
  split; [apply Forall_nil_2|].
  destruct (setters_change_one_field (H := Toy.host) Toy.strip "t1" []
              (Fixture.tab OP_MOVE_NEW "/dst") [] Fixture.world eq_refl
              (Forall_nil_2 _))
    as (_ & _ & Hset & _).
  apply Hset.
Defined.

Lemma settings_take_effect_on_the_next_drop_witness :
  _get_tab_config_by_id [Fixture.tab OP_MOVE_NEW "/dst"] "t1"
  = Some (Fixture.tab OP_MOVE_NEW "/dst")
  /\ exists cfg' w',
       clear_folder (H := Toy.host) "t1" [Fixture.tab OP_MOVE_NEW "/dst"]
         Fixture.world
       = (Ok cfg', w')
       /\ handle_drop (H := Toy.host) "t1" ["/a.txt"] cfg' w'
          = (Ok (NoValidDestination "L1", cfg'), w').
Proof.
  split; [reflexivity|].
  apply (proj1 (settings_take_effect_on_the_next_drop (H := Toy.host) "t1"
                  ["/a.txt"] [Fixture.tab OP_MOVE_NEW "/dst"] Fixture.world
                  (Fixture.tab OP_MOVE_NEW "/dst") eq_refl)).
Defined.

Lemma operations_stay_enumerated_witness :
  enumerated [Fixture.tab OP_MOVE_NEW "/dst"]
  /\ enumerated
       [with_operation OP_COPY_NEW (Fixture.tab OP_MOVE_NEW "/dst")]
  /\ live_config
       (json_of_config
          [with_operation OP_COPY_NEW (Fixture.tab OP_MOVE_NEW "/dst")]).
Proof.
  assert (Hcfg : enumerated [Fixture.tab OP_MOVE_NEW "/dst"]).
  { apply Forall_cons_2; [reflexivity | apply Forall_nil_2]. }
  split; [exact Hcfg|].
  apply (operations_stay_enumerated (H := Toy.host) Toy.strip
           [Fixture.tab OP_MOVE_NEW "/dst"] Fixture.world
           [with_operation OP_COPY_NEW (Fixture.tab OP_MOVE_NEW "/dst")]
           (saved (H := Toy.host) [with_operation OP_COPY_NEW (Fixture.tab OP_MOVE_NEW "/dst")]
              Fixture.world) Hcfg).
  do 4 right. left. exists "t1", CopyNewRadio.
  destruct (set_operation_cases (H := Toy.host) "t1"
              (radio_operation CopyNewRadio)
              [Fixture.tab OP_MOVE_NEW "/dst"] Fixture.world)
    as [Heq | Heq]; [discriminate Heq | exact Heq].
Defined.

